(** * A shallow embedding of the GNU v2 C++ demangler (src/gnu_v2/cplus-dem.c)

    The C source is translated function by function.  The conventions are:

    - a [const char *] is a [cursor]: a byte block (the bytes of the object
      it points into, terminator included) and an offset.  Reading a byte that
      does not belong to the block is the fault [OverRead];
    - the growable [string] of the C file (pointers b, p, e) is the Rocq
      [string] of the bytes between b and p;
    - [int] is a [Z] within the 32-bit signed range, [uint32_t] a [Z] taken
      modulo 2^32; arithmetic on [int] that leaves the range is the fault
      [IntOverflow];
    - every function that takes [struct work_stuff *work] lives in the state
      monad [M] over [work_stuff]; a [const char **mangled] argument becomes
      a cursor argument and a cursor result, a [string *] argument a string
      argument and a string result;
    - recursion between the grammar productions is bounded by a fuel
      counter: the productions are written against a record [Rec] of their
      own recursive entries, and [run] ties the knot by recursion on the
      fuel. *)

From Stdlib Require Import ZArith String Ascii List Bool Lia DecimalString.
Import ListNotations.

Local Open Scope string_scope.
Local Open Scope Z_scope.

(** ** Bytes *)

Definition NUL : ascii := Ascii.zero.

Definition code (c : ascii) : Z := Z.of_N (N_of_ascii c).

Definition isdigit (c : ascii) : bool := (48 <=? code c) && (code c <=? 57).

Definition islower_az (c : ascii) : bool := (97 <=? code c) && (code c <=? 122).

Notation "a == b" := (Ascii.eqb a b) (at level 70, no associativity).

Fixpoint one_of (c : ascii) (s : string) : bool :=
  match s with
  | EmptyString => false
  | String d s' => (c == d) || one_of c s'
  end.

(** A C string seen through a [char *]: the bytes before the first NUL. *)
Fixpoint c_str (s : string) : string :=
  match s with
  | EmptyString => EmptyString
  | String c s' => if c == NUL then EmptyString else String c (c_str s')
  end.

(** The block a NUL-terminated copy of [s] occupies. *)
Definition block_of (s : string) : string := s ++ String NUL EmptyString.

Definition len (s : string) : Z := Z.of_nat (String.length s).

Fixpoint drop (n : nat) (s : string) : string :=
  match n, s with
  | O, _ => s
  | S n', String _ s' => drop n' s'
  | S _, EmptyString => EmptyString
  end.

Fixpoint take (n : nat) (s : string) : string :=
  match n, s with
  | O, _ => EmptyString
  | S n', String c s' => String c (take n' s')
  | S _, EmptyString => EmptyString
  end.

(** ** Results: a value, a fault (undefined behaviour of the C program), or
    exhausted fuel *)

Inductive fault : Type :=
| OverRead     (* a byte outside its block is read *)
| IntOverflow  (* signed arithmetic leaves the range of int *)
| BadLength.   (* a negative length reaches memcpy or malloc *)

Inductive res (A : Type) : Type :=
| Ret (a : A)
| Fault (f : fault)
| OutOfFuel.

Arguments Ret {A} a.
Arguments Fault {A} f.
Arguments OutOfFuel {A}.

Definition rbind {A B : Type} (m : res A) (k : A -> res B) : res B :=
  match m with
  | Ret a => k a
  | Fault f => Fault f
  | OutOfFuel => OutOfFuel
  end.

Declare Scope res_scope.
Delimit Scope res_scope with res.
Notation "x <~ m ;; k" := (rbind m (fun x => k))
  (at level 61, m at next level, right associativity) : res_scope.
Notation "' p <~ m ;; k" := (rbind m (fun x => let 'p := x in k))
  (at level 61, p pattern, m at next level, right associativity) : res_scope.
Local Open Scope res_scope.

(** Short-circuit conjunction and disjunction of tests that read memory. *)
Definition andR (a b : res bool) : res bool :=
  x <~ a ;; if x then b else Ret false.

Definition orR (a b : res bool) : res bool :=
  x <~ a ;; if x then Ret true else b.

Notation "a &&& b" := (andR a b) (at level 40, left associativity).
Notation "a ||| b" := (orR a b) (at level 50, left associativity).

(** ** Integers *)

Definition UT32_MAX : Z := 4294967295.
Definition INT_MAX : Z := 2147483647.
Definition INT_MIN : Z := -2147483648.

Definition u32 (x : Z) : Z := x mod 4294967296.

(** Conversion of a [uint32_t] to [int] (two's complement). *)
Definition to_int (x : Z) : Z := if x <=? INT_MAX then x else x - 4294967296.

(** Signed arithmetic: a result outside of [int] is undefined. *)
Definition int_chk (x : Z) : res Z :=
  if (INT_MIN <=? x) && (x <=? INT_MAX) then Ret x else Fault IntOverflow.

(** Decimal spelling of an integer, as printf's %d writes it. *)
Definition string_of_Z (z : Z) : string := NilZero.string_of_int (Z.to_int z).

(** ** Cursors *)

Record cursor : Type := { blk : string; off : Z }.

Definition cursor_of (s : string) : cursor := {| blk := block_of s; off := 0 |}.

(** [p + k] *)
Definition adv (p : cursor) (k : Z) : cursor := {| blk := blk p; off := off p + k |}.

(** [p[k]] *)
Definition peek (p : cursor) (k : Z) : res ascii :=
  let i := off p + k in
  if i <? 0 then Fault OverRead
  else match String.get (Z.to_nat i) (blk p) with
       | Some c => Ret c
       | None => Fault OverRead
       end.

(** The bytes of the block from the cursor on; empty when the cursor is
    outside of the block. *)
Definition rest (p : cursor) : string :=
  if off p <? 0 then EmptyString else drop (Z.to_nat (off p)) (blk p).

(** [p[k] == c] *)
Definition at_is (p : cursor) (k : Z) (c : ascii) : res bool :=
  x <~ peek p k ;; Ret (x == c).

Definition at_digit (p : cursor) (k : Z) : res bool :=
  x <~ peek p k ;; Ret (isdigit x).

(** CPLUS_MARKER, '.', '$' and the terminator of the array. *)
Definition cplus_markers : string := "$.$".

(** [strchr (cplus_markers, c) != NULL]; strchr finds the terminator too. *)
Definition is_marker (c : ascii) : bool := one_of c cplus_markers || (c == NUL).

Definition at_marker (p : cursor) (k : Z) : res bool :=
  x <~ peek p k ;; Ret (is_marker x).

(** memcpy of [n] bytes starting at the cursor. *)
Definition copy (p : cursor) (n : Z) : res string :=
  if n <? 0 then Fault BadLength
  else if off p <? 0 then (if n =? 0 then Ret EmptyString else Fault OverRead)
  else if off p + n <=? len (blk p)
       then Ret (take (Z.to_nat n) (drop (Z.to_nat (off p)) (blk p)))
       else Fault OverRead.

(** ** The C library *)

Fixpoint strlen_aux (s : string) : res Z :=
  match s with
  | EmptyString => Fault OverRead
  | String c s' => if c == NUL then Ret 0 else n <~ strlen_aux s' ;; Ret (n + 1)
  end.

Definition strlen (p : cursor) : res Z := strlen_aux (rest p).

(** [strchr (p, c)]: the offset of the first [c], the terminator included. *)
Fixpoint strchr_aux (s : string) (c : ascii) (k : Z) : res (option Z) :=
  match s with
  | EmptyString => Fault OverRead
  | String d s' =>
      if d == c then Ret (Some k)
      else if d == NUL then Ret None
      else strchr_aux s' c (k + 1)
  end.

Definition strchr (p : cursor) (c : ascii) : res (option cursor) :=
  r <~ strchr_aux (rest p) c 0 ;;
  Ret (match r with Some k => Some (adv p k) | None => None end).

(** [strncmp (p, lit, strlen (lit)) == 0] for a literal [lit]. *)
Fixpoint has_prefix_aux (s lit : string) : res bool :=
  match lit with
  | EmptyString => Ret true
  | String l lit' =>
      match s with
      | EmptyString => Fault OverRead
      | String c s' => if c == l then has_prefix_aux s' lit' else Ret false
      end
  end.

Definition has_prefix (p : cursor) (lit : string) : res bool :=
  has_prefix_aux (rest p) lit.

(** [strstr]-like search of the file: first occurrence of [s2] at or after
    the cursor. *)
Fixpoint mystrstr_aux (s s2 : string) (k : Z) : res (option Z) :=
  match s with
  | EmptyString => Fault OverRead
  | String c s' =>
      if c == NUL then Ret None
      else b <~ has_prefix_aux s s2 ;;
           if b then Ret (Some k) else mystrstr_aux s' s2 (k + 1)
  end.

Definition mystrstr (s1 : cursor) (s2 : string) : res (option cursor) :=
  r <~ mystrstr_aux (rest s1) s2 0 ;;
  Ret (match r with Some k => Some (adv s1 k) | None => None end).

(** [strspn (p, set)] and [strcspn (p, set)] for a literal set. *)
Fixpoint strspn_aux (s set : string) : res Z :=
  match s with
  | EmptyString => Fault OverRead
  | String c s' =>
      if (c == NUL) || negb (one_of c set) then Ret 0
      else n <~ strspn_aux s' set ;; Ret (n + 1)
  end.

Definition strspn (p : cursor) (set : string) : res Z := strspn_aux (rest p) set.

Fixpoint strcspn_aux (s set : string) : res Z :=
  match s with
  | EmptyString => Fault OverRead
  | String c s' =>
      if (c == NUL) || one_of c set then Ret 0
      else n <~ strcspn_aux s' set ;; Ret (n + 1)
  end.

Definition strcspn (p : cursor) (set : string) : res Z := strcspn_aux (rest p) set.

(** [strpbrk (p, set)]: NULL when no byte of [set] occurs before the
    terminator. *)
Definition strpbrk (p : cursor) (set : string) : res (option cursor) :=
  n <~ strcspn p set ;;
  c <~ peek p n ;;
  Ret (if c == NUL then None else Some (adv p n)).

(** [strncpy (dst, p, n)] reads up to the terminator and at most [n] bytes,
    then [dst[n] = 0]: the resulting C string. *)
Fixpoint strncpy_aux (s : string) (n : nat) : res string :=
  match n with
  | O => Ret EmptyString
  | S n' =>
      match s with
      | EmptyString => Fault OverRead
      | String c s' =>
          if c == NUL then Ret EmptyString
          else t <~ strncpy_aux s' n' ;; Ret (String c t)
      end
  end.

Definition strncpy (p : cursor) (n : Z) : res string :=
  if n <? 0 then Fault BadLength else strncpy_aux (rest p) (Z.to_nat n).

(** [atoi]: optional blanks and sign are not needed by the one caller, which
    passes a pointer it tests with isdigit right after; the digits are
    accumulated and a value outside of int is undefined. *)
Fixpoint atoi_aux (s : string) (acc : Z) : res Z :=
  match s with
  | EmptyString => Fault OverRead
  | String c s' =>
      if isdigit c then
        a <~ int_chk (acc * 10 + (code c - 48)) ;; atoi_aux s' a
      else Ret acc
  end.

(** [atoi (p)]: blanks, an optional sign, then the digits. *)
Definition isspace (c : ascii) : bool := (code c =? 32) || ((9 <=? code c) && (code c <=? 13)).

Fixpoint atoi_skip (s : string) : res Z :=
  match s with
  | EmptyString => Fault OverRead
  | String c s' =>
      if isspace c then atoi_skip s'
      else if c == "-"%char then v <~ atoi_aux s' 0 ;; int_chk (- v)
      else if c == "+"%char then atoi_aux s' 0
      else atoi_aux s 0
  end.

Definition atoi (p : cursor) : res Z := atoi_skip (rest p).

(** [sscanf (buf, "%x", &dec)] on a C string [buf]; [dec] keeps its value
    when no hexadecimal number is read.  The digits are accumulated as an
    unsigned int. *)
Definition hexval (c : ascii) : option Z :=
  let n := code c in
  if (48 <=? n) && (n <=? 57) then Some (n - 48)
  else if (97 <=? n) && (n <=? 102) then Some (n - 87)
  else if (65 <=? n) && (n <=? 70) then Some (n - 55)
  else None.

Fixpoint hex_digits (s : string) (acc : Z) : Z :=
  match s with
  | EmptyString => acc
  | String c s' =>
      match hexval c with
      | Some d => hex_digits s' (u32 (acc * 16 + d))
      | None => acc
      end
  end.

Definition starts_hex (s : string) : bool :=
  match s with
  | String c _ => match hexval c with Some _ => true | None => false end
  | EmptyString => false
  end.

Definition skip_0x (s : string) : string :=
  match s with
  | String c0 (String c1 s') =>
      if (c0 == "0"%char) && ((c1 == "x"%char) || (c1 == "X"%char)) && starts_hex s'
      then s' else s
  | _ => s
  end.

Fixpoint skip_space (s : string) : string :=
  match s with
  | String c s' => if isspace c then skip_space s' else s
  | EmptyString => s
  end.

Definition sscanf_x (buf : string) (dec : Z) : Z :=
  let s := skip_space buf in
  let '(neg, s) :=
    match s with
    | String c s' =>
        if c == "-"%char then (true, s')
        else if c == "+"%char then (false, s') else (false, s)
    | EmptyString => (false, s)
    end in
  let s := skip_0x s in
  if starts_hex s then
    let v := hex_digits s 0 in to_int (if neg then u32 (- v) else v)
  else dec.

(** ** Options

    Modelled from the spec: cplus-dem.h, which gives the DMGL_ option bits
    their positions and defines the style tests AUTO_DEMANGLING,
    GNU_DEMANGLING, ... as [work->options & DMGL_...], is not among the
    sources.  The options word is therefore kept as one boolean per bit the
    C file tests: show-parameter-types, ANSI qualifiers, Java scope
    separator, and the six dialect selectors. *)

Record flags : Type := {
  DMGL_PARAMS : bool;
  DMGL_ANSI : bool;
  DMGL_JAVA : bool;
  DMGL_AUTO : bool;
  DMGL_GNU : bool;
  DMGL_LUCID : bool;
  DMGL_ARM : bool;
  DMGL_HP : bool;
  DMGL_EDG : bool
}.

Definition DMGL_NO_OPTS : flags :=
  {| DMGL_PARAMS := false; DMGL_ANSI := false; DMGL_JAVA := false;
     DMGL_AUTO := false; DMGL_GNU := false; DMGL_LUCID := false;
     DMGL_ARM := false; DMGL_HP := false; DMGL_EDG := false |}.

(** [a | b] *)
Definition flags_or (a b : flags) : flags :=
  {| DMGL_PARAMS := DMGL_PARAMS a || DMGL_PARAMS b;
     DMGL_ANSI := DMGL_ANSI a || DMGL_ANSI b;
     DMGL_JAVA := DMGL_JAVA a || DMGL_JAVA b;
     DMGL_AUTO := DMGL_AUTO a || DMGL_AUTO b;
     DMGL_GNU := DMGL_GNU a || DMGL_GNU b;
     DMGL_LUCID := DMGL_LUCID a || DMGL_LUCID b;
     DMGL_ARM := DMGL_ARM a || DMGL_ARM b;
     DMGL_HP := DMGL_HP a || DMGL_HP b;
     DMGL_EDG := DMGL_EDG a || DMGL_EDG b |}.

(** [a & DMGL_STYLE_MASK] *)
Definition style_of (a : flags) : flags :=
  {| DMGL_PARAMS := false; DMGL_ANSI := false; DMGL_JAVA := false;
     DMGL_AUTO := DMGL_AUTO a; DMGL_GNU := DMGL_GNU a;
     DMGL_LUCID := DMGL_LUCID a; DMGL_ARM := DMGL_ARM a;
     DMGL_HP := DMGL_HP a; DMGL_EDG := DMGL_EDG a |}.

(** [(a & DMGL_STYLE_MASK) == 0] *)
Definition no_style (a : flags) : bool :=
  negb (DMGL_AUTO a || DMGL_GNU a || DMGL_LUCID a || DMGL_ARM a
        || DMGL_HP a || DMGL_EDG a).

Definition gnu_demangling : flags :=
  {| DMGL_PARAMS := false; DMGL_ANSI := false; DMGL_JAVA := false;
     DMGL_AUTO := false; DMGL_GNU := true; DMGL_LUCID := false;
     DMGL_ARM := false; DMGL_HP := false; DMGL_EDG := false |}.

(** The process-wide default dialect; nothing in the file assigns it. *)
Definition current_demangling_style : flags := gnu_demangling.

(** ** The operator table *)

Definition optable : list (string * string * bool) :=
  [ ("nw", " new", true); ("dl", " delete", true); ("new", " new", false);
    ("delete", " delete", false); ("vn", " new []", true);
    ("vd", " delete []", true); ("as", "=", true); ("ne", "!=", true);
    ("eq", "==", true); ("ge", ">=", true); ("gt", ">", true);
    ("le", "<=", true); ("lt", "<", true); ("plus", "+", false);
    ("pl", "+", true); ("apl", "+=", true); ("minus", "-", false);
    ("mi", "-", true); ("ami", "-=", true); ("mult", "*", false);
    ("ml", "*", true); ("amu", "*=", true); ("aml", "*=", true);
    ("convert", "+", false); ("negate", "-", false);
    ("trunc_mod", "%", false); ("md", "%", true); ("amd", "%=", true);
    ("trunc_div", "/", false); ("dv", "/", true); ("adv", "/=", true);
    ("truth_andif", "&&", false); ("aa", "&&", true);
    ("truth_orif", "||", false); ("oo", "||", true);
    ("truth_not", "!", false); ("nt", "!", true);
    ("postincrement", "++", false); ("pp", "++", true);
    ("postdecrement", "--", false); ("mm", "--", true);
    ("bit_ior", "|", false); ("or", "|", true); ("aor", "|=", true);
    ("bit_xor", "^", false); ("er", "^", true); ("aer", "^=", true);
    ("bit_and", "&", false); ("ad", "&", true); ("aad", "&=", true);
    ("bit_not", "~", false); ("co", "~", true); ("call", "()", false);
    ("cl", "()", true); ("alshift", "<<", false); ("ls", "<<", true);
    ("als", "<<=", true); ("arshift", ">>", false); ("rs", ">>", true);
    ("ars", ">>=", true); ("component", "->", false); ("pt", "->", true);
    ("rf", "->", true); ("indirect", "*", false);
    ("method_call", "->()", false); ("addr", "&", false);
    ("array", "[]", false); ("vc", "[]", true); ("compound", ", ", false);
    ("cm", ", ", true); ("cond", "?:", false); ("cn", "?:", true);
    ("max", ">?", false); ("mx", ">?", true); ("min", "<?", false);
    ("mn", "<?", true); ("nop", "", false); ("rm", "->*", true);
    ("sz", "sizeof ", true) ].

(** ** Type kinds *)

Definition tk_none : Z := 0.
Definition tk_pointer : Z := 1.
Definition tk_reference : Z := 2.
Definition tk_integral : Z := 3.
Definition tk_bool : Z := 4.
Definition tk_char : Z := 5.
Definition tk_real : Z := 6.

(** ** The context shared between the productions

    [typevec], [ktypevec] and [btypevec] hold the entries below [ntypes],
    [numk] and [numb]; the three counters are the lengths of the lists, and
    the allocation sizes are left out.  An entry of [typevec] is the copied
    span of mangled bytes; an entry of the two squangling tables is the
    copied demangled text.  [tmpl_argvec] is [None] for the NULL pointer,
    and [ntmpl_args] is the length of the vector. *)

Record work_stuff : Type := {
  options : flags;
  typevec : list string;
  ktypevec : list string;
  btypevec : list (option string);
  constructor : Z;
  destructor : Z;
  static_type : Z;
  temp_start : Z;
  type_quals : Z;
  dllimported : Z;
  tmpl_argvec : option (list (option string));
  forgetting_types : Z;
  previous_argument : option string;
  nrepeats : Z
}.

Definition ntypes (w : work_stuff) : Z := Z.of_nat (List.length (typevec w)).
Definition numk (w : work_stuff) : Z := Z.of_nat (List.length (ktypevec w)).
Definition numb (w : work_stuff) : Z := Z.of_nat (List.length (btypevec w)).
Definition ntmpl_args (w : work_stuff) : Z :=
  match tmpl_argvec w with
  | Some v => Z.of_nat (List.length v)
  | None => 0
  end.

(** [memset (work, 0, sizeof (work)); work->options = options] *)
Definition work_init (o : flags) : work_stuff :=
  {| options := o; typevec := []; ktypevec := []; btypevec := [];
     constructor := 0; destructor := 0; static_type := 0; temp_start := 0;
     type_quals := 0; dllimported := 0; tmpl_argvec := None;
     forgetting_types := 0; previous_argument := None; nrepeats := 0 |}.

Definition set_options (v : flags) (w : work_stuff) : work_stuff :=
  {| options := v; typevec := typevec w; ktypevec := ktypevec w; btypevec
     := btypevec w; constructor := constructor w; destructor := destructor
     w; static_type := static_type w; temp_start := temp_start w;
     type_quals := type_quals w; dllimported := dllimported w; tmpl_argvec
     := tmpl_argvec w; forgetting_types := forgetting_types w;
     previous_argument := previous_argument w; nrepeats := nrepeats w |}.

Definition set_typevec (v : list string) (w : work_stuff) : work_stuff :=
  {| options := options w; typevec := v; ktypevec := ktypevec w; btypevec
     := btypevec w; constructor := constructor w; destructor := destructor
     w; static_type := static_type w; temp_start := temp_start w;
     type_quals := type_quals w; dllimported := dllimported w; tmpl_argvec
     := tmpl_argvec w; forgetting_types := forgetting_types w;
     previous_argument := previous_argument w; nrepeats := nrepeats w |}.

Definition set_ktypevec (v : list string) (w : work_stuff) : work_stuff :=
  {| options := options w; typevec := typevec w; ktypevec := v; btypevec
     := btypevec w; constructor := constructor w; destructor := destructor
     w; static_type := static_type w; temp_start := temp_start w;
     type_quals := type_quals w; dllimported := dllimported w; tmpl_argvec
     := tmpl_argvec w; forgetting_types := forgetting_types w;
     previous_argument := previous_argument w; nrepeats := nrepeats w |}.

Definition set_btypevec (v : list (option string)) (w : work_stuff) : work_stuff :=
  {| options := options w; typevec := typevec w; ktypevec := ktypevec w;
     btypevec := v; constructor := constructor w; destructor := destructor
     w; static_type := static_type w; temp_start := temp_start w;
     type_quals := type_quals w; dllimported := dllimported w; tmpl_argvec
     := tmpl_argvec w; forgetting_types := forgetting_types w;
     previous_argument := previous_argument w; nrepeats := nrepeats w |}.

Definition set_constructor (v : Z) (w : work_stuff) : work_stuff :=
  {| options := options w; typevec := typevec w; ktypevec := ktypevec w;
     btypevec := btypevec w; constructor := v; destructor := destructor w;
     static_type := static_type w; temp_start := temp_start w; type_quals
     := type_quals w; dllimported := dllimported w; tmpl_argvec :=
     tmpl_argvec w; forgetting_types := forgetting_types w;
     previous_argument := previous_argument w; nrepeats := nrepeats w |}.

Definition set_destructor (v : Z) (w : work_stuff) : work_stuff :=
  {| options := options w; typevec := typevec w; ktypevec := ktypevec w;
     btypevec := btypevec w; constructor := constructor w; destructor :=
     v; static_type := static_type w; temp_start := temp_start w;
     type_quals := type_quals w; dllimported := dllimported w; tmpl_argvec
     := tmpl_argvec w; forgetting_types := forgetting_types w;
     previous_argument := previous_argument w; nrepeats := nrepeats w |}.

Definition set_static_type (v : Z) (w : work_stuff) : work_stuff :=
  {| options := options w; typevec := typevec w; ktypevec := ktypevec w;
     btypevec := btypevec w; constructor := constructor w; destructor :=
     destructor w; static_type := v; temp_start := temp_start w;
     type_quals := type_quals w; dllimported := dllimported w; tmpl_argvec
     := tmpl_argvec w; forgetting_types := forgetting_types w;
     previous_argument := previous_argument w; nrepeats := nrepeats w |}.

Definition set_temp_start (v : Z) (w : work_stuff) : work_stuff :=
  {| options := options w; typevec := typevec w; ktypevec := ktypevec w;
     btypevec := btypevec w; constructor := constructor w; destructor :=
     destructor w; static_type := static_type w; temp_start := v;
     type_quals := type_quals w; dllimported := dllimported w; tmpl_argvec
     := tmpl_argvec w; forgetting_types := forgetting_types w;
     previous_argument := previous_argument w; nrepeats := nrepeats w |}.

Definition set_type_quals (v : Z) (w : work_stuff) : work_stuff :=
  {| options := options w; typevec := typevec w; ktypevec := ktypevec w;
     btypevec := btypevec w; constructor := constructor w; destructor :=
     destructor w; static_type := static_type w; temp_start := temp_start
     w; type_quals := v; dllimported := dllimported w; tmpl_argvec :=
     tmpl_argvec w; forgetting_types := forgetting_types w;
     previous_argument := previous_argument w; nrepeats := nrepeats w |}.

Definition set_dllimported (v : Z) (w : work_stuff) : work_stuff :=
  {| options := options w; typevec := typevec w; ktypevec := ktypevec w;
     btypevec := btypevec w; constructor := constructor w; destructor :=
     destructor w; static_type := static_type w; temp_start := temp_start
     w; type_quals := type_quals w; dllimported := v; tmpl_argvec :=
     tmpl_argvec w; forgetting_types := forgetting_types w;
     previous_argument := previous_argument w; nrepeats := nrepeats w |}.

Definition set_tmpl_argvec (v : option (list (option string))) (w : work_stuff) : work_stuff :=
  {| options := options w; typevec := typevec w; ktypevec := ktypevec w;
     btypevec := btypevec w; constructor := constructor w; destructor :=
     destructor w; static_type := static_type w; temp_start := temp_start
     w; type_quals := type_quals w; dllimported := dllimported w;
     tmpl_argvec := v; forgetting_types := forgetting_types w;
     previous_argument := previous_argument w; nrepeats := nrepeats w |}.

Definition set_forgetting_types (v : Z) (w : work_stuff) : work_stuff :=
  {| options := options w; typevec := typevec w; ktypevec := ktypevec w;
     btypevec := btypevec w; constructor := constructor w; destructor :=
     destructor w; static_type := static_type w; temp_start := temp_start
     w; type_quals := type_quals w; dllimported := dllimported w;
     tmpl_argvec := tmpl_argvec w; forgetting_types := v;
     previous_argument := previous_argument w; nrepeats := nrepeats w |}.

Definition set_previous_argument (v : option string) (w : work_stuff) : work_stuff :=
  {| options := options w; typevec := typevec w; ktypevec := ktypevec w;
     btypevec := btypevec w; constructor := constructor w; destructor :=
     destructor w; static_type := static_type w; temp_start := temp_start
     w; type_quals := type_quals w; dllimported := dllimported w;
     tmpl_argvec := tmpl_argvec w; forgetting_types := forgetting_types w;
     previous_argument := v; nrepeats := nrepeats w |}.

Definition set_nrepeats (v : Z) (w : work_stuff) : work_stuff :=
  {| options := options w; typevec := typevec w; ktypevec := ktypevec w;
     btypevec := btypevec w; constructor := constructor w; destructor :=
     destructor w; static_type := static_type w; temp_start := temp_start
     w; type_quals := type_quals w; dllimported := dllimported w;
     tmpl_argvec := tmpl_argvec w; forgetting_types := forgetting_types w;
     previous_argument := previous_argument w; nrepeats := v |}.

Definition PRINT_ANSI_QUALIFIERS (w : work_stuff) : bool := DMGL_ANSI (options w).
Definition PRINT_ARG_TYPES (w : work_stuff) : bool := DMGL_PARAMS (options w).
Definition AUTO_DEMANGLING (w : work_stuff) : bool := DMGL_AUTO (options w).
Definition GNU_DEMANGLING (w : work_stuff) : bool := DMGL_GNU (options w).
Definition LUCID_DEMANGLING (w : work_stuff) : bool := DMGL_LUCID (options w).
Definition ARM_DEMANGLING (w : work_stuff) : bool := DMGL_ARM (options w).
Definition HP_DEMANGLING (w : work_stuff) : bool := DMGL_HP (options w).
Definition EDG_DEMANGLING (w : work_stuff) : bool := DMGL_EDG (options w).

(** The scope separator appropriate for the language being demangled. *)
Definition SCOPE_STRING (w : work_stuff) : string :=
  if DMGL_JAVA (options w) then "." else "::".

Definition ARM_VTABLE_STRING : string := "__vtbl__".
Definition ARM_VTABLE_STRLEN : Z := 8.

(** The context [cplus_demangle_v2] starts from: all fields zero, the
    options of the caller, and the default dialect when the caller selects
    none. *)
Definition initial_work (opts : flags) : work_stuff :=
  let work := work_init opts in
  if no_style (options work)
  then set_options (flags_or (options work) (style_of current_demangling_style)) work
  else work.

(** ** The state monad of the productions *)

Definition M (A : Type) : Type := work_stuff -> res (A * work_stuff).

Definition ret {A : Type} (a : A) : M A := fun w => Ret (a, w).

Definition bind {A B : Type} (m : M A) (k : A -> M B) : M B :=
  fun w =>
    match m w with
    | Ret (a, w') => k a w'
    | Fault f => Fault f
    | OutOfFuel => OutOfFuel
    end.

Definition lift {A : Type} (r : res A) : M A :=
  fun w =>
    match r with
    | Ret a => Ret (a, w)
    | Fault f => Fault f
    | OutOfFuel => OutOfFuel
    end.

Definition get : M work_stuff := fun w => Ret (w, w).
Definition modify (f : work_stuff -> work_stuff) : M unit := fun w => Ret (tt, f w).

Declare Scope monad_scope.
Delimit Scope monad_scope with M.
Notation "x <- m ;; k" := (bind m (fun x => k))
  (at level 61, m at next level, right associativity) : monad_scope.
Notation "' p <- m ;; k" := (bind m (fun x => let 'p := x in k))
  (at level 61, p pattern, m at next level, right associativity) : monad_scope.
Notation "m ;; k" := (bind m (fun _ => k))
  (at level 61, right associativity) : monad_scope.

(** ** The mini string-handling package *)

Definition STRING_EMPTY (s : string) : bool :=
  match s with EmptyString => true | _ => false end.

Definition LEN_STRING (s : string) : Z := len s.

(** [string_append (p, s)] for a C string [s]. *)
Definition string_append (p s : string) : string := p ++ s.

Definition string_appends (p s : string) : string := p ++ s.

(** [string_appendn (p, s, n)] for [s] a pointer into mangled bytes. *)
Definition string_appendn (p : string) (s : cursor) (n : Z) : res string :=
  if n =? 0 then Ret p else t <~ copy s n ;; Ret (p ++ t).

Definition string_prepend (p s : string) : string := s ++ p.

Definition string_prepends (p s : string) : string := s ++ p.

Definition string_prependn (p : string) (s : cursor) (n : Z) : res string :=
  if n =? 0 then Ret p else t <~ copy s n ;; Ret (t ++ p).

Definition PREPEND_BLANK (s : string) : string :=
  if STRING_EMPTY s then s else string_prepend s " ".

Definition APPEND_BLANK (s : string) : string :=
  if STRING_EMPTY s then s else string_append s " ".

(** ** Counts *)

Definition TYPE_UNQUALIFIED : Z := 0.
Definition TYPE_QUAL_CONST : Z := 1.
Definition TYPE_QUAL_VOLATILE : Z := 2.
Definition TYPE_QUAL_RESTRICT : Z := 4.

(** The loop of [consume_count]: [count] is the uint32_t accumulator, [k]
    the number of bytes consumed so far.  The two overflow checks return -1
    from the function. *)
Fixpoint consume_count_loop (s : string) (count : Z) (k : Z) : res (Z * Z) :=
  match s with
  | EmptyString => Fault OverRead
  | String c s' =>
      if isdigit c then
        if UT32_MAX / 10 <? count then Ret (-1, k)
        else
          let count := u32 (count * 10) in
          let num := u32 (code c - 48) in
          if UT32_MAX - num <? count then Ret (-1, k)
          else consume_count_loop s' (u32 (count + num)) (k + 1)
      else Ret (to_int count, k)
  end.

Definition consume_count (type : cursor) : res (Z * cursor) :=
  d <~ at_digit type 0 ;;
  if negb d then Ret (-1, type)
  else
    '(n, k) <~ consume_count_loop (rest type) 0 0 ;;
    Ret (n, adv type k).

Definition consume_count_with_underscores (mangled : cursor) : res (Z * cursor) :=
  u <~ at_is mangled 0 "_" ;;
  if u then
    let mangled := adv mangled 1 in
    d <~ at_digit mangled 0 ;;
    if negb d then Ret (-1, mangled)
    else
      '(idx, mangled) <~ consume_count mangled ;;
      u <~ at_is mangled 0 "_" ;;
      if negb u then Ret (-1, mangled)
      else Ret (idx, adv mangled 1)
  else
    c <~ peek mangled 0 ;;
    if negb (isdigit c) then Ret (-1, mangled)
    else Ret (code c - 48, adv mangled 1).

Definition code_for_qualifier (c : ascii) : Z :=
  if c == "C"%char then TYPE_QUAL_CONST
  else if c == "V"%char then TYPE_QUAL_VOLATILE
  else if c == "u"%char then TYPE_QUAL_RESTRICT
  else TYPE_UNQUALIFIED.

Definition qualifier_string (type_quals : Z) : string :=
  if type_quals =? 0 then ""
  else if type_quals =? 1 then "const"
  else if type_quals =? 2 then "volatile"
  else if type_quals =? 4 then "__restrict"
  else if type_quals =? 3 then "const volatile"
  else if type_quals =? 5 then "const __restrict"
  else if type_quals =? 6 then "volatile __restrict"
  else if type_quals =? 7 then "const volatile __restrict"
  else "".

Definition demangle_qualifier (c : ascii) : string :=
  qualifier_string (code_for_qualifier c).

(** The do-while of [get_count]: [n] accumulates the digits from the
    second one on; the result is [n] and the offset of the first byte that
    is not a digit. *)
Fixpoint get_count_loop (s : string) (n : Z) (k : Z) : res (Z * Z) :=
  match s with
  | EmptyString => Fault OverRead
  | String c s' =>
      if isdigit c then
        n10 <~ int_chk (n * 10) ;;
        n' <~ int_chk (n10 + (code c - 48)) ;;
        get_count_loop s' n' (k + 1)
      else Ret (n, k)
  end.

(** [get_count (type, &count)]: the result, [*count] and [*type]. *)
Definition get_count (type : cursor) (count : Z) : res (Z * Z * cursor) :=
  c <~ peek type 0 ;;
  if negb (isdigit c) then Ret (0, count, type)
  else
    let count := code c - 48 in
    let type := adv type 1 in
    d <~ at_digit type 0 ;;
    if d then
      '(n, k) <~ get_count_loop (rest type) count 0 ;;
      let p := adv type k in
      u <~ at_is p 0 "_" ;;
      if u then Ret (1, n, adv p 1) else Ret (1, count, type)
    else Ret (1, count, type).

(** ** Small helpers shared by the productions *)

Local Open Scope monad_scope.

Definition nz (x : Z) : bool := negb (x =? 0).

(** [x & 1] *)
Definition bit0 (x : Z) : bool := nz (Z.land x 1).

(** [v[i]] for a table of the context. *)
Definition lookup {A : Type} (v : list A) (i : Z) : res A :=
  if i <? 0 then Fault OverRead
  else match nth_error v (Z.to_nat i) with
       | Some a => Ret a
       | None => Fault OverRead
       end.

(** [v[i] = a] *)
Fixpoint store_nat {A : Type} (v : list A) (i : nat) (a : A) : res (list A) :=
  match v, i with
  | [], _ => Fault BadLength
  | _ :: v', O => Ret (a :: v')
  | x :: v', S i' => t <~ store_nat v' i' a ;; Ret (x :: t)
  end.

Definition store {A : Type} (v : list A) (i : Z) (a : A) : res (list A) :=
  if i <? 0 then Fault BadLength else store_nat v (Z.to_nat i) a.

(** A C string held in a table slot; NULL appends nothing. *)
Definition slot_str (s : option string) : string :=
  match s with
  | Some t => c_str t
  | None => EmptyString
  end.

(** [snprintf (buf, sizeof (buf), "T%d", idx)] with [char buf[10]]. *)
Definition T_name (idx : Z) : string := take 9 ("T" ++ string_of_Z idx).

(** The longest run of bytes satisfying [f] (which rejects NUL) at the
    head of [s], and its length. *)
Fixpoint span (f : ascii -> bool) (s : string) : res (string * Z) :=
  match s with
  | EmptyString => Fault OverRead
  | String c s' =>
      if f c then '(t, n) <~ span f s' ;; Ret (String c t, n + 1)
      else Ret (EmptyString, 0)
  end.

(** The loop that appends the digits at the cursor to [s] and steps over
    them. *)
Definition append_digits (mangled : cursor) (s : string) : res (cursor * string) :=
  '(t, n) <~ span isdigit (rest mangled) ;;
  Ret (adv mangled n, s ++ t).

(** ** Remembering types *)

Definition remember_type (start : cursor) (n : Z) : M unit :=
  w <- get ;;
  if nz (forgetting_types w) then ret tt
  else
    tem <- lift (copy start n) ;;
    modify (set_typevec (typevec w ++ [tem])).

(** Remember a K type class qualifier: a copy of the text [start]. *)
Definition remember_Ktype (start : string) : M unit :=
  w <- get ;;
  modify (set_ktypevec (ktypevec w ++ [start])).

(** Register a B code, and get an index for it. *)
Definition register_Btype : M Z :=
  w <- get ;;
  modify (set_btypevec (btypevec w ++ [None])) ;;
  ret (numb w).

(** Store a value into a previously registered B code type. *)
Definition remember_Btype (start : string) (index : Z) : M unit :=
  w <- get ;;
  v <- lift (store (btypevec w) index (Some start)) ;;
  modify (set_btypevec v).

(** Lose all the info related to B and K type codes. *)
Definition forget_B_and_K_types : M unit :=
  modify (set_ktypevec []) ;;
  modify (set_btypevec []).

(** Forget the remembered types, but not the type vector itself. *)
Definition forget_types : M unit := modify (set_typevec []).

(** Clear out and squangling related storage *)
Definition squangle_mop_up : M unit := forget_B_and_K_types.

(** Clear out any mangled storage; the result is the demangled C string,
    or [None] for NULL. *)
Definition mop_up (declp : string) (success : Z) : M (option string) :=
  forget_types ;;
  modify (set_tmpl_argvec None) ;;
  modify (set_previous_argument None) ;;
  if negb (nz success) then ret None
  else ret (Some (c_str declp)).

(** The index of the remembered type an 'N' or 'T' code of an argument
    list refers to: the flag is 0 for "return (0)", the index is the one
    read, less one for the styles that count from 1. *)
Definition arg_type_index (w : work_stuff) (mangled : cursor) : res (Z * Z * cursor) :=
  '(g, t, mangled) <~
    (if (HP_DEMANGLING w || ARM_DEMANGLING w || EDG_DEMANGLING w)
        && (10 <=? ntypes w)
     then '(t, mangled) <~ consume_count mangled ;;
          Ret (if t <=? 0 then 0 else 1, t, mangled)
     else get_count mangled 0) ;;
  let t :=
    if LUCID_DEMANGLING w || ARM_DEMANGLING w || HP_DEMANGLING w
       || EDG_DEMANGLING w
    then t - 1 else t in
  Ret (g, t, mangled).

(** ** Productions that use no other production *)

Definition do_hpacc_template_const_value (mangled : cursor) (result : string)
  : res (Z * cursor * string) :=
  c <~ peek mangled 0 ;;
  if negb (c == "U") && negb (c == "S") then Ret (0, mangled, result)
  else
    let unsigned_const := c == "U" in
    let mangled := adv mangled 1 in
    c <~ peek mangled 0 ;;
    if (c == "N") || (c == "P") then
      let result := if c == "N" then string_append result "-" else result in
      let mangled := adv mangled 1 in
      d <~ at_digit mangled 0 ;;
      if negb d then Ret (0, mangled, result)
      else
        '(mangled, result) <~ append_digits mangled result ;;
        let result := if unsigned_const then string_append result "U" else result in
        Ret (1, mangled, result)
    else if c == "M" then
      Ret (1, adv mangled 1, string_append result "-2147483648")
    else Ret (0, mangled, result).

Definition snarf_numeric_literal (args : cursor) (arg : string)
  : res (Z * cursor * string) :=
  c <~ peek args 0 ;;
  let '(args, arg) :=
    if c == "-" then (adv args 1, string_append arg "-")
    else if c == "+" then (adv args 1, arg)
    else (args, arg) in
  d <~ at_digit args 0 ;;
  if negb d then Ret (0, args, arg)
  else
    '(args, arg) <~ append_digits args arg ;;
    Ret (1, args, arg).

(** [arm_pt]: the result, [*anchor] and [*args]. *)
Definition arm_pt_tail (mangled : cursor) (n : Z) (anchor : cursor) (k : Z)
  : res (option (Z * cursor * cursor)) :=
  let args := adv anchor k in
  '(l, args) <~ consume_count args ;;
  if l =? -1 then Ret (Some (0, anchor, args))
  else
    u <~ (if off args + l =? off mangled + n then at_is args 0 "_" else Ret false) ;;
    if u then Ret (Some (1, anchor, adv args 1)) else Ret None.

Definition arm_pt (w : work_stuff) (mangled : cursor) (n : Z)
  : res (Z * cursor * cursor) :=
  r1 <~ (if ARM_DEMANGLING w || HP_DEMANGLING w then
           a <~ mystrstr mangled "__pt__" ;;
           match a with
           | Some anchor => arm_pt_tail mangled n anchor 6
           | None => Ret None
           end
         else Ret None) ;;
  match r1 with
  | Some r => Ret r
  | None =>
      if AUTO_DEMANGLING w || EDG_DEMANGLING w then
        a1 <~ mystrstr mangled "__tm__" ;;
        a2 <~ (match a1 with Some _ => Ret a1 | None => mystrstr mangled "__ps__" end) ;;
        a3 <~ (match a2 with Some _ => Ret a2 | None => mystrstr mangled "__pt__" end) ;;
        match a3 with
        | Some anchor =>
            r <~ arm_pt_tail mangled n anchor 6 ;;
            Ret (match r with Some r => r | None => (0, anchor, mangled) end)
        | None =>
            a4 <~ mystrstr mangled "__S" ;;
            match a4 with
            | Some anchor =>
                r <~ arm_pt_tail mangled n anchor 3 ;;
                Ret (match r with Some r => r | None => (0, anchor, mangled) end)
            | None => Ret (0, mangled, mangled)
            end
        end
      else Ret (0, mangled, mangled)
  end.

(** ** The recursive entries

    Every call from one production to another, and every iteration of a
    loop whose bound is not the bytes under the cursor, goes through this
    record. *)

Record Rec : Type := {
  r_cplus_demangle_v2 : option string -> flags -> res (option string);
  r_internal_cplus_demangle : option cursor -> M (option string);
  r_demangle_signature : cursor -> string -> M (Z * cursor * string);
  r_demangle_signature_loop :
    cursor -> string -> Z -> bool -> bool -> bool -> option cursor ->
    M (cursor * string * Z * bool);
  r_demangle_template_template_parm : cursor -> string -> M (Z * cursor * string);
  r_template_template_parm_loop :
    Z -> Z -> bool -> Z -> cursor -> string -> M (Z * cursor * string);
  r_demangle_integral_value : cursor -> string -> M (Z * cursor * string);
  r_integral_value_loop : bool -> Z -> cursor -> string -> M (Z * cursor * string);
  r_demangle_template_value_parm : cursor -> string -> Z -> M (Z * cursor * string);
  r_demangle_template :
    cursor -> string -> option string -> bool -> bool ->
    M (Z * cursor * string * option string);
  r_demangle_template_loop :
    Z -> Z -> bool -> Z -> bool -> cursor -> string -> M (Z * cursor * string);
  r_demangle_arm_hp_template : cursor -> Z -> string -> M (cursor * string);
  r_hpacc_template_args_loop : cursor -> string -> M (cursor * string);
  r_cfront_template_args_loop : cursor -> cursor -> string -> M (cursor * string);
  r_demangle_class_name : cursor -> string -> M (Z * cursor * string);
  r_demangle_class : cursor -> string -> M (Z * cursor * string);
  r_demangle_prefix : cursor -> string -> M (Z * cursor * string);
  r_gnu_special : cursor -> string -> M (Z * cursor * string);
  r_gnu_vtable_loop : Z -> cursor -> string -> M (Z * cursor * string);
  r_recursively_demangle : cursor -> string -> Z -> M (cursor * string);
  r_arm_special_check_loop : cursor -> res bool;
  r_arm_special_loop : cursor -> string -> res (bool * cursor * string);
  r_demangle_qualified : cursor -> string -> bool -> bool -> M (Z * cursor * string);
  r_demangle_qualified_loop :
    Z -> Z -> cursor -> string -> string -> M (Z * cursor * string * string);
  r_do_type : cursor -> M (Z * cursor * string);
  r_do_type_loop :
    cursor -> option cursor -> string -> Z -> Z -> bool ->
    M (cursor * option cursor * string * Z * Z);
  r_demangle_fund_type : cursor -> string -> M (Z * cursor * string);
  r_do_hpacc_template_literal : cursor -> string -> M (Z * cursor * string);
  r_do_arg : cursor -> M (Z * cursor * string);
  r_demangle_args : cursor -> string -> M (Z * cursor * string);
  r_demangle_args_loop : bool -> cursor -> string -> M (bool * bool * cursor * string);
  r_demangle_args_repeat_loop : Z -> Z -> bool -> string -> M (bool * bool * string);
  r_demangle_nested_args : cursor -> string -> M (Z * cursor * string);
  r_demangle_function_name : cursor -> string -> cursor -> M (cursor * string)
}.

Module Prod.
Section Productions.

Variable self : Rec.

(** [cplus_demangle_v2 (mangled, options)] *)
Definition cplus_demangle_v2 (mangled : option string) (opts : flags)
  : res (option string) :=
  let work := initial_work opts in
  match
    (ret0 <- r_internal_cplus_demangle self (option_map cursor_of mangled) ;;
     squangle_mop_up ;;
     ret ret0) work
  with
  | Ret (r, _) => Ret r
  | Fault f => Fault f
  | OutOfFuel => OutOfFuel
  end.

(** The part of [internal_cplus_demangle] between string_init and mop_up:
    the special forms, the prefix, the signature, and the deferred banners.
    The result is [success] and the declaration built so far. *)
Definition demangle_body (mangled : cursor) : M (Z * string) :=
  let decl := EmptyString in
  w <- get ;;
  '(success, mangled, decl) <-
    (if AUTO_DEMANGLING w || GNU_DEMANGLING w
     then r_gnu_special self mangled decl
     else ret (0, mangled, decl)) ;;
  '(success, mangled, decl) <-
    (if negb (nz success) then r_demangle_prefix self mangled decl
     else ret (success, mangled, decl)) ;;
  '(success, mangled, decl) <-
    (if nz success then
       c <- lift (peek mangled 0) ;;
       if negb (c == NUL) then r_demangle_signature self mangled decl
       else ret (success, mangled, decl)
     else ret (success, mangled, decl)) ;;
  w <- get ;;
  decl <-
    (if constructor w =? 2 then
       modify (set_constructor 0) ;;
       ret (string_prepend decl "global constructors keyed to ")
     else if destructor w =? 2 then
       modify (set_destructor 0) ;;
       ret (string_prepend decl "global destructors keyed to ")
     else if dllimported w =? 1 then
       modify (set_dllimported 0) ;;
       ret (string_prepend decl "import stub for ")
     else ret decl) ;;
  ret (success, decl).

(** This function performs most of what cplus_demangle_v2 use to do;
    internal calls go directly to this routine to avoid resetting the
    squangling info. *)
Definition internal_cplus_demangle (mangled : option cursor) : M (option string) :=
  w <- get ;;
  let s1 := constructor w in
  let s2 := destructor w in
  let s3 := static_type w in
  let s4 := type_quals w in
  modify (set_constructor 0) ;;
  modify (set_destructor 0) ;;
  modify (set_type_quals TYPE_UNQUALIFIED) ;;
  modify (set_dllimported 0) ;;
  demangled <-
    match mangled with
    | None => ret None
    | Some mangled =>
        c <- lift (peek mangled 0) ;;
        if c == NUL then ret None
        else
          '(success, decl) <- demangle_body mangled ;;
          mop_up decl success
    end ;;
  modify (set_constructor s1) ;;
  modify (set_destructor s2) ;;
  modify (set_static_type s3) ;;
  modify (set_type_quals s4) ;;
  ret demangled.

(** One iteration test and body of the loop of [demangle_signature]; the
    result is [*mangled], [*declp], [success] and [func_done] at the exit
    of the loop. *)
Definition demangle_signature_loop
  (mangled : cursor) (declp : string) (success : Z)
  (func_done expect_func expect_return_type : bool) (oldmangled : option cursor)
  : M (cursor * string * Z * bool) :=
  if negb (nz success) then ret (mangled, declp, success, func_done)
  else
  c <- lift (peek mangled 0) ;;
  if c == NUL then ret (mangled, declp, success, func_done)
  else
  w <- get ;;
  let set_old := match oldmangled with None => Some mangled | Some _ => oldmangled end in
  let start := match set_old with Some p => p | None => mangled end in
  '(mangled, declp, success, func_done, expect_func, expect_return_type, oldmangled) <-
    (if c == "Q" then
       let oldmangled := mangled in
       '(success, mangled, declp) <- r_demangle_qualified self mangled declp true false ;;
       (if nz success then remember_type oldmangled (off mangled - off oldmangled)
        else ret tt) ;;
       let expect_func :=
         if AUTO_DEMANGLING w || GNU_DEMANGLING w then true else expect_func in
       ret (mangled, declp, success, func_done, expect_func, expect_return_type, None)
     else if c == "K" then
       '(success, mangled, declp) <- r_demangle_qualified self mangled declp true false ;;
       let expect_func :=
         if AUTO_DEMANGLING w || GNU_DEMANGLING w then true else expect_func in
       ret (mangled, declp, success, func_done, expect_func, expect_return_type, None)
     else if c == "S" then
       modify (set_static_type 1) ;;
       ret (adv mangled 1, declp, success, func_done, expect_func,
            expect_return_type, set_old)
     else if (c == "C") || (c == "V") || (c == "u") then
       modify (set_type_quals (Z.lor (type_quals w) (code_for_qualifier c))) ;;
       ret (adv mangled 1, declp, success, func_done, expect_func,
            expect_return_type, set_old)
     else if c == "L" then
       if HP_DEMANGLING w then
         '(_, n) <- lift (span (fun x => negb (x == NUL) && negb (x == "_"))
                              (rest mangled)) ;;
         let mangled := adv mangled n in
         c <- lift (peek mangled 0) ;;
         if c == NUL
         then ret (mangled, declp, 0, func_done, expect_func,
                   expect_return_type, oldmangled)
         else ret (adv mangled 1, declp, success, func_done, expect_func,
                   expect_return_type, oldmangled)
       else ret (mangled, declp, 0, func_done, expect_func,
                 expect_return_type, oldmangled)
     else if isdigit c then
       modify (set_temp_start (-1)) ;;
       '(success, mangled, declp) <- r_demangle_class self mangled declp ;;
       (if nz success then remember_type start (off mangled - off start)
        else ret tt) ;;
       expect_func <-
         (if AUTO_DEMANGLING w || GNU_DEMANGLING w || EDG_DEMANGLING w then
            f <- lift (at_is mangled 0 "F") ;;
            ret (if negb f then true else expect_func)
          else ret expect_func) ;;
       ret (mangled, declp, success, func_done, expect_func, expect_return_type, None)
     else if c == "B" then
       '(success, mangled, s) <- r_do_type self mangled ;;
       w <- get ;;
       let declp :=
         if nz success
         then string_prepends declp (string_append s (SCOPE_STRING w))
         else declp in
       ret (mangled, declp, success, func_done, true, expect_return_type, None)
     else if c == "F" then
       let mangled := adv mangled 1 in
       (if LUCID_DEMANGLING w || ARM_DEMANGLING w || HP_DEMANGLING w || EDG_DEMANGLING w
        then forget_types else ret tt) ;;
       '(success, mangled, declp) <- r_demangle_args self mangled declp ;;
       u <- lift (if nz success && (AUTO_DEMANGLING w || EDG_DEMANGLING w)
                  then at_is mangled 0 "_" else Ret false) ;;
       '(success, mangled) <-
         (if u then
            '(success, mangled, tname) <- r_do_type self (adv mangled 1) ;;
            ret (success, mangled)
          else ret (success, mangled)) ;;
       ret (mangled, declp, success, true, expect_func, expect_return_type, None)
     else if c == "t" then
       '(success, mangled, tname, trawname) <-
         r_demangle_template self mangled EmptyString (Some EmptyString) true true ;;
       let trawname := match trawname with Some t => t | None => EmptyString end in
       (if nz success then remember_type start (off mangled - off start)
        else ret tt) ;;
       w <- get ;;
       let tname := string_append tname (SCOPE_STRING w) in
       let declp := string_prepends declp tname in
       '(declp, trawname) <-
         (if bit0 (destructor w) then
            let trawname := string_prepend trawname "~" in
            modify (set_destructor (destructor w - 1)) ;;
            ret (string_appends declp trawname, trawname)
          else ret (declp, trawname)) ;;
       w <- get ;;
       declp <-
         (if bit0 (constructor w) || bit0 (destructor w) then
            modify (set_constructor (constructor w - 1)) ;;
            ret (string_appends declp trawname)
          else ret declp) ;;
       ret (mangled, declp, success, func_done, true, expect_return_type, None)
     else if c == "_" then
       if GNU_DEMANGLING w && expect_return_type then
         '(success, mangled, return_type) <- r_do_type self (adv mangled 1) ;;
         let return_type := APPEND_BLANK return_type in
         ret (mangled, string_prepends declp return_type, success, func_done,
              expect_func, expect_return_type, oldmangled)
       else if HP_DEMANGLING w then
         let mangled := adv mangled 1 in
         '(_, n) <- lift (span isdigit (rest mangled)) ;;
         ret (adv mangled n, declp, success, func_done, expect_func,
              expect_return_type, oldmangled)
       else ret (mangled, declp, 0, func_done, expect_func,
                 expect_return_type, oldmangled)
     else if (c == "H") && GNU_DEMANGLING w then
       '(success, mangled, declp, _) <-
         r_demangle_template self mangled declp None false false ;;
       w <- get ;;
       let expect_return_type :=
         if negb (bit0 (constructor w)) then true else expect_return_type in
       ret (adv mangled 1, declp, success, func_done, expect_func,
            expect_return_type, oldmangled)
     else
       if AUTO_DEMANGLING w || GNU_DEMANGLING w then
         '(success, mangled, declp) <- r_demangle_args self mangled declp ;;
         ret (mangled, declp, success, true, expect_func, expect_return_type,
              oldmangled)
       else ret (mangled, declp, 0, func_done, expect_func, expect_return_type,
                 oldmangled)) ;;
  '(mangled, declp, success, func_done, expect_func) <-
    (if nz success && expect_func then
       (if LUCID_DEMANGLING w || ARM_DEMANGLING w || EDG_DEMANGLING w
        then forget_types else ret tt) ;;
       '(success, mangled, declp) <- r_demangle_args self mangled declp ;;
       ret (mangled, declp, success, true, false)
     else ret (mangled, declp, success, func_done, expect_func)) ;;
  r_demangle_signature_loop self mangled declp success func_done expect_func
    expect_return_type oldmangled.

(** Consume and demangle the signature portion of the mangled name. *)
Definition demangle_signature (mangled : cursor) (declp : string)
  : M (Z * cursor * string) :=
  '(mangled, declp, success, func_done) <-
    r_demangle_signature_loop self mangled declp 1 false false false None ;;
  w <- get ;;
  '(success, mangled, declp) <-
    (if nz success && negb func_done && (AUTO_DEMANGLING w || GNU_DEMANGLING w)
     then r_demangle_args self mangled declp
     else ret (success, mangled, declp)) ;;
  w <- get ;;
  let declp :=
    if nz success && PRINT_ARG_TYPES w then
      let declp := if nz (static_type w) then string_append declp " static" else declp in
      if nz (type_quals w)
      then string_append (APPEND_BLANK declp) (qualifier_string (type_quals w))
      else declp
    else declp in
  ret (success, mangled, declp).

(** The for loop of [demangle_template_template_parm]. *)
Definition template_template_parm_loop
  (i r : Z) (need_comma : bool) (success : Z) (mangled : cursor) (tname : string)
  : M (Z * cursor * string) :=
  if negb (i <? r) then ret (success, mangled, tname)
  else
    let tname := if need_comma then string_append tname ", " else tname in
    c <- lift (peek mangled 0) ;;
    if c == "Z" then
      r_template_template_parm_loop self (i + 1) r true success (adv mangled 1)
        (string_append tname "class")
    else if c == "z" then
      '(success, mangled, tname) <-
        r_demangle_template_template_parm self (adv mangled 1) tname ;;
      if negb (nz success) then ret (success, mangled, tname)
      else r_template_template_parm_loop self (i + 1) r true success mangled tname
    else
      '(success, mangled, temp) <- r_do_type self mangled ;;
      let tname := if nz success then string_appends tname temp else tname in
      if negb (nz success) then ret (success, mangled, tname)
      else r_template_template_parm_loop self (i + 1) r true success mangled tname.

Definition demangle_template_template_parm (mangled : cursor) (tname : string)
  : M (Z * cursor * string) :=
  let tname := string_append tname "template <" in
  '(g, r, mangled) <- lift (get_count mangled 0) ;;
  '(success, mangled, tname) <-
    (if nz g then r_template_template_parm_loop self 0 r false 1 mangled tname
     else ret (1, mangled, tname)) ;;
  ret (success, mangled, string_append tname "> class").

(** The first operator of [optable] whose mangled form is at the cursor. *)
Fixpoint find_operator (tbl : list (string * string * bool)) (mangled : cursor)
  : res (option (string * string)) :=
  match tbl with
  | [] => Ret None
  | (i, o, _) :: tbl' =>
      b <~ has_prefix mangled i ;;
      if b then Ret (Some (i, o)) else find_operator tbl' mangled
  end.

(** The while loop of [demangle_integral_value] after 'E'. *)
Definition integral_value_loop
  (need_operator : bool) (success : Z) (mangled : cursor) (s : string)
  : M (Z * cursor * string) :=
  if negb (nz success) then ret (success, mangled, s)
  else
    c <- lift (peek mangled 0) ;;
    if (c == "W") || (c == NUL) then ret (success, mangled, s)
    else
      '(success, mangled, s) <-
        (if need_operator then
           _ <- lift (strlen mangled) ;;
           o <- lift (find_operator optable mangled) ;;
           match o with
           | Some (i, out) =>
               ret (1, adv mangled (len i),
                    string_append (string_append (string_append s " ") out) " ")
           | None => ret (0, mangled, s)
           end
         else ret (success, mangled, s)) ;;
      if negb (nz success) then ret (success, mangled, s)
      else
        '(success, mangled, s) <-
          r_demangle_template_value_parm self mangled s tk_integral ;;
        r_integral_value_loop self true success mangled s.

Definition demangle_integral_value (mangled : cursor) (s : string)
  : M (Z * cursor * string) :=
  c <- lift (peek mangled 0) ;;
  if c == "E" then
    let s := string_append s "(" in
    '(success, mangled, s) <- r_integral_value_loop self false 1 (adv mangled 1) s ;;
    c <- lift (peek mangled 0) ;;
    if negb (c == "W") then ret (0, mangled, s)
    else ret (success, adv mangled 1, string_append s ")")
  else if (c == "Q") || (c == "K") then
    r_demangle_qualified self mangled s false true
  else
    let '(mangled, s) :=
      if c == "m" then (adv mangled 1, string_append s "-") else (mangled, s) in
    '(t, n) <- lift (span isdigit (rest mangled)) ;;
    ret (if 0 <? n then 1 else 0, adv mangled n, s ++ t).

(** Append the template argument [idx], or the placeholder T<idx> when no
    argument vector is active. *)
Definition template_parm_text (w : work_stuff) (idx : Z) : res string :=
  match tmpl_argvec w with
  | Some v => a <~ lookup v idx ;; Ret (slot_str a)
  | None => Ret (T_name idx)
  end.

Definition demangle_template_value_parm (mangled : cursor) (s : string) (tk : Z)
  : M (Z * cursor * string) :=
  c <- lift (peek mangled 0) ;;
  w <- get ;;
  if c == "Y" then
    let mangled := adv mangled 1 in
    '(idx, mangled) <- lift (consume_count_with_underscores mangled) ;;
    if (idx =? -1)
       || (match tmpl_argvec w with Some _ => ntmpl_args w <=? idx | None => false end)
    then ret (-1, mangled, s)
    else
      '(e, mangled) <- lift (consume_count_with_underscores mangled) ;;
      if e =? -1 then ret (-1, mangled, s)
      else
        t <- lift (template_parm_text w idx) ;;
        ret (1, mangled, string_append s t)
  else if tk =? tk_integral then r_demangle_integral_value self mangled s
  else if tk =? tk_char then
    let '(mangled, s) :=
      if c == "m" then (adv mangled 1, string_append s "-") else (mangled, s) in
    let s := string_append s "'" in
    '(val, mangled) <- lift (consume_count mangled) ;;
    if val <=? 0 then ret (0, mangled, s)
    else
      let tmp := ascii_of_N (Z.to_N (val mod 256)) in
      ret (1, mangled, string_append (s ++ String tmp EmptyString) "'")
  else if tk =? tk_bool then
    '(val, mangled) <- lift (consume_count mangled) ;;
    if val =? 0 then ret (1, mangled, s ++ "false")
    else if val =? 1 then ret (1, mangled, s ++ "true")
    else ret (0, mangled, s)
  else if tk =? tk_real then
    let '(mangled, s) :=
      if c == "m" then (adv mangled 1, string_append s "-") else (mangled, s) in
    '(mangled, s) <- lift (append_digits mangled s) ;;
    c <- lift (peek mangled 0) ;;
    '(mangled, s) <-
      (if c == "." then lift (append_digits (adv mangled 1) (s ++ "."))
       else ret (mangled, s)) ;;
    c <- lift (peek mangled 0) ;;
    '(mangled, s) <-
      (if c == "e" then lift (append_digits (adv mangled 1) (s ++ "e"))
       else ret (mangled, s)) ;;
    ret (1, mangled, s)
  else if (tk =? tk_pointer) || (tk =? tk_reference) then
    if c == "Q" then r_demangle_qualified self mangled s false true
    else
      '(symbol_len, mangled) <- lift (consume_count mangled) ;;
      if symbol_len =? -1 then ret (-1, mangled, s)
      else if symbol_len =? 0 then ret (1, mangled, s ++ "0")
      else
        p <- lift (strncpy mangled symbol_len) ;;
        q <- lift (r_cplus_demangle_v2 self (Some p) (options w)) ;;
        let s := if tk =? tk_pointer then s ++ "&" else s in
        let s :=
          match q with
          | Some q => string_append s q
          | None => string_append s p
          end in
        ret (1, adv mangled symbol_len, s)
  else ret (1, mangled, s).

(** [work->tmpl_argvec[i] = <copy of s>]: save the template argument. *)
Definition save_template_arg (i : Z) (s : string) : M unit :=
  w <- get ;;
  match tmpl_argvec w with
  | Some v =>
      v' <- lift (store v i (Some s)) ;;
      modify (set_tmpl_argvec (Some v'))
  | None => lift (Fault OverRead)
  end.

(** The for loop of [demangle_template] over the [r] arguments. *)
Definition demangle_template_loop
  (i r : Z) (need_comma : bool) (success : Z) (is_type : bool)
  (mangled : cursor) (tname : string)
  : M (Z * cursor * string) :=
  if negb (i <? r) then ret (success, mangled, tname)
  else
    let tname := if need_comma then string_append tname ", " else tname in
    c <- lift (peek mangled 0) ;;
    if c == "Z" then
      '(success, mangled, temp) <- r_do_type self (adv mangled 1) ;;
      if nz success then
        let tname := string_appends tname temp in
        (if negb is_type then save_template_arg i temp else ret tt) ;;
        r_demangle_template_loop self (i + 1) r true success is_type mangled tname
      else ret (success, mangled, tname)
    else if c == "z" then
      '(success, mangled, tname) <-
        r_demangle_template_template_parm self (adv mangled 1) tname ;;
      '(mangled, tname) <-
        (if nz success then
           '(r2, mangled) <- lift (consume_count mangled) ;;
           ok <- lift (if 0 <? r2 then l <~ strlen mangled ;; Ret (r2 <=? l)
                       else Ret false) ;;
           if ok then
             let tname := string_append tname " " in
             tname <- lift (string_appendn tname mangled r2) ;;
             (if negb is_type then
                a <- lift (copy mangled r2) ;; save_template_arg i a
              else ret tt) ;;
             ret (adv mangled r2, tname)
           else ret (mangled, tname)
         else ret (mangled, tname)) ;;
      if negb (nz success) then ret (success, mangled, tname)
      else r_demangle_template_loop self (i + 1) r true success is_type mangled tname
    else
      '(success, mangled, temp) <- r_do_type self mangled ;;
      if negb (nz success) then ret (success, mangled, tname)
      else
        let s := if negb is_type then EmptyString else tname in
        '(success, mangled, s) <-
          r_demangle_template_value_parm self mangled s success ;;
        if negb (nz success) then
          ret (0, mangled, if negb is_type then tname else s)
        else
          tname <-
            (if negb is_type then
               save_template_arg i s ;;
               ret (string_appends tname s)
             else ret s) ;;
          r_demangle_template_loop self (i + 1) r true success is_type mangled tname.

(** Demangle the template name in MANGLED.  The full name of the template
    is placed in TNAME, the name without the template parameters in
    TRAWNAME if TRAWNAME is non-NULL. *)
Definition demangle_template
  (mangled : cursor) (tname : string) (trawname : option string)
  (is_type remember : bool)
  : M (Z * cursor * string * option string) :=
  let mangled := adv mangled 1 in
  bindex <- (if is_type && remember then register_Btype else ret 0) ;;
  (* the template name: [None] stands for an early "return (0)" *)
  hdr <-
    (if is_type then
       c <- lift (peek mangled 0) ;;
       if c == "z" then
         let mangled := adv mangled 2 in
         '(idx, mangled) <- lift (consume_count_with_underscores mangled) ;;
         w <- get ;;
         if (idx =? -1)
            || (match tmpl_argvec w with Some _ => ntmpl_args w <=? idx | None => false end)
         then ret (None, mangled, tname, trawname, false)
         else
           '(e, mangled) <- lift (consume_count_with_underscores mangled) ;;
           if e =? -1 then ret (None, mangled, tname, trawname, false)
           else
             t <- lift (template_parm_text w idx) ;;
             ret (Some tt, mangled, string_append tname t,
                  option_map (fun x => string_append x t) trawname, false)
       else
         '(r, mangled) <- lift (consume_count mangled) ;;
         bad <- lift (if r <=? 0 then Ret true
                      else l <~ strlen mangled ;; Ret (l <? r)) ;;
         if bad then ret (None, mangled, tname, trawname, false)
         else
           w <- get ;;
           is_java_array <-
             lift (if DMGL_JAVA (options w) then has_prefix mangled "JArray1Z"
                   else Ret false) ;;
           tname <- (if negb is_java_array then lift (string_appendn tname mangled r)
                     else ret tname) ;;
           trawname <-
             match trawname with
             | Some t => t' <- lift (string_appendn t mangled r) ;; ret (Some t')
             | None => ret None
             end ;;
           ret (Some tt, adv mangled r, tname, trawname, is_java_array)
     else ret (Some tt, mangled, tname, trawname, false)) ;;
  let '(go, mangled, tname, trawname, is_java_array) := hdr in
  match go with
  | None => ret (0, mangled, tname, trawname)
  | Some _ =>
      let tname := if negb is_java_array then string_append tname "<" else tname in
      '(g, r, mangled) <- lift (get_count mangled 0) ;;
      if negb (nz g) then ret (0, mangled, tname, trawname)
      else
        (if negb is_type
         then modify (set_tmpl_argvec (Some (repeat None (Z.to_nat r))))
         else ret tt) ;;
        '(success, mangled, tname) <-
          r_demangle_template_loop self 0 r false 0 is_type mangled tname ;;
        let tname :=
          if is_java_array then string_append tname "[]"
          else string_append tname ">" in
        (if is_type && remember then remember_Btype tname bindex else ret tt) ;;
        ret (success, mangled, tname, trawname)
  end.

(** The loop over the HP aCC template arguments; the result is the state at
    the label hpacc_template_args_done. *)
Definition hpacc_template_args_loop (mangled : cursor) (declp : string)
  : M (cursor * string) :=
  c <- lift (peek mangled 0) ;;
  r <-
    (if c == "T" then
       '(success, mangled, arg) <- r_do_type self (adv mangled 1) ;;
       ret (nz success, mangled, arg)
     else if (c == "U") || (c == "S") then
       '(success, mangled, arg) <-
         lift (do_hpacc_template_const_value mangled EmptyString) ;;
       ret (nz success, mangled, arg)
     else if c == "A" then
       '(success, mangled, arg) <-
         r_do_hpacc_template_literal self mangled EmptyString ;;
       ret (nz success, mangled, arg)
     else ret (false, mangled, EmptyString)) ;;
  let '(ok, mangled, arg) := r in
  if negb ok then ret (mangled, declp)
  else
    let declp := string_appends declp arg in
    c <- lift (peek mangled 0) ;;
    if (c == NUL) || (c == "_") then ret (mangled, declp)
    else r_hpacc_template_args_loop self mangled (string_append declp ",").

(** The loop over the cfront template arguments; the result is the state
    at the label cfront_template_args_done. *)
Definition cfront_template_args_loop (args e : cursor) (declp : string)
  : M (cursor * string) :=
  if negb (off args <? off e) then ret (args, declp)
  else
    c <- lift (peek args 0) ;;
    r <-
      (if c == "X" then
         '(success, args, type_str) <- r_do_type self (adv args 1) ;;
         if negb (nz success) then ret (false, args, EmptyString)
         else
           let arg := string_append (string_appends (string_append EmptyString "(")
                                                    type_str) ")" in
           l <- lift (at_is args 0 "L") ;;
           if negb l then ret (false, args, arg)
           else
             '(success, args, arg) <- lift (snarf_numeric_literal (adv args 1) arg) ;;
             ret (nz success, args, arg)
       else if c == "L" then
         '(success, args, arg) <- lift (snarf_numeric_literal (adv args 1) EmptyString) ;;
         ret (nz success, args, arg)
       else
         '(success, args, arg) <- r_do_type self args ;;
         ret (nz success, args, arg)) ;;
    let '(ok, args, arg) := r in
    if negb ok then ret (args, declp)
    else
      r_cfront_template_args_loop self args e
        (string_append (string_appends declp arg) ",").

(** [--s->p] *)
Definition drop_last (s : string) : string :=
  take (Nat.pred (String.length s)) s.

Definition demangle_arm_hp_template (mangled : cursor) (n : Z) (declp : string)
  : M (cursor * string) :=
  let e := adv mangled n in
  w <- get ;;
  hp <- lift (if HP_DEMANGLING w then at_is mangled n "X" else Ret false) ;;
  if hp then
    start_spec_args <- lift (strchr mangled "<") ;;
    declp <-
      lift (match start_spec_args with
            | Some q =>
                if off q - off mangled <? n
                then string_appendn declp mangled (off q - off mangled)
                else string_appendn declp mangled n
            | None => string_appendn declp mangled n
            end) ;;
    let mangled := adv mangled (n + 1) in
    (if temp_start w =? -1 then modify (set_temp_start (len declp)) else ret tt) ;;
    let declp := string_append declp "<" in
    '(mangled, declp) <- r_hpacc_template_args_loop self mangled declp ;;
    let declp := string_append declp ">" in
    u <- lift (at_is mangled 0 "_") ;;
    ret (if u then adv mangled 1 else mangled, declp)
  else
    '(pt, p, args) <- lift (arm_pt w mangled n) ;;
    if nz pt then
      declp <- lift (string_appendn declp mangled (off p - off mangled)) ;;
      (if temp_start w =? -1 then modify (set_temp_start (len declp)) else ret tt) ;;
      let declp := string_append declp "<" in
      '(args, declp) <- r_cfront_template_args_loop self args e declp ;;
      let declp := if off e <=? off args then drop_last declp else declp in
      ret (adv mangled n, string_append declp ">")
    else
      anon <-
        lift ((if 10 <? n then has_prefix mangled "_GLOBAL_" else Ret false)
              &&& at_is mangled 9 "N"
              &&& (a <~ peek mangled 8 ;; b <~ peek mangled 10 ;; Ret (a == b))
              &&& (a <~ peek mangled 8 ;; Ret (is_marker a))) ;;
      if anon then ret (adv mangled n, string_append declp "{anonymous}")
      else
        (if temp_start w =? -1 then modify (set_temp_start 0) else ret tt) ;;
        declp <- lift (string_appendn declp mangled n) ;;
        ret (adv mangled n, declp).

(** Extract a class name, possibly a template with arguments, from the
    mangled string. *)
Definition demangle_class_name (mangled : cursor) (declp : string)
  : M (Z * cursor * string) :=
  '(n, mangled) <- lift (consume_count mangled) ;;
  if n =? -1 then ret (0, mangled, declp)
  else
    l <- lift (strlen mangled) ;;
    if n <=? l then
      '(mangled, declp) <- r_demangle_arm_hp_template self mangled n declp ;;
      ret (1, mangled, declp)
    else ret (0, mangled, declp).

(** Demangle a mangled class sequence, prepending "class::" (or
    "class::class", "class::~class") to DECLP. *)
Definition demangle_class (mangled : cursor) (declp : string)
  : M (Z * cursor * string) :=
  btype <- register_Btype ;;
  '(ok, mangled, class_name) <- r_demangle_class_name self mangled EmptyString ;;
  if nz ok then
    w <- get ;;
    declp <-
      (if bit0 (constructor w) || bit0 (destructor w) then
         (* adjust so we don't include template args *)
         short <-
           lift (if nz (temp_start w) && negb (temp_start w =? -1) then
                   if (0 <=? temp_start w) && (temp_start w <=? len class_name)
                   then Ret (take (Z.to_nat (temp_start w)) class_name)
                   else Fault OverRead
                 else Ret class_name) ;;
         let declp := string_prepends declp short in
         if bit0 (destructor w) then
           modify (set_destructor (destructor w - 1)) ;;
           ret (string_prepend declp "~")
         else
           modify (set_constructor (constructor w - 1)) ;;
           ret declp
       else ret declp) ;;
    remember_Ktype class_name ;;
    remember_Btype class_name btype ;;
    w <- get ;;
    let declp := string_prepend declp (SCOPE_STRING w) in
    let declp := string_prepends declp class_name in
    ret (1, mangled, declp)
  else ret (0, mangled, declp).

(** [string_append (declp, p)] for a pointer [p] into mangled bytes: the C
    string at the cursor. *)
Definition cstr_at (p : cursor) : res string :=
  l <~ strlen p ;; copy p l.

(** The do-while of [demangle_prefix] that looks for two consecutive
    underscores: the offset of the second one, if any. *)
Fixpoint prefix_scan (s : string) (k : Z) : res (option Z) :=
  match s with
  | EmptyString => Fault OverRead
  | String c s' =>
      if c == "_" then
        match s' with
        | EmptyString => Fault OverRead
        | String d _ => if d == "_" then Ret (Some (k + 1)) else prefix_scan s' (k + 1)
        end
      else if c == NUL then Ret None
      else prefix_scan s' (k + 1)
  end.

(** Look for the LAST occurrence of __: at most [n] rounds, each of which
    moves [scan] forward. *)
Fixpoint last_separator (n : nat) (scan : cursor) : res cursor :=
  match n with
  | O => Ret scan
  | S n' =>
      t <~ mystrstr (adv scan 2) "__" ;;
      match t with
      | Some tmp => last_separator n' tmp
      | None => Ret scan
      end
  end.

(** [(size_t) n > l] for an int [n] and a length [l]. *)
Definition size_gt (n l : Z) : bool := (n <? 0) || (l <? n).

(** First loop of [arm_special]: first check it can be demangled. *)
Definition arm_special_check_loop (scan : cursor) : res bool :=
  c <~ peek scan 0 ;;
  if c == NUL then Ret true
  else
    '(n, scan) <~ consume_count scan ;;
    if n =? -1 then Ret false
    else
      let scan := adv scan n in
      u <~ at_is scan 0 "_" &&& at_is scan 1 "_" ;;
      r_arm_special_check_loop self (if u then adv scan 2 else scan).

(** Second loop of [arm_special]; the flag is false for "return 0". *)
Definition arm_special_loop (mangled : cursor) (declp : string)
  : res (bool * cursor * string) :=
  c <~ peek mangled 0 ;;
  if c == NUL then Ret (true, mangled, declp)
  else
    '(n, mangled) <~ consume_count mangled ;;
    bad <~ (if n =? -1 then Ret true else l <~ strlen mangled ;; Ret (size_gt n l)) ;;
    if bad then Ret (false, mangled, declp)
    else
      declp <~ string_prependn declp mangled n ;;
      let mangled := adv mangled n in
      u <~ at_is mangled 0 "_" &&& at_is mangled 1 "_" ;;
      if u then r_arm_special_loop self (adv mangled 2) (string_prepend declp "::")
      else r_arm_special_loop self mangled declp.

(** Special handling of ARM/lucid mangled strings. *)
Definition arm_special (mangled : cursor) (declp : string)
  : res (Z * cursor * string) :=
  v <~ has_prefix mangled ARM_VTABLE_STRING ;;
  if v then
    ok <~ r_arm_special_check_loop self (adv mangled ARM_VTABLE_STRLEN) ;;
    if negb ok then Ret (0, mangled, declp)
    else
      '(ok, mangled, declp) <~
        r_arm_special_loop self (adv mangled ARM_VTABLE_STRLEN) declp ;;
      if negb ok then Ret (0, mangled, declp)
      else Ret (1, mangled, string_append declp " virtual table")
  else Ret (0, mangled, declp).

Definition recursively_demangle (mangled : cursor) (result : string) (namelength : Z)
  : M (cursor * string) :=
  w <- get ;;
  recurse <- lift (copy mangled namelength) ;;
  recurse_dem <- lift (r_cplus_demangle_v2 self (Some recurse) (options w)) ;;
  result <-
    match recurse_dem with
    | Some d => ret (string_append result d)
    | None => lift (string_appendn result mangled namelength)
    end ;;
  ret (adv mangled namelength, result).

(** The loop of [gnu_special] over the components of a virtual table
    name. *)
Definition gnu_vtable_loop (success : Z) (mangled : cursor) (declp : string)
  : M (Z * cursor * string) :=
  c <- lift (peek mangled 0) ;;
  if c == NUL then ret (success, mangled, declp)
  else
    '(success, mangled, declp) <-
      (if (c == "Q") || (c == "K") then
         r_demangle_qualified self mangled declp false true
       else if c == "t" then
         '(success, mangled, declp, _) <-
           r_demangle_template self mangled declp None true true ;;
         ret (success, mangled, declp)
       else if isdigit c then
         '(n, mangled) <- lift (consume_count mangled) ;;
         l <- lift (strlen mangled) ;;
         if l <? n then ret (1, mangled, declp)
         else
           declp <- lift (string_appendn declp mangled n) ;;
           ret (success, adv mangled n, declp)
       else
         n <- lift (strcspn mangled cplus_markers) ;;
         declp <- lift (string_appendn declp mangled n) ;;
         ret (success, adv mangled n, declp)) ;;
    p <- lift (strpbrk mangled cplus_markers) ;;
    w <- get ;;
    match p with
    | None =>
        if nz success then r_gnu_vtable_loop self success mangled declp
        else ret (0, mangled, declp)
    | Some p =>
        if nz success && (off p =? off mangled) then
          r_gnu_vtable_loop self success (adv mangled 1)
            (string_append declp (SCOPE_STRING w))
        else ret (0, mangled, declp)
    end.

(** Special handling of gnu mangled strings. *)
Definition gnu_special (mangled : cursor) (declp : string)
  : M (Z * cursor * string) :=
  w <- get ;;
  b1 <- lift (at_is mangled 0 "_" &&& at_marker mangled 1 &&& at_is mangled 2 "_") ;;
  if b1 then
    (* a GNU style destructor *)
    modify (set_destructor (destructor w + 1)) ;;
    ret (1, adv mangled 3, declp)
  else
  b2 <- lift (at_is mangled 0 "_"
              &&& ((at_is mangled 1 "_" &&& at_is mangled 2 "v" &&& at_is mangled 3 "t" &&& at_is mangled 4 "_")
                   ||| (at_is mangled 1 "v" &&& at_is mangled 2 "t" &&& at_marker mangled 3))) ;;
  if b2 then
    (* a GNU style virtual table *)
    v <- lift (at_is mangled 2 "v") ;;
    let mangled := if v then adv mangled 5 else adv mangled 4 in
    '(success, mangled, declp) <- r_gnu_vtable_loop self 1 mangled declp ;;
    ret (success, mangled,
         if nz success then string_append declp " virtual table" else declp)
  else
  b3 <- lift (at_is mangled 0 "_"
              &&& (x <~ peek mangled 1 ;;
                   Ret (one_of x "0123456789Qt" || (x == NUL)))%res) ;;
  p <- lift (if b3 then strpbrk mangled cplus_markers else Ret None) ;;
  match p with
  | Some p =>
      (* static data member *)
      let mangled := adv mangled 1 in
      c <- lift (peek mangled 0) ;;
      '(success, mangled, declp) <-
        (if (c == "Q") || (c == "K") then
           r_demangle_qualified self mangled declp false true
         else if c == "t" then
           '(success, mangled, declp, _) <-
             r_demangle_template self mangled declp None true true ;;
           ret (success, mangled, declp)
         else
           '(n, mangled) <- lift (consume_count mangled) ;;
           bad <- lift (if n <? 0 then Ret true
                        else l <~ strlen mangled ;; Ret (l <? n)) ;;
           if bad then ret (0, mangled, declp)
           else
             declp <- lift (string_appendn declp mangled n) ;;
             ret (1, adv mangled n, declp)) ;;
      if nz success && (off p =? off mangled) then
        let mangled := adv mangled 1 in
        let declp := string_append declp (SCOPE_STRING w) in
        n <- lift (strlen mangled) ;;
        declp <- lift (string_appendn declp mangled n) ;;
        ret (success, adv mangled n, declp)
      else ret (0, mangled, declp)
  | None =>
  b4 <- lift (has_prefix mangled "__thunk_") ;;
  if b4 then
    '(delta, mangled) <- lift (consume_count (adv mangled 8)) ;;
    if delta =? -1 then ret (0, mangled, declp)
    else
      let mangled := adv mangled 1 in
      method <- r_internal_cplus_demangle self (Some mangled) ;;
      match method with
      | Some method =>
          d <- lift (int_chk (- delta)) ;;
          let buf := "virtual function thunk (delta:" ++ string_of_Z d ++ ") for " in
          let declp := string_append (string_append declp buf) method in
          n <- lift (strlen mangled) ;;
          ret (1, adv mangled n, declp)
      | None => ret (0, mangled, declp)
      end
  else
  b5 <- lift (has_prefix mangled "__t" &&& (at_is mangled 3 "i" ||| at_is mangled 3 "f")) ;;
  if b5 then
    i <- lift (at_is mangled 3 "i") ;;
    let p := if i then " type_info node" else " type_info function" in
    let mangled := adv mangled 4 in
    c <- lift (peek mangled 0) ;;
    '(success, mangled, declp) <-
      (if (c == "Q") || (c == "K") then
         r_demangle_qualified self mangled declp false true
       else if c == "t" then
         '(success, mangled, declp, _) <-
           r_demangle_template self mangled declp None true true ;;
         ret (success, mangled, declp)
       else r_demangle_fund_type self mangled declp) ;;
    e <- lift (if nz success then at_is mangled 0 NUL else Ret true) ;;
    let success := if nz success && negb e then 0 else success in
    ret (success, mangled, if nz success then string_append declp p else declp)
  else ret (0, mangled, declp)
  end.

(** Consume and demangle the prefix of the mangled name. *)
Definition demangle_prefix (mangled : cursor) (declp : string)
  : M (Z * cursor * string) :=
  w <- get ;;
  let cfront := ARM_DEMANGLING w || HP_DEMANGLING w || EDG_DEMANGLING w in
  l <- lift (strlen mangled) ;;
  imp <- lift ((if 6 <? l then Ret true else Ret false)
               &&& (has_prefix mangled "_imp__" ||| has_prefix mangled "__imp_")) ;;
  glob <- lift (if imp then Ret false
                else (if 11 <=? l then Ret true else Ret false)
                     &&& has_prefix mangled "_GLOBAL_") ;;
  (* [None]: the function goes on; [Some r]: "return success" *)
  first <-
    (if imp then
       modify (set_dllimported 1) ;;
       ret (inl (adv mangled 6, declp))
     else if glob then
       mk <- lift (at_marker mangled 8
                   &&& (a <~ peek mangled 8 ;; b <~ peek mangled 10 ;; Ret (a == b))%res) ;;
       if mk then
         d <- lift (at_is mangled 9 "D") ;;
         i <- lift (at_is mangled 9 "I") ;;
         if d || i then
           (if d then modify (set_destructor 2) else modify (set_constructor 2)) ;;
           '(g, mangled, declp) <- r_gnu_special self (adv mangled 11) declp ;;
           if nz g then ret (inr (1, mangled, declp))
           else ret (inl (mangled, declp))
         else ret (inl (mangled, declp))
       else ret (inl (mangled, declp))
     else
       std <- lift (if cfront then has_prefix mangled "__std__" else Ret false) ;;
       if std then
         modify (set_destructor 2) ;;
         ret (inl (adv mangled 7, declp))
       else
         sti <- lift (if cfront then has_prefix mangled "__sti__" else Ret false) ;;
         if sti then
           modify (set_constructor 2) ;;
           ret (inl (adv mangled 7, declp))
         else ret (inl (mangled, declp))) ;;
  match first with
  | inr r => ret r
  | inl (mangled, declp) =>
      sc <- lift (prefix_scan (rest mangled) 0) ;;
      (* the last pair of a sequence of two or more '_' *)
      scan <-
        lift (match sc with
              | Some k =>
                  let scan := adv mangled (k - 1) in
                  i <~ strspn scan "_" ;;
                  Ret (Some (if 2 <? i then adv scan (i - 2) else scan))
              | None => Ret None
              end) ;;
      w <- get ;;
      '(success, mangled, declp) <-
        match scan with
        | None => ret (0, mangled, declp)
        | Some scan =>
            let at_start := off scan =? off mangled in
            s2 <- lift (peek scan 2) ;;
            if nz (static_type w) then
              s0 <- lift (peek scan 0) ;;
              ret (if negb (isdigit s0) && negb (s0 == "t") then 0 else 1,
                   mangled, declp)
            else if at_start
                    && (isdigit s2 || (s2 == "Q") || (s2 == "t") || (s2 == "K")
                        || (s2 == "H")) then
              if (LUCID_DEMANGLING w || ARM_DEMANGLING w || HP_DEMANGLING w)
                 && isdigit s2 then
                '(_, mangled) <- lift (consume_count (adv scan 2)) ;;
                t <- lift (cstr_at mangled) ;;
                ret (1, adv mangled (len t), string_append declp t)
              else
                (if negb (LUCID_DEMANGLING w || ARM_DEMANGLING w || HP_DEMANGLING w
                          || EDG_DEMANGLING w)
                 then modify (set_constructor (constructor w + 1)) else ret tt) ;;
                ret (1, adv scan 2, declp)
            else
            arm_t <- lift (if ARM_DEMANGLING w && (s2 == "p")
                           then at_is scan 3 "t" else Ret false) ;;
            edg_t <- lift (if arm_t then Ret false
                           else if EDG_DEMANGLING w then
                             s3 <~ (if (s2 == "t") || (s2 == "p")
                                    then peek scan 3 else Ret NUL) ;;
                             Ret (((s2 == "t") && (s3 == "m"))
                                  || ((s2 == "p") && (s3 == "s"))
                                  || ((s2 == "p") && (s3 == "t")))
                           else Ret false) ;;
            if arm_t || edg_t then
              n <- lift (strlen mangled) ;;
              '(mangled, declp) <- r_demangle_arm_hp_template self mangled n declp ;;
              ret (1, mangled, declp)
            else if at_start && negb (isdigit s2) && negb (s2 == "t") then
              '(special, mangled, declp) <-
                (if negb (ARM_DEMANGLING w || LUCID_DEMANGLING w || HP_DEMANGLING w
                          || EDG_DEMANGLING w)
                 then ret (0, mangled, declp)
                 else lift (arm_special mangled declp)) ;;
              if negb (special =? 0) then ret (1, mangled, declp)
              else
                '(_, n) <- lift (span (fun x => x == "_") (rest scan)) ;;
                sc <- lift (mystrstr (adv scan n) "__") ;;
                match sc with
                | None => ret (0, mangled, declp)
                | Some scan =>
                    e <- lift (at_is scan 2 NUL) ;;
                    if e then ret (0, mangled, declp)
                    else
                      scan <-
                        lift (if negb (ARM_DEMANGLING w || HP_DEMANGLING w)
                              then last_separator (String.length (blk scan)) scan
                              else Ret scan) ;;
                      e <- lift (at_is scan 2 NUL) ;;
                      if e then ret (0, mangled, declp)
                      else
                        '(mangled, declp) <-
                          r_demangle_function_name self mangled declp scan ;;
                        ret (1, mangled, declp)
                end
            else if negb (s2 == NUL) then
              '(mangled, declp) <- r_demangle_function_name self mangled declp scan ;;
              ret (1, mangled, declp)
            else ret (0, mangled, declp)
        end ;;
      w <- get ;;
      if negb (nz success) && ((constructor w =? 2) || (destructor w =? 2)) then
        t <- lift (cstr_at mangled) ;;
        ret (1, adv mangled (len t), string_append declp t)
      else ret (success, mangled, declp)
  end.

(** The loop of [demangle_qualified] over the [qualifiers] names. *)
Definition demangle_qualified_loop
  (qualifiers : Z) (success : Z) (mangled : cursor) (temp last_name : string)
  : M (Z * cursor * string * string) :=
  if negb (0 <? qualifiers) then ret (success, mangled, temp, last_name)
  else
    let qualifiers := qualifiers - 1 in
    let last_name := EmptyString in
    u <- lift (at_is mangled 0 "_") ;;
    let mangled := if u then adv mangled 1 else mangled in
    c <- lift (peek mangled 0) ;;
    w <- get ;;
    (* the flag is false for "break" *)
    '(go, remember_K, success, mangled, temp, last_name) <-
      (if c == "t" then
         '(success, mangled, temp, last_name) <-
           r_demangle_template self mangled temp (Some last_name) true false ;;
         let last_name := match last_name with Some t => t | None => EmptyString end in
         ret (nz success, true, success, mangled, temp, last_name)
       else if c == "K" then
         '(idx, mangled) <- lift (consume_count_with_underscores (adv mangled 1)) ;;
         if (idx =? -1) || (numk w <=? idx)
         then ret (false, false, 0, mangled, temp, last_name)
         else
           k <- lift (lookup (ktypevec w) idx) ;;
           ret (true, false, success, mangled, string_append temp (c_str k), last_name)
       else
         if EDG_DEMANGLING w then
           '(namelength, mangled) <- lift (consume_count mangled) ;;
           if namelength =? -1
           then ret (false, true, 0, mangled, temp, last_name)
           else
             '(mangled, temp) <- r_recursively_demangle self mangled temp namelength ;;
             ret (true, true, success, mangled, temp, last_name)
         else
           '(success, mangled, last_name) <- r_do_type self mangled ;;
           if negb (nz success)
           then ret (false, true, success, mangled, temp, last_name)
           else ret (true, true, success, mangled, string_appends temp last_name,
                     last_name)) ;;
    if negb go then ret (success, mangled, temp, last_name)
    else
      (if remember_K then remember_Ktype temp else ret tt) ;;
      w <- get ;;
      let temp := if 0 <? qualifiers then string_append temp (SCOPE_STRING w) else temp in
      r_demangle_qualified_loop self qualifiers success mangled temp last_name.

(** Demangle a qualified name, such as "Q25Outer5Inner" which is the
    mangled form of "Outer::Inner". *)
Definition demangle_qualified
  (mangled : cursor) (result : string) (isfuncname append : bool)
  : M (Z * cursor * string) :=
  bindex <- register_Btype ;;
  w <- get ;;
  let isfuncname := isfuncname && (bit0 (constructor w) || bit0 (destructor w)) in
  let temp := EmptyString in
  let last_name := EmptyString in
  c0 <- lift (peek mangled 0) ;;
  '(qualifiers, success, mangled, temp) <-
    (if c0 == "K" then
       (* Squangling qualified name reuse *)
       '(idx, mangled) <- lift (consume_count_with_underscores (adv mangled 1)) ;;
       if (idx =? -1) || (numk w <=? idx) then ret (0, 0, mangled, temp)
       else
         k <- lift (lookup (ktypevec w) idx) ;;
         ret (0, 1, mangled, string_append temp (c_str k))
     else
       c1 <- lift (peek mangled 1) ;;
       if c1 == "_" then
         let p := adv mangled 2 in
         qualifiers <- lift (atoi p) ;;
         p0 <- lift (peek p 0) ;;
         let success := if negb (isdigit p0) || (p0 == "0") then 0 else 1 in
         '(_, n) <- lift (span isdigit (rest p)) ;;
         let p := adv p n in
         u <- lift (at_is p 0 "_") ;;
         let success := if negb u then 0 else success in
         ret (qualifiers, success, adv p 1, temp)
       else if isdigit c1 && negb (c1 == "0") then
         let qualifiers := code c1 - 48 in
         u <- lift (at_is mangled 2 "_") ;;
         let mangled := if u then adv mangled 1 else mangled in
         ret (qualifiers, 1, adv mangled 2, temp)
       else ret (0, 0, mangled, temp)) ;;
  if negb (nz success) then ret (success, mangled, result)
  else
    '(success, mangled, temp, last_name) <-
      r_demangle_qualified_loop self qualifiers success mangled temp last_name ;;
    remember_Btype temp bindex ;;
    w <- get ;;
    let temp :=
      if isfuncname then
        let temp := string_append temp (SCOPE_STRING w) in
        let temp := if bit0 (destructor w) then string_append temp "~" else temp in
        string_appends temp last_name
      else temp in
    let result :=
      if append then string_appends result temp
      else
        let temp :=
          if negb (STRING_EMPTY result) then string_append temp (SCOPE_STRING w)
          else temp in
        string_prepends result temp in
    ret (success, mangled, result).

(** [decl] starts with '*' or '&'. *)
Definition starts_ptr (decl : string) : bool :=
  match decl with
  | String c _ => (c == "*") || (c == "&")
  | EmptyString => false
  end.

Definition parenthesize (decl : string) : string :=
  if starts_ptr decl then string_append (string_prepend decl "(") ")" else decl.

(** The declarator loop of [do_type].  [mangled] is the pointer the
    function reads through; [caller] is [None] as long as that pointer is
    the caller's, and holds the caller's pointer once a 'T' code has made
    [mangled] point to the local [remembered_type]. *)
Definition do_type_loop
  (mangled : cursor) (caller : option cursor) (decl : string) (tk : Z)
  (success : Z) (done : bool)
  : M (cursor * option cursor * string * Z * Z) :=
  if negb (nz success) || done then ret (mangled, caller, decl, tk, success)
  else
    c <- lift (peek mangled 0) ;;
    w <- get ;;
    if (c == "P") || (c == "p") then
      (* A pointer type *)
      let decl := if negb (DMGL_JAVA (options w)) then string_prepend decl "*" else decl in
      let tk := if tk =? tk_none then tk_pointer else tk in
      r_do_type_loop self (adv mangled 1) caller decl tk success done
    else if c == "R" then
      (* A reference type *)
      let decl := string_prepend decl "&" in
      let tk := if tk =? tk_none then tk_reference else tk in
      r_do_type_loop self (adv mangled 1) caller decl tk success done
    else if c == "A" then
      (* An array *)
      let mangled := adv mangled 1 in
      let decl := string_append (parenthesize decl) "[" in
      u <- lift (at_is mangled 0 "_") ;;
      '(success, mangled, decl) <-
        (if negb u then r_demangle_template_value_parm self mangled decl tk_integral
         else ret (success, mangled, decl)) ;;
      u <- lift (at_is mangled 0 "_") ;;
      let mangled := if u then adv mangled 1 else mangled in
      r_do_type_loop self mangled caller (string_append decl "]") tk success done
    else if c == "T" then
      (* A back reference to a previously seen type *)
      let mangled := adv mangled 1 in
      '(g, n, mangled) <- lift (get_count mangled 0) ;;
      if negb (nz g) || (ntypes w <=? n) then
        r_do_type_loop self mangled caller decl tk 0 done
      else
        remembered_type <- lift (lookup (typevec w) n) ;;
        let caller := match caller with None => Some mangled | Some _ => caller end in
        r_do_type_loop self (cursor_of remembered_type) caller decl tk success done
    else if c == "F" then
      (* A function *)
      let mangled := adv mangled 1 in
      let decl := parenthesize decl in
      '(ok, mangled, decl) <- r_demangle_nested_args self mangled decl ;;
      bad <- lift (if negb (nz ok) then Ret true
                   else x <~ peek mangled 0 ;; Ret (negb (x == "_") && negb (x == NUL))) ;;
      if bad then r_do_type_loop self mangled caller decl tk 0 done
      else
        u <- lift (at_is mangled 0 "_") ;;
        r_do_type_loop self (if u then adv mangled 1 else mangled) caller decl tk
          success done
    else if c == "O" then
      let decl := string_prepend decl "&&" in
      let tk := if tk =? tk_none then tk_reference else tk in
      r_do_type_loop self (adv mangled 1) caller decl tk success done
    else if c == "M" then
      let mangled := adv mangled 1 in
      let decl := string_append decl ")" in
      let decl := string_prepend decl (SCOPE_STRING w) in
      c <- lift (peek mangled 0) ;;
      (* the class the member belongs to; the flag is false for "break" *)
      '(go, success, mangled, decl) <-
        (if isdigit c then
           '(n, mangled) <- lift (consume_count mangled) ;;
           bad <- lift (if n =? -1 then Ret true
                        else l <~ strlen mangled ;; Ret (l <? n)) ;;
           if bad then ret (false, 0, mangled, decl)
           else
             decl <- lift (string_prependn decl mangled n) ;;
             ret (true, success, adv mangled n, decl)
         else if (c == "X") || (c == "Y") then
           '(_, mangled, temp) <- r_do_type self mangled ;;
           ret (true, success, mangled, string_prepends decl temp)
         else if c == "t" then
           '(success, mangled, temp, _) <-
             r_demangle_template self mangled EmptyString None true true ;;
           if nz success then ret (true, success, mangled, string_prepends decl temp)
           else ret (false, success, mangled, decl)
         else ret (false, 0, mangled, decl)) ;;
      if negb go then r_do_type_loop self mangled caller decl tk success done
      else
        let decl := string_prepend decl "(" in
        c <- lift (peek mangled 0) ;;
        let '(type_quals, mangled) :=
          if (c == "C") || (c == "V") || (c == "u")
          then (Z.lor TYPE_UNQUALIFIED (code_for_qualifier c), adv mangled 1)
          else (TYPE_UNQUALIFIED, mangled) in
        f <- lift (at_is mangled 0 "F") ;;
        let mangled := adv mangled 1 in
        if negb f then r_do_type_loop self mangled caller decl tk 0 done
        else
          '(ok, mangled, decl) <- r_demangle_nested_args self mangled decl ;;
          bad <- lift (if negb (nz ok) then Ret true
                       else x <~ peek mangled 0 ;; Ret (negb (x == "_"))) ;;
          if bad then r_do_type_loop self mangled caller decl tk 0 done
          else
            let mangled := adv mangled 1 in
            let decl :=
              if negb (PRINT_ANSI_QUALIFIERS w) then decl
              else if nz type_quals
                   then string_append (APPEND_BLANK decl) (qualifier_string type_quals)
                   else decl in
            r_do_type_loop self mangled caller decl tk success done
    else if c == "G" then
      r_do_type_loop self (adv mangled 1) caller decl tk success done
    else if (c == "C") || (c == "V") || (c == "u") then
      let decl :=
        if PRINT_ANSI_QUALIFIERS w then
          let decl := if negb (STRING_EMPTY decl) then string_prepend decl " " else decl in
          string_prepend decl (demangle_qualifier c)
        else decl in
      r_do_type_loop self (adv mangled 1) caller decl tk success done
    else
      r_do_type_loop self mangled caller decl tk success true.

(** RESULT will be initialised here; it will be freed on failure.  The
    value returned is really a type_kind_t. *)
Definition do_type (mangled : cursor) : M (Z * cursor * string) :=
  let result := EmptyString in
  '(mangled, caller, decl, tk, success) <-
    r_do_type_loop self mangled None EmptyString tk_none 1 false ;;
  '(success, tk, mangled, result) <-
    (if nz success then
       c <- lift (peek mangled 0) ;;
       w <- get ;;
       if (c == "Q") || (c == "K") then
         (* A qualified name, such as "Outer::Inner". *)
         '(success, mangled, result) <-
           r_demangle_qualified self mangled result false true ;;
         ret (success, tk, mangled, result)
       else if c == "B" then
         (* A back reference to a previously seen squangled type *)
         let mangled := adv mangled 1 in
         '(g, n, mangled) <- lift (get_count mangled 0) ;;
         if negb (nz g) || (numb w <=? n) then ret (0, tk, mangled, result)
         else
           b <- lift (lookup (btypevec w) n) ;;
           ret (success, tk, mangled, string_append result (slot_str b))
       else if (c == "X") || (c == "Y") then
         (* A template parm.  We substitute the corresponding argument. *)
         let mangled := adv mangled 1 in
         '(idx, mangled) <- lift (consume_count_with_underscores mangled) ;;
         if (idx =? -1)
            || (match tmpl_argvec w with Some _ => ntmpl_args w <=? idx | None => false end)
         then ret (0, tk, mangled, result)
         else
           '(e, mangled) <- lift (consume_count_with_underscores mangled) ;;
           if e =? -1 then ret (0, tk, mangled, result)
           else
             t <- lift (template_parm_text w idx) ;;
             ret (1, tk, mangled, string_append result t)
       else
         '(success, mangled, result) <- r_demangle_fund_type self mangled result ;;
         ret (success, if tk =? tk_none then success else tk, mangled, result)
     else ret (success, tk, mangled, result)) ;;
  let result :=
    if nz success then
      if negb (STRING_EMPTY decl)
      then string_appends (string_append result " ") decl
      else result
    else EmptyString in
  let mangled := match caller with Some p => p | None => mangled end in
  if nz success
  then ret (if tk =? tk_none then tk_integral else tk, mangled, result)
  else ret (0, mangled, result).

(** The loop of [demangle_fund_type] that picks off the type qualifiers:
    the new RESULT and the number of bytes consumed. *)
Fixpoint fund_type_qualifiers (ansi : bool) (s : string) (result : string) (k : Z)
  : res (string * Z) :=
  match s with
  | EmptyString => Fault OverRead
  | String c s' =>
      if (c == "C") || (c == "V") || (c == "u") then
        let result :=
          if ansi then
            let result :=
              if negb (STRING_EMPTY result) then string_prepend result " " else result in
            string_prepend result (demangle_qualifier c)
          else result in
        fund_type_qualifiers ansi s' result (k + 1)
      else if c == "U" then
        fund_type_qualifiers ansi s' (string_append (APPEND_BLANK result) "unsigned") (k + 1)
      else if c == "S" then
        fund_type_qualifiers ansi s' (string_append (APPEND_BLANK result) "signed") (k + 1)
      else if c == "J" then
        fund_type_qualifiers ansi s' (string_append (APPEND_BLANK result) "__complex") (k + 1)
      else Ret (result, k)
  end.

(** The for loop that copies at most [n] bytes up to '_' into [buf]. *)
Fixpoint int_width_digits (n : nat) (s : string) : res (string * Z) :=
  match n with
  | O => Ret (EmptyString, 0)
  | S n' =>
      match s with
      | EmptyString => Fault OverRead
      | String c s' =>
          if (c == NUL) || (c == "_") then Ret (EmptyString, 0)
          else '(t, k) <~ int_width_digits n' s' ;; Ret (String c t, k + 1)
      end
  end.

(** The primitive spelling and type kind of a one-letter type code. *)
Definition fundamental (c : ascii) : option (string * Z) :=
  if c == "v" then Some ("void", tk_integral)
  else if c == "x" then Some ("long long", tk_integral)
  else if c == "l" then Some ("long", tk_integral)
  else if c == "i" then Some ("int", tk_integral)
  else if c == "s" then Some ("short", tk_integral)
  else if c == "b" then Some ("bool", tk_bool)
  else if c == "c" then Some ("char", tk_char)
  else if c == "w" then Some ("wchar_t", tk_char)
  else if c == "r" then Some ("long double", tk_real)
  else if c == "d" then Some ("double", tk_real)
  else if c == "f" then Some ("float", tk_real)
  else None.

(** Decode a fundamental type argument (int, long, unsigned int, etc) and
    add it to RESULT.  The value returned is really a type_kind_t. *)
Definition demangle_fund_type (mangled : cursor) (result : string)
  : M (Z * cursor * string) :=
  w <- get ;;
  (* First pick off any type qualifiers.  There can be more than one. *)
  '(result, k) <-
    lift (fund_type_qualifiers (PRINT_ANSI_QUALIFIERS w) (rest mangled) result 0) ;;
  let mangled := adv mangled k in
  (* Now pick off the fundamental type.  There can be only one. *)
  c <- lift (peek mangled 0) ;;
  '(success, tk, mangled, result) <-
    (if (c == NUL) || (c == "_") then ret (1, tk_integral, mangled, result)
     else
     match fundamental c with
     | Some (name, tk) =>
         ret (1, tk, adv mangled 1, string_append (APPEND_BLANK result) name)
     | None =>
     if (c == "G") || (c == "I") then
       g <- lift (if c == "G" then d <~ at_digit mangled 1 ;; Ret (negb d)
                  else Ret false) ;;
       let mangled := if c == "G" then adv mangled 1 else mangled in
       if g then ret (0, tk_integral, mangled, result)
       else
         let mangled := adv mangled 1 in
         u <- lift (at_is mangled 0 "_") ;;
         r <-
           (if u then
              let mangled := adv mangled 1 in
              '(buf, i) <- lift (int_width_digits 9 (rest mangled)) ;;
              let mangled := adv mangled i in
              u <- lift (at_is mangled 0 "_") ;;
              if negb u then ret (None, mangled)
              else ret (Some buf, adv mangled 1)
            else
              buf <- lift (strncpy mangled 2) ;;
              l <- lift (strlen mangled) ;;
              ret (Some buf, adv mangled (Z.min l 2))) ;;
         let '(buf, mangled) := r in
         match buf with
         | None => ret (0, tk_integral, mangled, result)
         | Some buf =>
             let dec := sscanf_x buf 0 in
             if (64 <? dec) || (dec <? 8) then ret (0, tk_integral, mangled, result)
             else
               let buf := take 9 ("int" ++ string_of_Z dec ++ "_t") in
               ret (1, tk_integral, mangled, string_append (APPEND_BLANK result) buf)
         end
     else if isdigit c then
       (* An explicit type, such as "6mytype" or "7integer" *)
       bindex <- register_Btype ;;
       '(ok, mangled, btype) <- r_demangle_class_name self mangled EmptyString ;;
       if nz ok then
         remember_Btype btype bindex ;;
         ret (1, tk_integral, mangled, string_appends (APPEND_BLANK result) btype)
       else ret (0, tk_integral, mangled, result)
     else if c == "t" then
       '(success, mangled, btype, _) <-
         r_demangle_template self mangled EmptyString None true true ;;
       ret (success, tk_integral, mangled, string_appends result btype)
     else ret (0, tk_integral, mangled, result)
     end) ;;
  ret (if nz success then tk else 0, mangled, result).

(** Handle a template's literal parameter for HP aCC (extension from ARM);
    MANGLED is pointing to the 'A'. *)
Definition do_hpacc_template_literal (mangled : cursor) (result : string)
  : M (Z * cursor * string) :=
  a <- lift (at_is mangled 0 "A") ;;
  if negb a then ret (0, mangled, result)
  else
    '(literal_len, mangled) <- lift (consume_count (adv mangled 1)) ;;
    if literal_len <=? 0 then ret (0, mangled, result)
    else
      w <- get ;;
      let result := string_append result "&" in
      recurse <- lift (copy mangled literal_len) ;;
      recurse_dem <- lift (r_cplus_demangle_v2 self (Some recurse) (options w)) ;;
      result <-
        match recurse_dem with
        | Some d => ret (string_append result d)
        | None => lift (string_appendn result mangled literal_len)
        end ;;
      ret (1, adv mangled literal_len, result).

(** Demangle the next argument, given by MANGLED, into RESULT. *)
Definition do_arg (mangled : cursor) : M (Z * cursor * string) :=
  (* Remember where we started so that we can record the type. *)
  let start := mangled in
  let result := EmptyString in
  w <- get ;;
  if 0 <? nrepeats w then
    modify (set_nrepeats (nrepeats w - 1)) ;;
    match previous_argument w with
    | None => ret (0, mangled, result)
    | Some previous =>
        (* We want to reissue the previous type in this argument list. *)
        ret (1, mangled, string_appends result previous)
    end
  else
    c <- lift (peek mangled 0) ;;
    if c == "n" then
      (* A squangling-style repeat. *)
      '(n, mangled) <- lift (consume_count (adv mangled 1)) ;;
      modify (set_nrepeats n) ;;
      if n <=? 0 then ret (0, mangled, result)
      else
        r <- lift (if 9 <? n then u <~ at_is mangled 0 "_" ;; Ret (Some u)
                   else Ret None) ;;
        match r with
        | Some false => ret (0, mangled, result)
        | Some true => r_do_arg self (adv mangled 1)
        | None => r_do_arg self mangled
        end
    else
      (* Save the result in WORK->previous_argument so that we can find it
         if it's repeated. *)
      modify (set_previous_argument (Some EmptyString)) ;;
      '(success, mangled, previous) <- r_do_type self mangled ;;
      modify (set_previous_argument (Some previous)) ;;
      if negb (nz success) then ret (0, mangled, result)
      else
        let result := string_appends result previous in
        remember_type start (off mangled - off start) ;;
        ret (1, mangled, result).

(** The loop of [demangle_args] that reissues the remembered type [t]; the
    first flag is false for "return (0)". *)
Definition demangle_args_repeat_loop (r t : Z) (need_comma : bool) (declp : string)
  : M (bool * bool * string) :=
  w <- get ;;
  let '(go, r) := if 0 <? nrepeats w then (true, r) else (0 <=? r - 1, r - 1) in
  if negb go then ret (true, need_comma, declp)
  else
    tem <- lift (lookup (typevec w) t) ;;
    let declp :=
      if need_comma && PRINT_ARG_TYPES w then string_append declp ", " else declp in
    '(ok, _, arg) <- r_do_arg self (cursor_of tem) ;;
    if negb (nz ok) then ret (false, need_comma, declp)
    else
      let declp := if PRINT_ARG_TYPES w then string_appends declp arg else declp in
      r_demangle_args_repeat_loop self r t true declp.

(** The loop of [demangle_args] over the argument tokens; the first flag is
    false for "return (0)". *)
Definition demangle_args_loop (need_comma : bool) (mangled : cursor) (declp : string)
  : M (bool * bool * cursor * string) :=
  c <- lift (peek mangled 0) ;;
  w <- get ;;
  if negb ((negb (c == "_") && negb (c == NUL) && negb (c == "e"))
           || (0 <? nrepeats w))
  then ret (true, need_comma, mangled, declp)
  else if (c == "N") || (c == "T") then
    let temptype := c in
    let mangled := adv mangled 1 in
    '(g, r, mangled) <-
      lift (if temptype == "N" then get_count mangled 0 else Ret (1, 1, mangled)) ;;
    if negb (nz g) then ret (false, need_comma, mangled, declp)
    else
      '(g, t, mangled) <- lift (arg_type_index w mangled) ;;
      if negb (nz g) then ret (false, need_comma, mangled, declp)
      else
        (* Validate the type index. *)
        if (t <? 0) || (ntypes w <=? t) then ret (false, need_comma, mangled, declp)
        else
          '(ok, need_comma, declp) <-
            r_demangle_args_repeat_loop self r t need_comma declp ;;
          if negb ok then ret (false, need_comma, mangled, declp)
          else r_demangle_args_loop self need_comma mangled declp
  else
    let declp :=
      if need_comma && PRINT_ARG_TYPES w then string_append declp ", " else declp in
    '(ok, mangled, arg) <- r_do_arg self mangled ;;
    if negb (nz ok) then ret (false, need_comma, mangled, declp)
    else
      let declp := if PRINT_ARG_TYPES w then string_appends declp arg else declp in
      r_demangle_args_loop self true mangled declp.

(** Process the argument list part of the signature, after any class spec
    has been consumed, as well as the first 'F' character (if any). *)
Definition demangle_args (mangled : cursor) (declp : string)
  : M (Z * cursor * string) :=
  w <- get ;;
  declp <-
    (if PRINT_ARG_TYPES w then
       let declp := string_append declp "(" in
       e <- lift (at_is mangled 0 NUL) ;;
       ret (if e then string_append declp "void" else declp)
     else ret declp) ;;
  '(ok, need_comma, mangled, declp) <- r_demangle_args_loop self false mangled declp ;;
  if negb ok then ret (0, mangled, declp)
  else
    e <- lift (at_is mangled 0 "e") ;;
    let '(mangled, declp) :=
      if e then
        (adv mangled 1,
         if PRINT_ARG_TYPES w then
           string_append (if need_comma then string_append declp "," else declp) "..."
         else declp)
      else (mangled, declp) in
    let declp := if PRINT_ARG_TYPES w then string_append declp ")" else declp in
    ret (1, mangled, declp).

(** Like demangle_args, but for demangling the argument lists of function
    and method pointers or references, not top-level declarations. *)
Definition demangle_nested_args (mangled : cursor) (declp : string)
  : M (Z * cursor * string) :=
  w <- get ;;
  (* turn off remembering of types here *)
  modify (set_forgetting_types (forgetting_types w + 1)) ;;
  let saved_previous_argument := previous_argument w in
  let saved_nrepeats := nrepeats w in
  modify (set_previous_argument None) ;;
  modify (set_nrepeats 0) ;;
  (* Actually demangle the arguments. *)
  '(result, mangled, declp) <- r_demangle_args self mangled declp ;;
  (* Restore the previous_argument field. *)
  modify (set_previous_argument saved_previous_argument) ;;
  w <- get ;;
  modify (set_forgetting_types (forgetting_types w - 1)) ;;
  modify (set_nrepeats saved_nrepeats) ;;
  ret (result, mangled, declp).

(** [strcmp (p, lit) == 0] for a literal [lit]. *)
Fixpoint strcmp_eq_aux (s lit : string) : res bool :=
  match s with
  | EmptyString => Fault OverRead
  | String c s' =>
      match lit with
      | EmptyString => Ret (c == NUL)
      | String l lit' => if c == l then strcmp_eq_aux s' lit' else Ret false
      end
  end.

Definition strcmp_eq (p : cursor) (lit : string) : res bool :=
  strcmp_eq_aux (rest p) lit.

(** The first entry of [optable] whose mangled form is exactly [name]. *)
Fixpoint find_operator_named (tbl : list (string * string * bool)) (name : string)
  : option string :=
  match tbl with
  | [] => None
  | (i, o, _) :: tbl' =>
      if String.eqb i name then Some o else find_operator_named tbl' name
  end.

Definition demangle_function_name (mangled : cursor) (declp : string) (scan : cursor)
  : M (cursor * string) :=
  declp <- lift (string_appendn declp mangled (off scan - off mangled)) ;;
  (* Consume the function name, including the "__" separating the name
     from the signature. *)
  let mangled := adv scan 2 in
  w <- get ;;
  hp <- lift (if HP_DEMANGLING w then at_is mangled 0 "X" else Ret false) ;;
  '(mangled, declp) <-
    (if hp then r_demangle_arm_hp_template self mangled 0 declp
     else ret (mangled, declp)) ;;
  (* The buffer of DECLP: its terminator, written before the template
     arguments were appended, is overwritten by them. *)
  let b := {| blk := if hp then declp else block_of declp; off := 0 |} in
  ct <- lift (if LUCID_DEMANGLING w || ARM_DEMANGLING w || HP_DEMANGLING w
                 || EDG_DEMANGLING w
              then strcmp_eq b "__ct" else Ret false) ;;
  if ct then
    w <- get ;;
    modify (set_constructor (constructor w + 1)) ;;
    ret (mangled, EmptyString)
  else
  dt <- lift (if LUCID_DEMANGLING w || ARM_DEMANGLING w || HP_DEMANGLING w
                 || EDG_DEMANGLING w
              then strcmp_eq b "__dt" else Ret false) ;;
  if dt then
    w <- get ;;
    modify (set_destructor (destructor w + 1)) ;;
    ret (mangled, EmptyString)
  else
  let n := len declp in
  op <- lift ((if 3 <=? n then Ret true else Ret false)
              &&& at_is b 0 "o" &&& at_is b 1 "p" &&& at_marker b 2) ;;
  if op then
    (* see if it's an assignment expression *)
    if (10 <=? n) && String.eqb (take 7 (drop 3 declp)) "assign_" then
      match find_operator_named optable (drop 10 declp) with
      | Some out =>
          ret (mangled,
               string_append (string_append (string_append EmptyString "operator") out) "=")
      | None => ret (mangled, declp)
      end
    else
      match find_operator_named optable (drop 3 declp) with
      | Some out =>
          ret (mangled, string_append (string_append EmptyString "operator") out)
      | None => ret (mangled, declp)
      end
  else
  ty <- lift ((if (5 <=? n) && String.eqb (take 4 declp) "type" then Ret true
               else Ret false)
              &&& at_marker b 4) ;;
  if ty then
    (* type conversion operator *)
    '(success, _, type) <- r_do_type self (adv b 5) ;;
    if nz success
    then ret (mangled, string_appends (string_append EmptyString "operator ") type)
    else ret (mangled, declp)
  else
  ansi_op <- lift (at_is b 0 "_" &&& at_is b 1 "_" &&& at_is b 2 "o" &&& at_is b 3 "p") ;;
  if ansi_op then
    (* ANSI type conversion operator. *)
    '(success, _, type) <- r_do_type self (adv b 4) ;;
    if nz success
    then ret (mangled, string_appends (string_append EmptyString "operator ") type)
    else ret (mangled, declp)
  else
  two <- lift (at_is b 0 "_" &&& at_is b 1 "_"
               &&& (x <~ peek b 2 ;; Ret (islower_az x))%res
               &&& (x <~ peek b 3 ;; Ret (islower_az x))%res) ;;
  if two then
    e4 <- lift (at_is b 4 NUL) ;;
    if e4 then
      (* Operator. *)
      match find_operator_named optable (take 2 (drop 2 declp)) with
      | Some out =>
          ret (mangled, string_append (string_append EmptyString "operator") out)
      | None => ret (mangled, declp)
      end
    else
      asg <- lift (at_is b 2 "a" &&& at_is b 5 NUL) ;;
      if asg then
        (* Assignment. *)
        match find_operator_named optable (take 3 (drop 2 declp)) with
        | Some out =>
            ret (mangled, string_append (string_append EmptyString "operator") out)
        | None => ret (mangled, declp)
        end
      else ret (mangled, declp)
  else ret (mangled, declp).

End Productions.
End Prod.

(** ** Tying the knot *)

(** The entries when the fuel is spent. *)
Definition no_fuel : Rec :=
  {| r_cplus_demangle_v2 := fun _ _ => OutOfFuel;
     r_internal_cplus_demangle := fun _ _ => OutOfFuel;
     r_demangle_signature := fun _ _ _ => OutOfFuel;
     r_demangle_signature_loop := fun _ _ _ _ _ _ _ _ => OutOfFuel;
     r_demangle_template_template_parm := fun _ _ _ => OutOfFuel;
     r_template_template_parm_loop := fun _ _ _ _ _ _ _ => OutOfFuel;
     r_demangle_integral_value := fun _ _ _ => OutOfFuel;
     r_integral_value_loop := fun _ _ _ _ _ => OutOfFuel;
     r_demangle_template_value_parm := fun _ _ _ _ => OutOfFuel;
     r_demangle_template := fun _ _ _ _ _ _ => OutOfFuel;
     r_demangle_template_loop := fun _ _ _ _ _ _ _ _ => OutOfFuel;
     r_demangle_arm_hp_template := fun _ _ _ _ => OutOfFuel;
     r_hpacc_template_args_loop := fun _ _ _ => OutOfFuel;
     r_cfront_template_args_loop := fun _ _ _ _ => OutOfFuel;
     r_demangle_class_name := fun _ _ _ => OutOfFuel;
     r_demangle_class := fun _ _ _ => OutOfFuel;
     r_demangle_prefix := fun _ _ _ => OutOfFuel;
     r_gnu_special := fun _ _ _ => OutOfFuel;
     r_gnu_vtable_loop := fun _ _ _ _ => OutOfFuel;
     r_recursively_demangle := fun _ _ _ _ => OutOfFuel;
     r_arm_special_check_loop := fun _ => OutOfFuel;
     r_arm_special_loop := fun _ _ => OutOfFuel;
     r_demangle_qualified := fun _ _ _ _ _ => OutOfFuel;
     r_demangle_qualified_loop := fun _ _ _ _ _ _ => OutOfFuel;
     r_do_type := fun _ _ => OutOfFuel;
     r_do_type_loop := fun _ _ _ _ _ _ _ => OutOfFuel;
     r_demangle_fund_type := fun _ _ _ => OutOfFuel;
     r_do_hpacc_template_literal := fun _ _ _ => OutOfFuel;
     r_do_arg := fun _ _ => OutOfFuel;
     r_demangle_args := fun _ _ _ => OutOfFuel;
     r_demangle_args_loop := fun _ _ _ _ => OutOfFuel;
     r_demangle_args_repeat_loop := fun _ _ _ _ _ => OutOfFuel;
     r_demangle_nested_args := fun _ _ _ => OutOfFuel;
     r_demangle_function_name := fun _ _ _ _ => OutOfFuel |}.

(** One more level of calls on top of [self]. *)
Definition step (self : Rec) : Rec :=
  {| r_cplus_demangle_v2 := Prod.cplus_demangle_v2 self;
     r_internal_cplus_demangle := Prod.internal_cplus_demangle self;
     r_demangle_signature := Prod.demangle_signature self;
     r_demangle_signature_loop := Prod.demangle_signature_loop self;
     r_demangle_template_template_parm := Prod.demangle_template_template_parm self;
     r_template_template_parm_loop := Prod.template_template_parm_loop self;
     r_demangle_integral_value := Prod.demangle_integral_value self;
     r_integral_value_loop := Prod.integral_value_loop self;
     r_demangle_template_value_parm := Prod.demangle_template_value_parm self;
     r_demangle_template := Prod.demangle_template self;
     r_demangle_template_loop := Prod.demangle_template_loop self;
     r_demangle_arm_hp_template := Prod.demangle_arm_hp_template self;
     r_hpacc_template_args_loop := Prod.hpacc_template_args_loop self;
     r_cfront_template_args_loop := Prod.cfront_template_args_loop self;
     r_demangle_class_name := Prod.demangle_class_name self;
     r_demangle_class := Prod.demangle_class self;
     r_demangle_prefix := Prod.demangle_prefix self;
     r_gnu_special := Prod.gnu_special self;
     r_gnu_vtable_loop := Prod.gnu_vtable_loop self;
     r_recursively_demangle := Prod.recursively_demangle self;
     r_arm_special_check_loop := Prod.arm_special_check_loop self;
     r_arm_special_loop := Prod.arm_special_loop self;
     r_demangle_qualified := Prod.demangle_qualified self;
     r_demangle_qualified_loop := Prod.demangle_qualified_loop self;
     r_do_type := Prod.do_type self;
     r_do_type_loop := Prod.do_type_loop self;
     r_demangle_fund_type := Prod.demangle_fund_type self;
     r_do_hpacc_template_literal := Prod.do_hpacc_template_literal self;
     r_do_arg := Prod.do_arg self;
     r_demangle_args := Prod.demangle_args self;
     r_demangle_args_loop := Prod.demangle_args_loop self;
     r_demangle_args_repeat_loop := Prod.demangle_args_repeat_loop self;
     r_demangle_nested_args := Prod.demangle_nested_args self;
     r_demangle_function_name := Prod.demangle_function_name self |}.

Fixpoint run (fuel : nat) : Rec :=
  match fuel with
  | O => no_fuel
  | S fuel' => step (run fuel')
  end.

(** ** The functions of the file, by fuel *)

Definition cplus_demangle_v2 (fuel : nat) (mangled : option string) (opts : flags)
  : res (option string) :=
  r_cplus_demangle_v2 (run fuel) mangled opts.

Definition internal_cplus_demangle (fuel : nat) := r_internal_cplus_demangle (run fuel).
Definition demangle_signature (fuel : nat) := r_demangle_signature (run fuel).
Definition demangle_prefix (fuel : nat) := r_demangle_prefix (run fuel).
Definition gnu_special (fuel : nat) := r_gnu_special (run fuel).
Definition arm_special (fuel : nat) := Prod.arm_special (run fuel).
Definition recursively_demangle (fuel : nat) := r_recursively_demangle (run fuel).
Definition demangle_qualified (fuel : nat) := r_demangle_qualified (run fuel).
Definition demangle_template (fuel : nat) := r_demangle_template (run fuel).
Definition demangle_class (fuel : nat) := r_demangle_class (run fuel).
Definition do_type (fuel : nat) := r_do_type (run fuel).
Definition do_arg (fuel : nat) := r_do_arg (run fuel).
Definition demangle_args (fuel : nat) := r_demangle_args (run fuel).
Definition demangle_args_loop (fuel : nat) := r_demangle_args_loop (run fuel).
Definition demangle_args_repeat_loop (fuel : nat) :=
  r_demangle_args_repeat_loop (run fuel).
Definition demangle_nested_args (fuel : nat) := r_demangle_nested_args (run fuel).

(** An option word: the three feature bits or-ed with a style. *)
Definition opts (params ansi java : bool) (style : flags) : flags :=
  flags_or style
    {| DMGL_PARAMS := params; DMGL_ANSI := ansi; DMGL_JAVA := java;
       DMGL_AUTO := false; DMGL_GNU := false; DMGL_LUCID := false;
       DMGL_ARM := false; DMGL_HP := false; DMGL_EDG := false |}.


Definition auto_demangling : flags :=
  {| DMGL_PARAMS := false; DMGL_ANSI := false; DMGL_JAVA := false;
     DMGL_AUTO := true; DMGL_GNU := false; DMGL_LUCID := false;
     DMGL_ARM := false; DMGL_HP := false; DMGL_EDG := false |}.

Definition lucid_demangling : flags :=
  {| DMGL_PARAMS := false; DMGL_ANSI := false; DMGL_JAVA := false;
     DMGL_AUTO := false; DMGL_GNU := false; DMGL_LUCID := true;
     DMGL_ARM := false; DMGL_HP := false; DMGL_EDG := false |}.

Definition arm_demangling : flags :=
  {| DMGL_PARAMS := false; DMGL_ANSI := false; DMGL_JAVA := false;
     DMGL_AUTO := false; DMGL_GNU := false; DMGL_LUCID := false;
     DMGL_ARM := true; DMGL_HP := false; DMGL_EDG := false |}.

Definition hp_demangling : flags :=
  {| DMGL_PARAMS := false; DMGL_ANSI := false; DMGL_JAVA := false;
     DMGL_AUTO := false; DMGL_GNU := false; DMGL_LUCID := false;
     DMGL_ARM := false; DMGL_HP := true; DMGL_EDG := false |}.

Definition edg_demangling : flags :=
  {| DMGL_PARAMS := false; DMGL_ANSI := false; DMGL_JAVA := false;
     DMGL_AUTO := false; DMGL_GNU := false; DMGL_LUCID := false;
     DMGL_ARM := false; DMGL_HP := false; DMGL_EDG := true |}.

(** * Properties *)

(** ** Unfolding by fuel *)

Lemma run_S (fuel : nat) : run (S fuel) = step (run fuel).
Proof. reflexivity. Qed.

Lemma cplus_demangle_v2_S (fuel : nat) (mangled : option string) (o : flags) :
  cplus_demangle_v2 (S fuel) mangled o = Prod.cplus_demangle_v2 (run fuel) mangled o.
Proof. reflexivity. Qed.

(** ** Sanity checks on known mangled names *)

Example gnu_member_function :
  cplus_demangle_v2 64 (Some "AddAlignment__9ivTSolverUiP12ivInteractorP7ivTGlue")
    (opts true true false gnu_demangling)
  = Ret (Some "ivTSolver::AddAlignment(unsigned int, ivInteractor *, ivTGlue *)").
Proof. vm_compute. reflexivity. Qed.

Example gnu_back_references :
  cplus_demangle_v2 64 (Some "foo__FiR3fooiT1iT1") (opts true true false gnu_demangling)
  = Ret (Some "foo(int, foo &, int, foo &, int, foo &)").
Proof. vm_compute. reflexivity. Qed.

Example gnu_thunk :
  cplus_demangle_v2 64 (Some "__thunk_4__$_7ostream") (opts true true false gnu_demangling)
  = Ret (Some "virtual function thunk (delta:-4) for ostream::~ostream(void)").
Proof. vm_compute. reflexivity. Qed.

Example gnu_function_pointers :
  cplus_demangle_v2 64 (Some "complexfunc5__FPFPc_PFl_i") (opts true true false gnu_demangling)
  = Ret (Some "complexfunc5(int (*(*)(char *))(long))").
Proof. vm_compute. reflexivity. Qed.

Example arm_repeat_form :
  cplus_demangle_v2 64 (Some "bar__3fooFPiN51PdN01") (opts true true false arm_demangling)
  = Ret (Some "foo::bar(int *, int *, int *, int *, int *, int *, double *)").
Proof. vm_compute. reflexivity. Qed.

Example arm_virtual_table :
  cplus_demangle_v2 64 (Some "__vtbl__3foo__3bar") (opts true true false arm_demangling)
  = Ret (Some "bar::foo virtual table").
Proof. vm_compute. reflexivity. Qed.

Example hp_template :
  cplus_demangle_v2 64 (Some "spec__13Spec<#1,#1.*>XTiTPi_FPi")
    (opts true true false hp_demangling)
  = Ret (Some "Spec<int,int *>::spec(int *)").
Proof. vm_compute. reflexivity. Qed.

(** ** C10: NULL and the empty string *)

(** For NULL no production is entered: the result holds for any recursive
    entries [self]. *)
Lemma internal_cplus_demangle_null (self : Rec) (w : work_stuff) :
  Prod.internal_cplus_demangle self None w = Ret (None, set_dllimported 0 w).
Proof. destruct w; reflexivity. Qed.

Lemma internal_cplus_demangle_empty (self : Rec) (w : work_stuff) :
  Prod.internal_cplus_demangle self (Some (cursor_of "")) w
  = Ret (None, set_dllimported 0 w).
Proof. destruct w; reflexivity. Qed.

(** C10: for every option set, [cplus_demangle_v2] called with a NULL
    pointer or with the empty string returns NULL, and it does so before any
    grammar production runs: whatever the recursive entries [self] of the
    productions are, [internal_cplus_demangle] returns NULL on both inputs
    without calling one of them. *)
Theorem C10_null_or_empty_input_fails :
  (forall (fuel : nat) (o : flags),
      cplus_demangle_v2 (S (S fuel)) None o = Ret None
      /\ cplus_demangle_v2 (S (S fuel)) (Some "") o = Ret None)
  /\ (forall (self : Rec) (w : work_stuff),
         Prod.internal_cplus_demangle self None w = Ret (None, set_dllimported 0 w)
         /\ Prod.internal_cplus_demangle self (Some (cursor_of "")) w
            = Ret (None, set_dllimported 0 w)).
Proof.
  split.
  - intros fuel o.
    rewrite !cplus_demangle_v2_S. unfold Prod.cplus_demangle_v2.
    rewrite run_S. cbn [r_internal_cplus_demangle step].
    unfold bind at 1 3. cbn [option_map].
    rewrite internal_cplus_demangle_null, internal_cplus_demangle_empty.
    split; reflexivity.
  - intros self w. split.
    + apply internal_cplus_demangle_null.
    + apply internal_cplus_demangle_empty.
Qed.

(** ** C5: the literal end-to-end cases *)

(** C5: with fuel 10 or more, "foo__1Ai" with the show-parameter-types and ANSI options
    demangles to "A::foo(int)", with no options to "A::foo", and "foo__1Afe"
    with the show-parameter-types option to "A::foo(float,...)". *)
Theorem C5_literal_end_to_end_cases (fuel : nat) :
  cplus_demangle_v2 (10 + fuel) (Some "foo__1Ai") (opts true true false DMGL_NO_OPTS)
  = Ret (Some "A::foo(int)")
  /\ cplus_demangle_v2 (10 + fuel) (Some "foo__1Ai") DMGL_NO_OPTS
     = Ret (Some "A::foo")
  /\ cplus_demangle_v2 (10 + fuel) (Some "foo__1Afe") (opts true false false DMGL_NO_OPTS)
     = Ret (Some "A::foo(float,...)").
Proof. repeat split; vm_compute; reflexivity. Qed.

(** ** C4: failure returns NULL, never the partial declaration *)

(** The state [internal_cplus_demangle] hands to the parse proper: the
    pending constructor, destructor, qualifier and import fields are
    cleared. *)
Definition entry_state (w : work_stuff) : work_stuff :=
  set_dllimported 0
    (set_type_quals TYPE_UNQUALIFIED (set_destructor 0 (set_constructor 0 w))).

Lemma mop_up_failure (declp : string) (w : work_stuff) :
  mop_up declp 0 w
  = Ret (None, set_previous_argument None (set_tmpl_argvec None (set_typevec [] w))).
Proof. reflexivity. Qed.

Lemma peek_cursor_of (s : string) : exists c, peek (cursor_of s) 0 = Ret c.
Proof. destruct s; cbn; eauto. Qed.

Lemma internal_cplus_demangle_failure
  (self : Rec) (mangled : string) (w w1 : work_stuff) (decl : string) :
  Prod.demangle_body self (cursor_of mangled) (entry_state w) = Ret ((0, decl), w1) ->
  exists w2, Prod.internal_cplus_demangle self (Some (cursor_of mangled)) w = Ret (None, w2).
Proof.
  intros Hbody.
  destruct (peek_cursor_of mangled) as [c Hc].
  unfold Prod.internal_cplus_demangle.
  unfold bind at 1. cbn [get].
  unfold bind at 1. cbn [modify].
  unfold bind at 1. cbn [modify].
  unfold bind at 1. cbn [modify].
  unfold bind at 1. cbn [modify].
  fold (entry_state w).
  unfold bind at 1. unfold bind at 1. unfold lift at 1. rewrite Hc.
  destruct (c == NUL).
  - eexists. reflexivity.
  - unfold bind at 1. rewrite Hbody. rewrite mop_up_failure. eexists. reflexivity.
Qed.

(** C4: when demangling fails, [cplus_demangle_v2] returns NULL and the
    declaration text built before the failure is dropped: [mop_up] called
    with success 0 returns NULL whatever the buffer holds, and whenever the
    parse of an input ends with success 0 and some text [decl] in the
    buffer, the result of the call is NULL.  The input "not_mangled", which
    has no separator and no special form, fails under every option set. *)
Theorem C4_failure_returns_null :
  (forall (declp : string) (w : work_stuff),
      exists w', mop_up declp 0 w = Ret (None, w'))
  /\ (forall (fuel : nat) (mangled : string) (o : flags) (decl : string)
             (w1 : work_stuff),
         Prod.demangle_body (run fuel) (cursor_of mangled)
           (entry_state (initial_work o)) = Ret ((0, decl), w1) ->
         cplus_demangle_v2 (S (S fuel)) (Some mangled) o = Ret None)
  /\ (forall (fuel : nat) (o : flags),
         cplus_demangle_v2 (3 + fuel) (Some "not_mangled") o = Ret None).
Proof.
  split; [|split].
  - intros declp w. rewrite mop_up_failure. eauto.
  - intros fuel mangled o decl w1 Hbody.
    rewrite cplus_demangle_v2_S. unfold Prod.cplus_demangle_v2.
    rewrite run_S. cbn [r_internal_cplus_demangle step option_map].
    destruct (internal_cplus_demangle_failure _ _ _ _ _ Hbody) as [w2 H2].
    unfold bind at 1. rewrite H2. reflexivity.
  - intros fuel o.
    destruct o as [[] [] [] [] [] [] [] [] []]; vm_compute; reflexivity.
Qed.

(** A failure after text has been produced: "foo__1Ai_" fails at the
    trailing '_' with "A::foo(int)" in the buffer, and the call returns
    NULL. *)
Lemma C4_witness :
  cplus_demangle_v2 22 (Some "foo__1Ai_") (opts true true false DMGL_NO_OPTS) = Ret None.
Proof.
  refine (proj1 (proj2 C4_failure_returns_null) 20%nat "foo__1Ai_"
            (opts true true false DMGL_NO_OPTS) "A::foo(int)" _ _).
  vm_compute. reflexivity.
Defined.

(** ** C9: reads past the end of the input *)

(** C9 (fails on the code): the first loop of [arm_special] skips [n]
    bytes after each count without comparing [n] with the bytes that remain,
    so "__vtbl__9x" under the ARM style makes it read eight bytes behind
    the terminator; the second loop of the same function has the
    comparison.  Under the default GNU style, [gnu_special] reads
    [mangled[2]] of the one-byte input "_", demangles the thunk target of
    "__thunk_4" from behind the terminator, and passes the count -1 of
    "_vt$4294967295" to memcpy as a length. *)
Theorem C9_reads_past_the_terminator (fuel : nat) :
  cplus_demangle_v2 (4 + fuel) (Some "__vtbl__9x") (opts true true false arm_demangling)
  = Fault OverRead
  /\ cplus_demangle_v2 (4 + fuel) (Some "_") DMGL_NO_OPTS = Fault OverRead
  /\ cplus_demangle_v2 (4 + fuel) (Some "__thunk_4") DMGL_NO_OPTS = Fault OverRead
  /\ cplus_demangle_v2 (4 + fuel) (Some "_vt$4294967295") DMGL_NO_OPTS = Fault BadLength.
Proof. repeat split; vm_compute; reflexivity. Qed.

(** ** C3: overflow of a decimal count *)

(** The number a string of decimal digits denotes. *)
Fixpoint decimal_value_from (acc : Z) (ds : string) : Z :=
  match ds with
  | EmptyString => acc
  | String c ds' => decimal_value_from (acc * 10 + (code c - 48)) ds'
  end.

Definition decimal_value (ds : string) : Z := decimal_value_from 0 ds.

Fixpoint all_digits (ds : string) : bool :=
  match ds with
  | EmptyString => true
  | String c ds' => isdigit c && all_digits ds'
  end.

Lemma isdigit_range (c : ascii) : isdigit c = true -> 0 <= code c - 48 <= 9.
Proof. unfold isdigit. rewrite andb_true_iff, !Z.leb_le. lia. Qed.

Lemma decimal_value_from_ge (ds : string) :
  forall acc, 0 <= acc -> all_digits ds = true -> acc <= decimal_value_from acc ds.
Proof.
  induction ds as [|c ds IH]; intros acc Hacc Hds; cbn in *.
  - lia.
  - apply andb_true_iff in Hds as [Hc Hds]. apply isdigit_range in Hc.
    specialize (IH (acc * 10 + (code c - 48)) ltac:(lia) Hds). lia.
Qed.

Lemma drop_get (n : nat) :
  forall (s : string) (c : ascii) (t : string),
    drop n s = String c t -> String.get n s = Some c.
Proof.
  induction n as [|n IH]; intros s c t H; destruct s; cbn in *; try discriminate.
  - now inversion H.
  - eauto.
Qed.

Lemma rest_peek (p : cursor) (c : ascii) (t : string) :
  rest p = String c t -> peek p 0 = Ret c.
Proof.
  unfold rest, peek. rewrite Z.add_0_r.
  destruct (off p <? 0); [discriminate|].
  intros H. now rewrite (drop_get _ _ _ _ H).
Qed.

(** The loop of [consume_count] over the digits [ds], started with the
    accumulator [count]: it returns -1 when the value leaves the 32-bit
    unsigned range, and the exact value otherwise. *)
Lemma consume_count_loop_spec (ds : string) :
  forall (tail : string) (count k : Z),
    all_digits ds = true ->
    0 <= count <= UT32_MAX ->
    (UT32_MAX < decimal_value_from count ds ->
     exists k', consume_count_loop (ds ++ tail) count k = Ret (-1, k'))
    /\ (decimal_value_from count ds <= UT32_MAX ->
        forall c t, tail = String c t -> isdigit c = false ->
        consume_count_loop (ds ++ tail) count k
        = Ret (to_int (decimal_value_from count ds), k + len ds)).
Proof.
  induction ds as [|d ds IH]; intros tail count k Hds Hcount.
  - cbn [decimal_value_from]. split.
    + unfold UT32_MAX in *. lia.
    + intros _ c t -> Hc. cbn [append consume_count_loop decimal_value_from].
      rewrite Hc. unfold len. cbn [String.length Z.of_nat]. now rewrite Z.add_0_r.
  - cbn in Hds. apply andb_true_iff in Hds as [Hd Hds].
    pose proof (isdigit_range _ Hd) as Hr.
    cbn [append consume_count_loop decimal_value_from]. rewrite Hd.
    change (UT32_MAX / 10) with 429496729.
    destruct (Z.ltb_spec 429496729 count) as [Hbig|Hsmall].
    + split.
      * intros _. eauto.
      * intros Hle.
        pose proof (decimal_value_from_ge ds (count * 10 + (code d - 48)) ltac:(lia) Hds).
        unfold UT32_MAX in *. lia.
    + assert (Hm : u32 (count * 10) = count * 10).
      { unfold u32. apply Z.mod_small. lia. }
      assert (Hn : u32 (code d - 48) = code d - 48).
      { unfold u32. apply Z.mod_small. lia. }
      rewrite Hm, Hn.
      destruct (Z.ltb_spec (UT32_MAX - (code d - 48)) (count * 10)) as [Hov|Hok].
      * split.
        -- intros _. eauto.
        -- intros Hle.
           pose proof (decimal_value_from_ge ds (count * 10 + (code d - 48)) ltac:(lia) Hds).
           unfold UT32_MAX in *. lia.
      * assert (Hs : u32 (count * 10 + (code d - 48)) = count * 10 + (code d - 48)).
        { unfold u32. apply Z.mod_small. unfold UT32_MAX in *. lia. }
        rewrite Hs.
        destruct (IH tail (count * 10 + (code d - 48)) (k + 1) Hds
                    ltac:(unfold UT32_MAX in *; lia)) as [IH1 IH2].
        split; [exact IH1|].
        intros Hle c t Htail Hc. rewrite (IH2 Hle c t Htail Hc).
        unfold len. cbn [String.length]. rewrite Nat2Z.inj_succ.
        f_equal. f_equal. lia.
Qed.

(** C3: [consume_count] accumulates the digits at the cursor as a 32-bit
    unsigned value and checks each step for overflow: for every digit string
    whose value exceeds 2^32-1 it returns the failure value -1, and for every
    digit string whose value fits, followed by a byte that is not a digit, it
    returns that very value (as the int the function's result type holds)
    and steps over exactly the digits: nothing is wrapped or truncated in
    the accumulation. *)
Theorem C3_consume_count_overflow
  (type : cursor) (ds tail : string) :
  rest type = ds ++ tail ->
  all_digits ds = true ->
  (UT32_MAX < decimal_value ds ->
   exists type', consume_count type = Ret (-1, type'))
  /\ (ds <> EmptyString -> decimal_value ds <= UT32_MAX ->
      forall c t, tail = String c t -> isdigit c = false ->
      consume_count type = Ret (to_int (decimal_value ds), adv type (len ds))).
Proof.
  intros Hrest Hds.
  destruct (consume_count_loop_spec ds tail 0 0 Hds ltac:(unfold UT32_MAX; lia))
    as [Hov Hok].
  destruct ds as [|d ds'].
  - split.
    + cbn. unfold UT32_MAX. lia.
    + intros Hne. now contradiction Hne.
  - assert (Hd : isdigit d = true).
    { cbn in Hds. now apply andb_true_iff in Hds as [Hd _]. }
    assert (Hp : at_digit type 0 = Ret true).
    { unfold at_digit. rewrite (rest_peek type d (ds' ++ tail)) by exact Hrest.
      cbn. now rewrite Hd. }
    unfold consume_count. rewrite Hp. cbn [rbind negb]. rewrite Hrest.
    split.
    + intros Hbig. destruct (Hov Hbig) as [k' Hk']. rewrite Hk'. cbn. eauto.
    + intros _ Hle c t Htail Hc. rewrite (Hok Hle c t Htail Hc). reflexivity.
Qed.

(** The count 4294967296 = 2^32 fails; 4294967295 fits the accumulator. *)
Lemma C3_witness :
  (exists type', consume_count (cursor_of "4294967296") = Ret (-1, type'))
  /\ consume_count (cursor_of "123x") = Ret (123, adv (cursor_of "123x") 3).
Proof.
  split.
  - refine (proj1 (C3_consume_count_overflow (cursor_of "4294967296") "4294967296"
                     (String NUL EmptyString) _ _) _);
      [reflexivity | reflexivity | vm_compute; reflexivity].
  - refine (proj2 (C3_consume_count_overflow (cursor_of "123x") "123"
                     (String "x" (String NUL EmptyString)) _ _) _ _
                     "x"%char (String NUL EmptyString) _ _);
      [reflexivity | reflexivity | discriminate | vm_compute; discriminate
       | reflexivity | reflexivity].
Defined.

(** ** C1: back-reference indices *)

(** Resolve the calls through [run] and [step] down to the productions. *)
Ltac enter :=
  cbn [Nat.add run step
       r_cplus_demangle_v2 r_internal_cplus_demangle
       r_demangle_signature r_demangle_signature_loop
       r_demangle_template_template_parm r_template_template_parm_loop
       r_demangle_integral_value r_integral_value_loop
       r_demangle_template_value_parm r_demangle_template
       r_demangle_template_loop r_demangle_arm_hp_template
       r_hpacc_template_args_loop r_cfront_template_args_loop
       r_demangle_class_name r_demangle_class r_demangle_prefix
       r_gnu_special r_gnu_vtable_loop r_recursively_demangle
       r_arm_special_check_loop r_arm_special_loop r_demangle_qualified
       r_demangle_qualified_loop r_do_type r_do_type_loop
       r_demangle_fund_type r_do_hpacc_template_literal r_do_arg
       r_demangle_args r_demangle_args_loop r_demangle_args_repeat_loop
       r_demangle_nested_args r_demangle_function_name].

(** Run the monad: substitute the values bound so far and decide the
    tests on bytes and flags that are known. *)
Ltac mstep :=
  repeat (progress
            (change (nz 1) with true; change (nz 0) with false;
             cbv beta iota zeta
               delta [bind lift get ret modify rbind andR orR at_is at_digit
                      at_marker Ascii.eqb Bool.eqb orb andb negb NUL zero])).




(** ** C7: the context of a recursive sub-parse *)

Lemma has_prefix_aux_app (lit : string) :
  forall s, has_prefix_aux s lit = Ret true -> exists tail, s = lit ++ tail.
Proof.
  induction lit as [|l lit IH]; intros s H.
  - now exists s.
  - destruct s as [|c s]; cbn in H; [discriminate|].
    destruct (c == l) eqn:E; [|discriminate].
    apply Ascii.eqb_eq in E as ->.
    destruct (IH _ H) as [tail ->]. now exists tail.
Qed.

Lemma get_drop (n : nat) :
  forall (k : nat) (s : string), String.get (n + k) s = String.get k (drop n s).
Proof.
  induction n as [|n IH]; intros k s; cbn.
  - reflexivity.
  - destruct s; cbn; [now destruct k | apply IH].
Qed.

(** [p[k]] is the [k]-th byte of [rest p]. *)
Lemma peek_rest (p : cursor) (k : nat) (c : ascii) :
  String.get k (rest p) = Some c -> peek p (Z.of_nat k) = Ret c.
Proof.
  unfold rest, peek.
  destruct (Z.ltb_spec (off p) 0) as [Hneg|Hpos].
  - destruct k; discriminate.
  - intros H.
    destruct (Z.ltb_spec (off p + Z.of_nat k) 0); [lia|].
    replace (Z.to_nat (off p + Z.of_nat k)) with (Z.to_nat (off p) + k)%nat by lia.
    now rewrite get_drop, H.
Qed.

(** A sub-parse started by [recursively_demangle] reads nothing of the
    enclosing context but the options, and leaves it as it was. *)
Lemma recursively_demangle_fresh
  (self : Rec) (mangled : cursor) (result : string) (namelength : Z)
  (w w2 : work_stuff) (r : cursor * string) (w' : work_stuff) :
  options w2 = options w ->
  Prod.recursively_demangle self mangled result namelength w = Ret (r, w') ->
  w' = w
  /\ Prod.recursively_demangle self mangled result namelength w2 = Ret (r, w2).
Proof.
  intros Ho. unfold Prod.recursively_demangle. mstep. rewrite Ho.
  destruct (copy mangled namelength) as [recurse| |]; try discriminate.
  destruct (r_cplus_demangle_v2 self (Some recurse) (options w)) as [[d|]| |];
    try discriminate.
  - intros H. inversion H. auto.
  - destruct (string_appendn result mangled namelength); try discriminate.
    intros H. inversion H. auto.
Qed.

(** The target of a thunk is demangled by [internal_cplus_demangle] in the
    context [w] of [gnu_special] itself, and the context the sub-parse
    leaves is the one [gnu_special] returns. *)
Lemma thunk_target_in_enclosing_context
  (self : Rec) (mangled m1 : cursor) (declp : string) (w w' : work_stuff)
  (delta : Z) (method : option string) :
  has_prefix mangled "__thunk_" = Ret true ->
  consume_count (adv mangled 8) = Ret (delta, m1) ->
  delta <> -1 ->
  r_internal_cplus_demangle self (Some (adv m1 1)) w = Ret (method, w') ->
  Prod.gnu_special self mangled declp w
  = match method with
    | Some method =>
        match int_chk (- delta), strlen (adv m1 1) with
        | Ret d, Ret n =>
            Ret ((1, adv (adv m1 1) n,
                  (declp ++ "virtual function thunk (delta:" ++ string_of_Z d
                         ++ ") for ") ++ method), w')
        | Fault f, _ => Fault f
        | OutOfFuel, _ => OutOfFuel
        | Ret _, Fault f => Fault f
        | Ret _, OutOfFuel => OutOfFuel
        end
    | None => Ret ((0, adv m1 1, declp), w')
    end.
Proof.
  intros Hpre Hcount Hdelta Hsub. apply Z.eqb_neq in Hdelta.
  destruct (has_prefix_aux_app _ _ Hpre) as [tail Htail].
  assert (P0 : peek mangled 0 = Ret "_"%char)
    by (apply (peek_rest mangled 0); now rewrite Htail).
  assert (P1 : peek mangled 1 = Ret "_"%char)
    by (apply (peek_rest mangled 1); now rewrite Htail).
  assert (P2 : peek mangled 2 = Ret "t"%char)
    by (apply (peek_rest mangled 2); now rewrite Htail).
  unfold Prod.gnu_special.
  repeat (mstep;
          progress (rewrite ?P0, ?P1, ?P2, ?Hpre, ?Hcount, ?Hdelta, ?Hsub;
                    change (is_marker "_") with false;
                    change (one_of "_" "0123456789Qt") with false)).
  mstep.
  destruct method as [method|]; [|reflexivity].
  destruct (int_chk (- delta)); try reflexivity.
  destruct (strlen (adv m1 1)); reflexivity.
Qed.

(** C7 as stated fails for the thunk target: its sub-parse works on the
    context of the enclosing parse.  Started from a fresh top-level context,
    [gnu_special] on the thunk "__thunk_4__$_7ostream" returns with the
    entries that the sub-parse of "_$_7ostream" registered in the two
    squangling tables of that context. *)
Lemma C7_counterexample :
  let w := initial_work (opts true true false DMGL_NO_OPTS) in
  ktypevec w = [] /\ btypevec w = []
  /\ exists (m : cursor) (w' : work_stuff),
      gnu_special 30 (cursor_of "__thunk_4__$_7ostream") EmptyString w
      = Ret ((1, m, "virtual function thunk (delta:-4) for ostream::~ostream(void)"),
             w')
      /\ ktypevec w' = ["ostream"] /\ btypevec w' = [Some "ostream"].
Proof.
  cbv zeta. split; [reflexivity|]. split; [reflexivity|].
  eexists. eexists. split; [vm_compute; reflexivity|]. split; reflexivity.
Qed.

(** C7 (amended): a sub-parse started through [cplus_demangle_v2] for an
    embedded name of a qualified name ([recursively_demangle]) takes nothing
    from the enclosing context but its options, and leaves that context as
    it was: the same call made in any other context with these options
    yields the same text.  The target of a virtual-function thunk is
    demangled by [internal_cplus_demangle] in the enclosing context itself:
    the sub-parse starts from the context [w] that [gnu_special] was given,
    and the context [w'] it ends in, with the back-reference entries it
    registered, is the one [gnu_special] returns. *)
Theorem C7_sub_parse_contexts :
  (forall (self : Rec) (mangled : cursor) (result : string) (namelength : Z)
          (w w2 : work_stuff) (r : cursor * string) (w' : work_stuff),
      options w2 = options w ->
      Prod.recursively_demangle self mangled result namelength w = Ret (r, w') ->
      w' = w
      /\ Prod.recursively_demangle self mangled result namelength w2 = Ret (r, w2))
  /\ (forall (self : Rec) (mangled m1 : cursor) (declp : string) (w w' : work_stuff)
             (delta : Z) (method : option string),
         has_prefix mangled "__thunk_" = Ret true ->
         consume_count (adv mangled 8) = Ret (delta, m1) ->
         delta <> -1 ->
         r_internal_cplus_demangle self (Some (adv m1 1)) w = Ret (method, w') ->
         Prod.gnu_special self mangled declp w
         = match method with
           | Some method =>
               match int_chk (- delta), strlen (adv m1 1) with
               | Ret d, Ret n =>
                   Ret ((1, adv (adv m1 1) n,
                         (declp ++ "virtual function thunk (delta:" ++ string_of_Z d
                                ++ ") for ") ++ method), w')
               | Fault f, _ => Fault f
               | OutOfFuel, _ => OutOfFuel
               | Ret _, Fault f => Fault f
               | Ret _, OutOfFuel => OutOfFuel
               end
           | None => Ret ((0, adv m1 1, declp), w')
           end).
Proof.
  split.
  - intros. eapply recursively_demangle_fresh; eassumption.
  - intros. eapply thunk_target_in_enclosing_context; eassumption.
Qed.

(** The embedded name "foo__1Ai" of a qualified name demangles to the same
    text in a context whose tables are filled as in one whose tables are
    empty, and neither context changes. *)
Lemma C7_witness :
  let w := set_ktypevec ["X"] (set_typevec ["i"] (work_init gnu_demangling)) in
  let w2 := work_init gnu_demangling in
  Prod.recursively_demangle (run 30) (cursor_of "foo__1Ai") EmptyString 8 w2
  = Ret ((adv (cursor_of "foo__1Ai") 8, "A::foo"), w2).
Proof.
  cbv zeta.
  refine (proj2 (proj1 C7_sub_parse_contexts (run 30) (cursor_of "foo__1Ai")
                   EmptyString 8
                   (set_ktypevec ["X"] (set_typevec ["i"] (work_init gnu_demangling)))
                   (work_init gnu_demangling) _ _ _ _));
    [reflexivity | vm_compute; reflexivity].
Defined.

(** ** C6: the squangled-repeat cache *)

(** Run the monad without deciding any test. *)
Ltac mbind :=
  cbv beta iota zeta delta [bind lift get ret modify rbind].

(** One argument [arg] appended to the list in [declp]; [print] is
    PRINT_ARG_TYPES. *)
Definition append_arg (print need_comma : bool) (declp arg : string) : string :=
  let declp := if need_comma && print then string_append declp ", " else declp in
  if print then string_appends declp arg else declp.

(** [k] copies of [s] appended one after the other. *)
Fixpoint replays (print need_comma : bool) (declp s : string) (k : nat) : string :=
  match k with
  | O => declp
  | S k' => replays print true (append_arg print need_comma declp s) s k'
  end.

Lemma set_nrepeats_same (w : work_stuff) (v : Z) :
  nrepeats w = v -> set_nrepeats v w = w.
Proof. intros <-. destruct w; reflexivity. Qed.

Lemma do_arg_replay
  (self : Rec) (w : work_stuff) (mangled : cursor) (s : string) :
  0 < nrepeats w ->
  previous_argument w = Some s ->
  Prod.do_arg self mangled w
  = Ret ((1, mangled, s), set_nrepeats (nrepeats w - 1) w).
Proof.
  intros Hn Hp. apply Z.ltb_lt in Hn.
  unfold Prod.do_arg. mbind. rewrite Hn. mbind.
  replace (previous_argument (set_nrepeats (nrepeats w - 1) w)) with (Some s)
    by (rewrite <- Hp; destruct w; reflexivity).
  rewrite Hp. reflexivity.
Qed.

Lemma do_arg_replay_without_cache
  (self : Rec) (w : work_stuff) (mangled : cursor) :
  0 < nrepeats w ->
  previous_argument w = None ->
  Prod.do_arg self mangled w
  = Ret ((0, mangled, EmptyString), set_nrepeats (nrepeats w - 1) w).
Proof.
  intros Hn Hp. apply Z.ltb_lt in Hn.
  unfold Prod.do_arg. mbind. rewrite Hn. mbind. rewrite Hp. reflexivity.
Qed.

(** The cursor behind a repeat code with count [c] whose digits end at
    [m1]: a count above 9 is followed by '_'. *)
Definition after_repeat_code (c : Z) (m1 : cursor) : cursor :=
  if 9 <? c then adv m1 1 else m1.

Lemma do_arg_repeat_code
  (fuel : nat) (w : work_stuff) (mangled m1 : cursor) (c : Z) :
  nrepeats w <= 0 ->
  peek mangled 0 = Ret "n"%char ->
  consume_count (adv mangled 1) = Ret (c, m1) ->
  0 < c ->
  (9 < c -> peek m1 0 = Ret "_"%char) ->
  do_arg (2 + fuel) mangled w
  = match previous_argument w with
    | Some s => Ret ((1, after_repeat_code c m1, s), set_nrepeats (c - 1) w)
    | None => Ret ((0, after_repeat_code c m1, EmptyString), set_nrepeats (c - 1) w)
    end.
Proof.
  intros Hn Hpeek Hcount Hc Hus.
  assert (Hn' : (0 <? nrepeats w) = false) by (apply Z.ltb_ge; lia).
  assert (Hc' : (c <=? 0) = false) by (apply Z.leb_gt; lia).
  unfold do_arg. enter. unfold Prod.do_arg at 1. enter.
  mbind. rewrite Hn'. mbind. rewrite Hpeek. mstep. rewrite Hcount. mstep.
  rewrite Hc'. unfold after_repeat_code.
  destruct (Z.ltb_spec 9 c) as [Hbig|Hsmall].
  - rewrite (Hus Hbig). mstep.
    destruct (previous_argument w) as [s|] eqn:Hp.
    + rewrite (do_arg_replay _ (set_nrepeats c w) _ s);
        [reflexivity | cbn; lia | exact Hp].
    + rewrite (do_arg_replay_without_cache _ (set_nrepeats c w));
        [reflexivity | cbn; lia | exact Hp].
  - mstep.
    destruct (previous_argument w) as [s|] eqn:Hp.
    + rewrite (do_arg_replay _ (set_nrepeats c w) _ s);
        [reflexivity | cbn; lia | exact Hp].
    + rewrite (do_arg_replay_without_cache _ (set_nrepeats c w));
        [reflexivity | cbn; lia | exact Hp].
Qed.

Lemma demangle_args_loop_S (fuel : nat) :
  demangle_args_loop (S fuel) = Prod.demangle_args_loop (run fuel).
Proof. reflexivity. Qed.

(** One round of the argument loop while replays are pending. *)
Lemma demangle_args_loop_replay_round
  (fuel : nat) (w : work_stuff) (need_comma : bool) (mangled : cursor)
  (declp s : string) (c0 : ascii) :
  0 < nrepeats w ->
  previous_argument w = Some s ->
  peek mangled 0 = Ret c0 ->
  c0 <> "N"%char -> c0 <> "T"%char ->
  demangle_args_loop (2 + fuel) need_comma mangled declp w
  = demangle_args_loop (1 + fuel) true mangled
      (append_arg (PRINT_ARG_TYPES w) need_comma declp s)
      (set_nrepeats (nrepeats w - 1) w).
Proof.
  intros Hn Hp Hpeek HN HT.
  pose proof Hn as Hn'. apply Z.ltb_lt in Hn'.
  apply Ascii.eqb_neq in HN, HT.
  change (2 + fuel)%nat with (S (1 + fuel)). rewrite demangle_args_loop_S.
  unfold Prod.demangle_args_loop at 1. mbind. rewrite Hpeek. mbind.
  rewrite Hn', Bool.orb_true_r, HN, HT. cbn [negb orb].
  change (r_do_arg (run (1 + fuel))) with (Prod.do_arg (run fuel)).
  rewrite (do_arg_replay _ w mangled s Hn Hp). mstep.
  unfold append_arg, string_append, string_appends.
  destruct need_comma, (PRINT_ARG_TYPES w); reflexivity.
Qed.

(** While [k] replays are pending, the next [k] rounds of the argument loop
    append the cached argument [k] times, read nothing, and leave the
    counter at 0. *)
Lemma demangle_args_loop_replays (k : nat) :
  forall (fuel : nat) (w : work_stuff) (need_comma : bool) (mangled : cursor)
         (declp s : string) (c0 : ascii),
    nrepeats w = Z.of_nat (S k) ->
    previous_argument w = Some s ->
    peek mangled 0 = Ret c0 ->
    c0 <> "N"%char -> c0 <> "T"%char ->
    demangle_args_loop (S k + (1 + fuel)) need_comma mangled declp w
    = demangle_args_loop (1 + fuel) true mangled
        (replays (PRINT_ARG_TYPES w) need_comma declp s (S k))
        (set_nrepeats 0 w).
Proof.
  induction k as [|k IH]; intros fuel w need_comma mangled declp s c0 Hn Hp Hpeek HN HT.
  - change (1 + (1 + fuel))%nat with (2 + fuel)%nat.
    rewrite (demangle_args_loop_replay_round fuel w need_comma mangled declp s c0);
      try assumption; [|lia].
    rewrite Hn. reflexivity.
  - change (S (S k) + (1 + fuel))%nat with (2 + (k + (1 + fuel)))%nat.
    rewrite (demangle_args_loop_replay_round _ w need_comma mangled declp s c0);
      try assumption; [|lia].
    change (1 + (k + (1 + fuel)))%nat with (S k + (1 + fuel))%nat.
    assert (Hn1 : nrepeats (set_nrepeats (nrepeats w - 1) w) = Z.of_nat (S k))
      by (cbn [nrepeats set_nrepeats]; lia).
    assert (Hp1 : previous_argument (set_nrepeats (nrepeats w - 1) w) = Some s)
      by (rewrite <- Hp; destruct w; reflexivity).
    rewrite (IH fuel (set_nrepeats (nrepeats w - 1) w) true mangled
               (append_arg (PRINT_ARG_TYPES w) need_comma declp s) s c0
               Hn1 Hp1 Hpeek HN HT).
    reflexivity.
Qed.

(** A repeat code with count [c] read by the argument loop: [c] rounds of
    the loop append the cached argument [c] times; after the code itself no
    byte is consumed, and the counter is back at 0. *)
Lemma repeat_code_replays
  (fuel : nat) (w : work_stuff) (need_comma : bool) (mangled m1 : cursor)
  (declp s : string) (c : Z) (c0 : ascii) :
  nrepeats w = 0 ->
  previous_argument w = Some s ->
  peek mangled 0 = Ret "n"%char ->
  consume_count (adv mangled 1) = Ret (c, m1) ->
  0 < c ->
  (9 < c -> peek m1 0 = Ret "_"%char) ->
  peek (after_repeat_code c m1) 0 = Ret c0 ->
  c0 <> "N"%char -> c0 <> "T"%char ->
  demangle_args_loop (Z.to_nat c + (2 + fuel)) need_comma mangled declp w
  = demangle_args_loop (2 + fuel) true (after_repeat_code c m1)
      (replays (PRINT_ARG_TYPES w) need_comma declp s (Z.to_nat c)) w.
Proof.
  intros Hn Hp Hpeek Hcount Hc Hus Hnext HN HT.
  assert (Hcn : c = Z.of_nat (Z.to_nat c)) by lia.
  destruct (Z.to_nat c) as [|k] eqn:Hk; [lia|].
  (* the round that reads the code *)
  assert (Hfirst :
    demangle_args_loop (S k + (2 + fuel)) need_comma mangled declp w
    = demangle_args_loop (k + (2 + fuel)) true (after_repeat_code c m1)
        (append_arg (PRINT_ARG_TYPES w) need_comma declp s)
        (set_nrepeats (c - 1) w)).
  { change (S k + (2 + fuel))%nat with (S (k + (2 + fuel))).
    rewrite demangle_args_loop_S.
    unfold Prod.demangle_args_loop at 1. mbind. rewrite Hpeek. mstep.
    replace (r_do_arg (run (k + (2 + fuel)))) with (do_arg (2 + (k + fuel)))
      by (unfold do_arg; do 2 f_equal; lia).
    rewrite (do_arg_repeat_code _ w mangled m1 c); try assumption; [|lia].
    rewrite Hp. mstep.
    unfold append_arg, string_append, string_appends, demangle_args_loop.
    replace (PRINT_ARG_TYPES (set_nrepeats c w)) with (PRINT_ARG_TYPES w)
      by (destruct w; reflexivity).
    replace (PRINT_ARG_TYPES (set_nrepeats (c - 1) w)) with (PRINT_ARG_TYPES w)
      by (destruct w; reflexivity).
    destruct need_comma, (PRINT_ARG_TYPES w); reflexivity. }
  rewrite Hfirst. cbn [replays].
  destruct k as [|k].
  - replace (c - 1) with 0 by lia.
    rewrite (set_nrepeats_same w 0 Hn). reflexivity.
  - change (S k + (2 + fuel))%nat with (S k + (1 + (1 + fuel)))%nat.
    rewrite (demangle_args_loop_replays k (1 + fuel) (set_nrepeats (c - 1) w) true
               (after_repeat_code c m1)
               (append_arg (PRINT_ARG_TYPES w) need_comma declp s) s c0);
      try assumption.
    + replace (set_nrepeats 0 (set_nrepeats (c - 1) w)) with (set_nrepeats 0 w)
        by reflexivity.
      rewrite (set_nrepeats_same w 0 Hn).
      replace (PRINT_ARG_TYPES (set_nrepeats (c - 1) w)) with (PRINT_ARG_TYPES w)
        by (destruct w; reflexivity).
      reflexivity.
    + cbn [nrepeats set_nrepeats]. lia.
Qed.

(** A repeat code read when no argument is cached makes [demangle_args]
    return 0. *)
Lemma repeat_code_without_cache
  (fuel : nat) (w : work_stuff) (mangled m1 : cursor) (declp : string) (c : Z) :
  nrepeats w <= 0 ->
  previous_argument w = None ->
  peek mangled 0 = Ret "n"%char ->
  consume_count (adv mangled 1) = Ret (c, m1) ->
  0 < c ->
  (9 < c -> peek m1 0 = Ret "_"%char) ->
  demangle_args (4 + fuel) mangled declp w
  = Ret ((0, after_repeat_code c m1,
          if PRINT_ARG_TYPES w then string_append declp "(" else declp),
         set_nrepeats (c - 1) w).
Proof.
  intros Hn Hp Hpeek Hcount Hc Hus.
  unfold demangle_args. enter. unfold Prod.demangle_args. enter.
  unfold Prod.demangle_args_loop at 1. enter.
  mbind. rewrite Hpeek. mstep.
  change (Prod.do_arg (step (run fuel))) with (do_arg (2 + fuel)).
  destruct (PRINT_ARG_TYPES w); mstep; rewrite ?Hpeek; mstep;
    rewrite (do_arg_repeat_code _ w mangled m1 c); try assumption;
    rewrite Hp; reflexivity.
Qed.

(** One round of the loop that reissues a remembered type, while replays
    are pending: the cached argument is appended, not the remembered type. *)
Lemma demangle_args_repeat_loop_replay_round
  (fuel : nat) (w : work_stuff) (r t : Z) (need_comma : bool)
  (declp s tem : string) :
  0 < nrepeats w ->
  previous_argument w = Some s ->
  lookup (typevec w) t = Ret tem ->
  demangle_args_repeat_loop (2 + fuel) r t need_comma declp w
  = demangle_args_repeat_loop (1 + fuel) r t true
      (append_arg (PRINT_ARG_TYPES w) need_comma declp s)
      (set_nrepeats (nrepeats w - 1) w).
Proof.
  intros Hn Hp Ht.
  pose proof Hn as Hn'. apply Z.ltb_lt in Hn'.
  unfold demangle_args_repeat_loop at 1.
  change (2 + fuel)%nat with (S (1 + fuel)).
  cbn [run step r_demangle_args_repeat_loop].
  unfold Prod.demangle_args_repeat_loop at 1. mbind. rewrite Hn'. mbind.
  cbn [negb]. rewrite Ht.
  change (r_do_arg (run (1 + fuel))) with (Prod.do_arg (run fuel)).
  rewrite (do_arg_replay _ w (cursor_of tem) s Hn Hp). mstep.
  unfold append_arg, string_append, string_appends, demangle_args_repeat_loop.
  destruct need_comma, (PRINT_ARG_TYPES w); reflexivity.
Qed.

(** While [k] replays are pending, the first [k] rounds of the loop that
    reissues a remembered type append the cached argument [k] times and
    leave the counter at 0; the remembered type comes after them. *)
Lemma demangle_args_repeat_loop_replays (k : nat) :
  forall (fuel : nat) (w : work_stuff) (r t : Z) (need_comma : bool)
         (declp s tem : string),
    nrepeats w = Z.of_nat (S k) ->
    previous_argument w = Some s ->
    lookup (typevec w) t = Ret tem ->
    demangle_args_repeat_loop (S k + (1 + fuel)) r t need_comma declp w
    = demangle_args_repeat_loop (1 + fuel) r t true
        (replays (PRINT_ARG_TYPES w) need_comma declp s (S k))
        (set_nrepeats 0 w).
Proof.
  induction k as [|k IH]; intros fuel w r t need_comma declp s tem Hn Hp Ht.
  - change (1 + (1 + fuel))%nat with (2 + fuel)%nat.
    rewrite (demangle_args_repeat_loop_replay_round fuel w r t need_comma declp s tem);
      try assumption; [|lia].
    rewrite Hn. reflexivity.
  - change (S (S k) + (1 + fuel))%nat with (2 + (k + (1 + fuel)))%nat.
    rewrite (demangle_args_repeat_loop_replay_round _ w r t need_comma declp s tem);
      try assumption; [|lia].
    change (1 + (k + (1 + fuel)))%nat with (S k + (1 + fuel))%nat.
    assert (Hn1 : nrepeats (set_nrepeats (nrepeats w - 1) w) = Z.of_nat (S k))
      by (cbn [nrepeats set_nrepeats]; lia).
    assert (Hp1 : previous_argument (set_nrepeats (nrepeats w - 1) w) = Some s)
      by (rewrite <- Hp; destruct w; reflexivity).
    assert (Ht1 : lookup (typevec (set_nrepeats (nrepeats w - 1) w)) t = Ret tem)
      by (rewrite <- Ht; destruct w; reflexivity).
    rewrite (IH fuel (set_nrepeats (nrepeats w - 1) w) r t true
               (append_arg (PRINT_ARG_TYPES w) need_comma declp s) s tem
               Hn1 Hp1 Ht1).
    reflexivity.
Qed.

(** A plain argument (no replay pending, no repeat code) is parsed by
    [do_type]; its text is left in the cache before the argument is entered
    in the type table. *)
Lemma do_arg_caches
  (self : Rec) (w w' : work_stuff) (mangled m' : cursor) (c : ascii)
  (ok : Z) (s : string) :
  nrepeats w <= 0 ->
  peek mangled 0 = Ret c ->
  c <> "n"%char ->
  r_do_type self mangled (set_previous_argument (Some EmptyString) w)
  = Ret ((ok, m', s), w') ->
  ok <> 0 ->
  Prod.do_arg self mangled w
  = (remember_type mangled (off m' - off mangled) ;; ret (1, m', s))
      (set_previous_argument (Some s) w').
Proof.
  intros Hn Hpeek Hc Hty Hok.
  assert (Hn' : (0 <? nrepeats w) = false) by (apply Z.ltb_ge; lia).
  apply Ascii.eqb_neq in Hc.
  assert (Hnz : nz ok = true) by (unfold nz; apply Bool.negb_true_iff, Z.eqb_neq, Hok).
  unfold Prod.do_arg. mbind. rewrite Hn'. mbind. rewrite Hpeek. mbind.
  rewrite Hc. mbind. rewrite Hty. mbind. rewrite Hnz. reflexivity.
Qed.

(** [remember_type] leaves the cache alone. *)
Lemma remember_type_previous_argument
  (start : cursor) (n : Z) (w w' : work_stuff) (u : unit) :
  remember_type start n w = Ret (u, w') ->
  previous_argument w' = previous_argument w.
Proof.
  unfold remember_type. mbind.
  destruct (nz (forgetting_types w)).
  - intros [= _ <-]. reflexivity.
  - destruct (copy start n); [|discriminate|discriminate].
    intros [= _ <-]. destruct w; reflexivity.
Qed.

(** A repeat code whose count is not positive makes [do_arg] return 0,
    whether or not an argument is cached. *)
Lemma do_arg_repeat_code_not_positive
  (self : Rec) (w : work_stuff) (mangled m1 : cursor) (c : Z) :
  nrepeats w <= 0 ->
  peek mangled 0 = Ret "n"%char ->
  consume_count (adv mangled 1) = Ret (c, m1) ->
  c <= 0 ->
  Prod.do_arg self mangled w = Ret ((0, m1, EmptyString), set_nrepeats c w).
Proof.
  intros Hn Hpeek Hcount Hc.
  assert (Hn' : (0 <? nrepeats w) = false) by (apply Z.ltb_ge; lia).
  assert (Hc' : (c <=? 0) = true) by (apply Z.leb_le; lia).
  unfold Prod.do_arg. mbind. rewrite Hn'. mbind. rewrite Hpeek. mstep.
  rewrite Hcount. mstep. rewrite Hc'. reflexivity.
Qed.

(** C6 as stated fails for the multiplier 0: the repeat code "n0" after the
    plain argument "i" does not replay the argument zero times, it makes the
    whole name fail, while the same list without the code, and the list with
    the code "n1", demangle. *)
Lemma C6_counterexample :
  cplus_demangle_v2 20 (Some "f__Fin0") (opts true true false gnu_demangling)
  = Ret None
  /\ cplus_demangle_v2 20 (Some "f__Fi") (opts true true false gnu_demangling)
     = Ret (Some "f(int)")
  /\ cplus_demangle_v2 20 (Some "f__Fin1") (opts true true false gnu_demangling)
     = Ret (Some "f(int, int)").
Proof. repeat split; vm_compute; reflexivity. Qed.

(** C6 (amended): in an argument list,
    - a plain argument parsed by [do_arg] is left in the cache;
    - while the counter of pending replays is positive, [do_arg] returns the
      cached argument, moves the cursor nowhere and takes 1 off the counter;
    - a repeat code 'n' with a count [c] of at least 1 (a count above 9 is
      closed by '_'), read while an argument [s] is cached, makes the
      argument loop append [s] exactly [c] times; the cursor stays behind
      the code and the counter is back at 0;
    - replays still pending when the loop meets a 'T' or 'N' reference are
      appended by the loop that reissues the remembered type, before that
      type;
    - a repeat code with a count of 0 (or less) makes [do_arg] return 0 even
      when an argument is cached;
    - a replay, or a repeat code, with nothing cached makes the argument
      list fail. *)
Theorem C6_squangle_replay :
  (forall (self : Rec) (w w' : work_stuff) (mangled m' : cursor) (c : ascii)
          (ok : Z) (s : string),
      nrepeats w <= 0 ->
      peek mangled 0 = Ret c ->
      c <> "n"%char ->
      r_do_type self mangled (set_previous_argument (Some EmptyString) w)
      = Ret ((ok, m', s), w') ->
      ok <> 0 ->
      Prod.do_arg self mangled w
      = (remember_type mangled (off m' - off mangled) ;; ret (1, m', s))
          (set_previous_argument (Some s) w'))
  /\ (forall (self : Rec) (w : work_stuff) (mangled : cursor) (s : string),
      0 < nrepeats w ->
      previous_argument w = Some s ->
      Prod.do_arg self mangled w
      = Ret ((1, mangled, s), set_nrepeats (nrepeats w - 1) w))
  /\ (forall (fuel : nat) (w : work_stuff) (need_comma : bool)
             (mangled m1 : cursor) (declp s : string) (c : Z) (c0 : ascii),
      nrepeats w = 0 ->
      previous_argument w = Some s ->
      peek mangled 0 = Ret "n"%char ->
      consume_count (adv mangled 1) = Ret (c, m1) ->
      0 < c ->
      (9 < c -> peek m1 0 = Ret "_"%char) ->
      peek (after_repeat_code c m1) 0 = Ret c0 ->
      c0 <> "N"%char -> c0 <> "T"%char ->
      demangle_args_loop (Z.to_nat c + (2 + fuel)) need_comma mangled declp w
      = demangle_args_loop (2 + fuel) true (after_repeat_code c m1)
          (replays (PRINT_ARG_TYPES w) need_comma declp s (Z.to_nat c)) w)
  /\ (forall (k fuel : nat) (w : work_stuff) (r t : Z) (need_comma : bool)
             (declp s tem : string),
      nrepeats w = Z.of_nat (S k) ->
      previous_argument w = Some s ->
      lookup (typevec w) t = Ret tem ->
      demangle_args_repeat_loop (S k + (1 + fuel)) r t need_comma declp w
      = demangle_args_repeat_loop (1 + fuel) r t true
          (replays (PRINT_ARG_TYPES w) need_comma declp s (S k))
          (set_nrepeats 0 w))
  /\ (forall (self : Rec) (w : work_stuff) (mangled m1 : cursor) (c : Z),
      nrepeats w <= 0 ->
      peek mangled 0 = Ret "n"%char ->
      consume_count (adv mangled 1) = Ret (c, m1) ->
      c <= 0 ->
      Prod.do_arg self mangled w = Ret ((0, m1, EmptyString), set_nrepeats c w))
  /\ (forall (self : Rec) (w : work_stuff) (mangled : cursor),
      0 < nrepeats w ->
      previous_argument w = None ->
      Prod.do_arg self mangled w
      = Ret ((0, mangled, EmptyString), set_nrepeats (nrepeats w - 1) w))
  /\ (forall (fuel : nat) (w : work_stuff) (mangled m1 : cursor)
             (declp : string) (c : Z),
      nrepeats w <= 0 ->
      previous_argument w = None ->
      peek mangled 0 = Ret "n"%char ->
      consume_count (adv mangled 1) = Ret (c, m1) ->
      0 < c ->
      (9 < c -> peek m1 0 = Ret "_"%char) ->
      demangle_args (4 + fuel) mangled declp w
      = Ret ((0, after_repeat_code c m1,
              if PRINT_ARG_TYPES w then string_append declp "(" else declp),
             set_nrepeats (c - 1) w)).
Proof.
  repeat split.
  - intros. eapply do_arg_caches; eassumption.
  - intros. apply do_arg_replay; assumption.
  - intros. eapply repeat_code_replays; eassumption.
  - intros. eapply demangle_args_repeat_loop_replays; eassumption.
  - intros. apply do_arg_repeat_code_not_positive; assumption.
  - intros. apply do_arg_replay_without_cache; assumption.
  - intros. apply repeat_code_without_cache; assumption.
Qed.

(** The code "n12_" read with "int" in the cache: twelve more "int" are
    appended to the list and the loop goes on behind the code. *)
Lemma C6_witness :
  let w := set_previous_argument (Some "int")
             (initial_work (opts true true false gnu_demangling)) in
  demangle_args_loop (Z.to_nat 12 + (2 + 0)) true (cursor_of "n12_") "f(int" w
  = demangle_args_loop (2 + 0) true
      (after_repeat_code 12 (adv (cursor_of "n12_") 3))
      (replays (PRINT_ARG_TYPES w) true "f(int" "int" (Z.to_nat 12)) w.
Proof.
  cbv zeta.
  refine (proj1 (proj2 (proj2 C6_squangle_replay)) 0%nat
            (set_previous_argument (Some "int")
               (initial_work (opts true true false gnu_demangling)))
            true (cursor_of "n12_") (adv (cursor_of "n12_") 3) "f(int" "int" 12 NUL
            _ _ _ _ _ _ _ _ _);
    try reflexivity; try lia; try discriminate.
Defined.

(** ** C2: termination *)

(** An ARM class name with a cfront template part "__pt__" whose argument
    list is the single byte '_'. *)
Definition cfront_name : string := "f__10A__pt__2__".

(** The cursor [k] bytes into [cfront_name]. *)
Definition cfront_at (k : Z) : cursor := adv (cursor_of cfront_name) k.

(** At the byte '_', [do_type] succeeds with an empty text and leaves the
    cursor where it was: [demangle_fund_type] takes the case '_' for the
    end of the type. *)
Lemma do_type_at_underscore (fuel : nat) (w : work_stuff) :
  do_type fuel (cfront_at 14) w = OutOfFuel
  \/ do_type fuel (cfront_at 14) w = Ret ((3, cfront_at 14, EmptyString), w).
Proof.
  destruct fuel as [|[|[|fuel]]];
    [left; reflexivity .. | right; vm_compute; reflexivity].
Qed.

(** The loop "while (args < e)" over the cfront template arguments never
    leaves the byte '_': each round appends "," and starts again at the same
    cursor, whatever the fuel. *)
Lemma cfront_template_args_loop_spins (fuel : nat) :
  forall (declp : string) (w : work_stuff),
    r_cfront_template_args_loop (run fuel) (cfront_at 14) (cfront_at 15) declp w
    = OutOfFuel.
Proof.
  induction fuel as [|fuel IH]; intros declp w; [reflexivity|].
  cbn [run step r_cfront_template_args_loop].
  unfold Prod.cfront_template_args_loop.
  change (off (cfront_at 14) <? off (cfront_at 15)) with true. cbn [negb].
  mbind.
  change (peek (cfront_at 14) 0) with (Ret "_"%char : res ascii).
  cbv beta iota.
  change (("_" == "X")%char) with false.
  change (("_" == "L")%char) with false.
  cbv beta iota.
  destruct (do_type_at_underscore fuel w) as [H|H];
    unfold do_type in H; rewrite H; [reflexivity|].
  cbv beta iota. change (nz 3) with true. cbn [negb]. apply IH.
Qed.

Lemma demangle_arm_hp_template_spins
  (fuel : nat) (declp : string) (w : work_stuff) :
  HP_DEMANGLING w = false ->
  ARM_DEMANGLING w = true ->
  r_demangle_arm_hp_template (run fuel) (cfront_at 5) 10 declp w = OutOfFuel.
Proof.
  intros Hhp Harm.
  destruct fuel as [|fuel]; [reflexivity|].
  cbn [run step r_demangle_arm_hp_template].
  unfold Prod.demangle_arm_hp_template. mbind. rewrite Hhp. cbv beta iota.
  assert (Hpt : arm_pt w (cfront_at 5) 10 = Ret (1, cfront_at 6, cfront_at 14))
    by (unfold arm_pt; rewrite Hhp, Harm; vm_compute; reflexivity).
  rewrite Hpt. cbv beta iota. change (nz 1) with true. cbv beta iota.
  assert (Happ : string_appendn declp (cfront_at 5)
                   (off (cfront_at 6) - off (cfront_at 5))
                 = Ret (declp ++ "A"))
    by reflexivity.
  rewrite Happ. cbv beta iota.
  change (adv (cfront_at 5) 10) with (cfront_at 15).
  destruct (temp_start w =? -1); cbv beta iota;
    rewrite cfront_template_args_loop_spins; reflexivity.
Qed.

Lemma demangle_class_name_spins
  (fuel : nat) (declp : string) (w : work_stuff) :
  HP_DEMANGLING w = false ->
  ARM_DEMANGLING w = true ->
  r_demangle_class_name (run fuel) (cfront_at 3) declp w = OutOfFuel.
Proof.
  intros Hhp Harm.
  destruct fuel as [|fuel]; [reflexivity|].
  cbn [run step r_demangle_class_name].
  unfold Prod.demangle_class_name. mbind.
  change (consume_count (cfront_at 3)) with (Ret (10, cfront_at 5) : res (Z * cursor)).
  cbv beta iota.
  change (10 =? -1) with false. cbv beta iota.
  change (strlen (cfront_at 5)) with (Ret 10 : res Z).
  cbv beta iota. change (10 <=? 10) with true. cbv beta iota.
  rewrite (demangle_arm_hp_template_spins fuel declp w Hhp Harm). reflexivity.
Qed.

Lemma demangle_class_spins
  (fuel : nat) (declp : string) (w : work_stuff) :
  HP_DEMANGLING w = false ->
  ARM_DEMANGLING w = true ->
  r_demangle_class (run fuel) (cfront_at 3) declp w = OutOfFuel.
Proof.
  intros Hhp Harm.
  destruct fuel as [|fuel]; [reflexivity|].
  cbn [run step r_demangle_class].
  unfold Prod.demangle_class, register_Btype. mbind.
  rewrite demangle_class_name_spins; [reflexivity | exact Hhp | exact Harm].
Qed.

(** The scrutinee on which a nest of matches waits. *)
Ltac innermost t k :=
  lazymatch t with
  | match ?x with _ => _ end => innermost x k
  | _ => k t
  end.

(** C2 fails in the code: on the name "f__10A__pt__2__" in the ARM style
    [cplus_demangle_v2] returns neither a string nor failure.  The prefix
    "f" and the class name of 10 bytes "A__pt__2__" are accepted, [arm_pt]
    finds the template part "__pt__" with an argument list of 2 bytes, and
    the loop of [demangle_arm_hp_template] over these arguments calls
    [do_type] at the byte '_', which succeeds and consumes nothing: the loop
    runs for ever, appending "," to the declaration.  In the model no
    amount of fuel lets the call return. *)
Theorem C2_cfront_template_arguments_never_return (fuel : nat) :
  cplus_demangle_v2 fuel (Some cfront_name) (opts true true false arm_demangling)
  = OutOfFuel.
Proof.
  do 4 (destruct fuel as [|fuel]; [vm_compute; reflexivity|]).
  match goal with |- ?l = _ => let l' := eval lazy head in l in change l with l' end.
  match goal with |- ?l = _ =>
    innermost l ltac:(fun x =>
      lazymatch x with
      | _ ?m ?d ?w =>
          assert (Hx : x = OutOfFuel)
            by (change (r_demangle_class (run fuel) m d w = OutOfFuel);
                apply demangle_class_spins; reflexivity);
          rewrite Hx
      end)
  end.
  reflexivity.
Qed.

(** ** C8: the Java option *)

(** The pointer code: [do_type] prepends "*" for 'P' (and 'p') unless the
    Java option is set, and goes on behind the code. *)
Lemma do_type_loop_pointer
  (self : Rec) (w : work_stuff) (mangled : cursor) (caller : option cursor)
  (decl : string) (tk success : Z) (c : ascii) :
  success <> 0 ->
  peek mangled 0 = Ret c ->
  c = "P"%char \/ c = "p"%char ->
  Prod.do_type_loop self mangled caller decl tk success false w
  = r_do_type_loop self (adv mangled 1) caller
      (if DMGL_JAVA (options w) then decl else "*" ++ decl)
      (if tk =? tk_none then tk_pointer else tk) success false w.
Proof.
  intros Hok Hpeek Hc.
  assert (Hnz : nz success = true)
    by (unfold nz; apply Bool.negb_true_iff, Z.eqb_neq, Hok).
  unfold Prod.do_type_loop. rewrite Hnz. cbn [negb orb]. mbind. rewrite Hpeek.
  cbv beta iota.
  destruct Hc as [-> | ->]; cbn [Ascii.eqb Bool.eqb orb];
    unfold string_prepend; destruct (DMGL_JAVA (options w)); reflexivity.
Qed.


(** * Further properties of the code *)

(** ** Cursors and strings *)

Lemma len_app (a b : string) : len (a ++ b) = len a + len b.
Proof.
  unfold len. induction a as [|c a IH]; cbn [append String.length].
  - lia.
  - rewrite !Nat2Z.inj_succ. lia.
Qed.

Lemma len_nonneg (a : string) : 0 <= len a.
Proof. unfold len. lia. Qed.

Lemma drop_app (a b : string) : drop (String.length a) (a ++ b) = b.
Proof. induction a as [|c a IH]; cbn; [now destruct b | exact IH]. Qed.

Lemma take_app (a b : string) : take (String.length a) (a ++ b) = a.
Proof. induction a as [|c a IH]; cbn; [now destruct b | now rewrite IH]. Qed.

Lemma drop_drop (n : nat) :
  forall (m : nat) (s : string), drop m (drop n s) = drop (n + m) s.
Proof.
  induction n as [|n IH]; intros m s; cbn.
  - reflexivity.
  - destruct s; cbn; [now destruct m | apply IH].
Qed.

(** The bytes at [p + k] are the bytes at [p] less the first [k]. *)
Lemma rest_adv (p : cursor) (k : nat) :
  0 <= off p -> rest (adv p (Z.of_nat k)) = drop k (rest p).
Proof.
  intros Hoff. unfold rest, adv. cbn [off blk].
  destruct (Z.ltb_spec (off p) 0); [lia|].
  destruct (Z.ltb_spec (off p + Z.of_nat k) 0); [lia|].
  rewrite drop_drop. f_equal. lia.
Qed.

Lemma rest_nonneg (p : cursor) (c : ascii) (t : string) :
  rest p = String c t -> 0 <= off p.
Proof.
  unfold rest. destruct (Z.ltb_spec (off p) 0); [discriminate | lia].
Qed.

Lemma rest_adv_app (p : cursor) (a b : string) :
  b <> EmptyString -> rest p = a ++ b -> rest (adv p (len a)) = b.
Proof.
  intros Hb H.
  assert (Hoff : 0 <= off p).
  { destruct a as [|c a]; cbn in H.
    - destruct b as [|c b]; [contradiction|]. eapply rest_nonneg; eassumption.
    - eapply rest_nonneg; eassumption. }
  unfold len. rewrite (rest_adv p _ Hoff), H. apply drop_app.
Qed.

(** ** Decimal counts *)

Lemma decimal_value_from_app (a b : string) :
  forall acc, decimal_value_from acc (a ++ b)
              = decimal_value_from (decimal_value_from acc a) b.
Proof. induction a as [|c a IH]; intros acc; cbn; [reflexivity | apply IH]. Qed.

(** [consume_count] at a cursor that reads the digits [ds] and then a byte
    that is no digit: the value, as the int it is returned in. *)
Lemma consume_count_digits (type : cursor) (ds : string) (c : ascii) (t : string) :
  rest type = ds ++ String c t ->
  ds <> EmptyString ->
  all_digits ds = true ->
  isdigit c = false ->
  decimal_value ds <= UT32_MAX ->
  consume_count type = Ret (to_int (decimal_value ds), adv type (len ds)).
Proof.
  intros Hrest Hne Hds Hc Hle.
  destruct ds as [|d ds']; [contradiction|].
  assert (Hd : isdigit d = true).
  { cbn in Hds. now apply andb_true_iff in Hds as [Hd _]. }
  assert (Hp : at_digit type 0 = Ret true).
  { unfold at_digit. rewrite (rest_peek type d (ds' ++ String c t)) by exact Hrest.
    cbn. now rewrite Hd. }
  unfold consume_count. rewrite Hp. cbn [rbind negb]. rewrite Hrest.
  destruct (consume_count_loop_spec (String d ds') (String c t) 0 0 Hds
              ltac:(unfold UT32_MAX; lia)) as [_ Hok].
  rewrite (Hok Hle c t eq_refl Hc). reflexivity.
Qed.

(** The loop of [consume_count] on digits whose value leaves the 32-bit
    range: it returns at the first digit that does not fit. *)
Lemma consume_count_loop_overflow (ds : string) :
  forall (tail : string) (count k : Z),
    all_digits ds = true ->
    0 <= count <= UT32_MAX ->
    UT32_MAX < decimal_value_from count ds ->
    exists j : nat,
      (j < String.length ds)%nat
      /\ consume_count_loop (ds ++ tail) count k = Ret (-1, k + Z.of_nat j)
      /\ decimal_value_from count (take j ds) <= UT32_MAX
      /\ UT32_MAX < decimal_value_from count (take (S j) ds).
Proof.
  induction ds as [|d ds IH]; intros tail count k Hds Hcount Hbig.
  - cbn in Hbig. lia.
  - cbn in Hds. apply andb_true_iff in Hds as [Hd Hds].
    pose proof (isdigit_range _ Hd) as Hr.
    cbn [append consume_count_loop]. rewrite Hd.
    change (UT32_MAX / 10) with 429496729.
    destruct (Z.ltb_spec 429496729 count) as [Hover|Hsmall].
    + exists 0%nat. cbn [take decimal_value_from String.length Z.of_nat].
      repeat split; try lia.
      * now rewrite Z.add_0_r.
      * unfold UT32_MAX in *. lia.
    + assert (Hm : u32 (count * 10) = count * 10).
      { unfold u32. apply Z.mod_small. lia. }
      assert (Hn : u32 (code d - 48) = code d - 48).
      { unfold u32. apply Z.mod_small. lia. }
      rewrite Hm, Hn.
      destruct (Z.ltb_spec (UT32_MAX - (code d - 48)) (count * 10)) as [Hov|Hok].
      * exists 0%nat. cbn [take decimal_value_from String.length Z.of_nat].
        repeat split; try lia.
        now rewrite Z.add_0_r.
      * assert (Hs : u32 (count * 10 + (code d - 48)) = count * 10 + (code d - 48)).
        { unfold u32. apply Z.mod_small. unfold UT32_MAX in *. lia. }
        rewrite Hs.
        cbn [decimal_value_from] in Hbig.
        destruct (IH tail (count * 10 + (code d - 48)) (k + 1) Hds
                    ltac:(unfold UT32_MAX in *; lia) Hbig)
          as (j & Hj & Hloop & Hfit & Hout).
        exists (S j). cbn [String.length].
        repeat split.
        -- lia.
        -- rewrite Hloop. f_equal. f_equal. lia.
        -- cbn [take decimal_value_from]. exact Hfit.
        -- cbn [take decimal_value_from]. cbn [take] in Hout. exact Hout.
Qed.

(** X1.  On overflow [consume_count] returns -1 with the cursor at the
    first digit that does not fit the 32-bit accumulator: the digits before
    it are consumed, that digit and the digits behind it are not. *)
Theorem consume_count_overflow_stops_at_digit
  (type : cursor) (ds tail : string) :
  rest type = ds ++ tail ->
  all_digits ds = true ->
  UT32_MAX < decimal_value ds ->
  exists j : nat,
    (j < String.length ds)%nat
    /\ consume_count type = Ret (-1, adv type (Z.of_nat j))
    /\ decimal_value (take j ds) <= UT32_MAX
    /\ UT32_MAX < decimal_value (take (S j) ds).
Proof.
  intros Hrest Hds Hbig.
  destruct ds as [|d ds'].
  - cbn in Hbig. unfold UT32_MAX in Hbig. lia.
  - assert (Hd : isdigit d = true).
    { cbn in Hds. now apply andb_true_iff in Hds as [Hd _]. }
    assert (Hp : at_digit type 0 = Ret true).
    { unfold at_digit. rewrite (rest_peek type d (ds' ++ tail)) by exact Hrest.
      cbn. now rewrite Hd. }
    destruct (consume_count_loop_overflow (String d ds') tail 0 0 Hds
                ltac:(unfold UT32_MAX; lia) Hbig)
      as (j & Hj & Hloop & Hfit & Hout).
    exists j. unfold consume_count. rewrite Hp. cbn [rbind negb].
    rewrite Hrest, Hloop. cbn [rbind]. rewrite Z.add_0_l.
    repeat split; assumption.
Qed.

Lemma consume_count_overflow_stops_at_digit_witness :
  exists j : nat,
    (j < String.length "42949672960")%nat
    /\ consume_count (cursor_of "42949672960") = Ret (-1, adv (cursor_of "42949672960") (Z.of_nat j))
    /\ decimal_value (take j "42949672960") <= UT32_MAX
    /\ UT32_MAX < decimal_value (take (S j) "42949672960").
Proof.
  apply (consume_count_overflow_stops_at_digit (cursor_of "42949672960")
           "42949672960" (String NUL EmptyString));
    [reflexivity | reflexivity | vm_compute; reflexivity].
Defined.

(** X2.  The count comes back as an int: a value up to 2^31-1 is returned
    as it is, a value from 2^31 to 2^32-1 is accepted by the overflow
    checks and returned as the negative number [v - 2^32]; the largest one,
    4294967295, is returned as the failure value -1. *)
Theorem consume_count_result_is_int
  (type : cursor) (ds : string) (c : ascii) (t : string) :
  rest type = ds ++ String c t ->
  ds <> EmptyString ->
  all_digits ds = true ->
  isdigit c = false ->
  decimal_value ds <= UT32_MAX ->
  exists n : Z,
    consume_count type = Ret (n, adv type (len ds))
    /\ (decimal_value ds <= INT_MAX -> n = decimal_value ds /\ 0 <= n)
    /\ (INT_MAX < decimal_value ds -> n = decimal_value ds - 4294967296 /\ n < 0)
    /\ (decimal_value ds = UT32_MAX -> n = -1).
Proof.
  intros Hrest Hne Hds Hc Hle.
  exists (to_int (decimal_value ds)). split.
  - apply consume_count_digits with (c := c) (t := t); assumption.
  - pose proof (decimal_value_from_ge ds 0 ltac:(lia) Hds) as Hge.
    fold (decimal_value ds) in Hge.
    unfold to_int, INT_MAX, UT32_MAX in *.
    destruct (Z.leb_spec (decimal_value ds) 2147483647); repeat split; lia.
Qed.

Lemma consume_count_result_is_int_witness :
  exists n : Z,
    consume_count (cursor_of "4294967294A") = Ret (n, adv (cursor_of "4294967294A") (len "4294967294"))
    /\ (decimal_value "4294967294" <= INT_MAX -> n = decimal_value "4294967294" /\ 0 <= n)
    /\ (INT_MAX < decimal_value "4294967294" -> n = decimal_value "4294967294" - 4294967296 /\ n < 0)
    /\ (decimal_value "4294967294" = UT32_MAX -> n = -1).
Proof.
  apply (consume_count_result_is_int (cursor_of "4294967294A") "4294967294" "A"
           (String NUL EmptyString));
    [reflexivity | discriminate | reflexivity | reflexivity
     | vm_compute; discriminate].
Defined.

(** X3.  [consume_count_with_underscores] reads either one digit, or a
    count of any length between two underscores; a count that is not closed
    by an underscore is refused, and so is a byte that is neither. *)
Theorem consume_count_with_underscores_forms
  (mangled : cursor) (ds : string) (c : ascii) (t : string) :
  all_digits ds = true ->
  ds <> EmptyString ->
  isdigit c = false ->
  decimal_value ds <= UT32_MAX ->
  (rest mangled = "_" ++ ds ++ String c t ->
   consume_count_with_underscores mangled
   = if c == "_"%char
     then Ret (to_int (decimal_value ds), adv mangled (len ds + 2))
     else Ret (-1, adv mangled (len ds + 1)))
  /\ (rest mangled = ds ++ String c t ->
      consume_count_with_underscores mangled
      = Ret (decimal_value (take 1 ds), adv mangled 1))
  /\ (rest mangled = String c t -> c <> "_"%char ->
      consume_count_with_underscores mangled = Ret (-1, mangled)).
Proof.
  intros Hds Hne Hc Hle.
  destruct ds as [|d ds']; [contradiction|].
  assert (Hd : isdigit d = true).
  { cbn in Hds. now apply andb_true_iff in Hds as [Hd _]. }
  split; [|split].
  - intros Hrest.
    assert (Hoff : 0 <= off mangled) by (eapply rest_nonneg; exact Hrest).
    assert (Hrest1 : rest (adv mangled 1) = String d ds' ++ String c t).
    { change 1 with (Z.of_nat 1). rewrite (rest_adv _ _ Hoff), Hrest. reflexivity. }
    assert (Hrest2 : rest (adv (adv mangled 1) (len (String d ds'))) = String c t).
    { apply rest_adv_app with (a := String d ds'); [discriminate | exact Hrest1]. }
    unfold consume_count_with_underscores.
    unfold at_is at 1. rewrite (rest_peek _ _ _ Hrest). cbn [rbind Ascii.eqb Bool.eqb].
    unfold at_digit. rewrite (rest_peek _ _ _ Hrest1). cbn [rbind]. rewrite Hd.
    cbn [negb].
    rewrite (consume_count_digits (adv mangled 1) (String d ds') c t Hrest1
               ltac:(discriminate) Hds Hc Hle).
    cbn [rbind]. unfold at_is. rewrite (rest_peek _ _ _ Hrest2). cbn [rbind].
    unfold adv. cbn [blk off].
    destruct (c == "_"%char); cbn [negb]; do 3 f_equal; lia.
  - intros Hrest.
    unfold consume_count_with_underscores.
    unfold at_is at 1. rewrite (rest_peek _ _ _ Hrest). cbn [rbind].
    assert (Hu : (d == "_"%char) = false).
    { apply Ascii.eqb_neq. intros ->. discriminate. }
    rewrite Hu, Hd. cbn [negb take decimal_value decimal_value_from].
    unfold decimal_value. cbn [decimal_value_from]. reflexivity.
  - intros Hrest Hu. apply Ascii.eqb_neq in Hu.
    unfold consume_count_with_underscores.
    unfold at_is at 1. rewrite (rest_peek _ _ _ Hrest). cbn [rbind].
    rewrite Hu, Hc. reflexivity.
Qed.

Lemma consume_count_with_underscores_forms_witness :
  consume_count_with_underscores (cursor_of "_12_x")
  = Ret (12, adv (cursor_of "_12_x") 4)
  /\ consume_count_with_underscores (cursor_of "_12x")
     = Ret (-1, adv (cursor_of "_12x") 3)
  /\ consume_count_with_underscores (cursor_of "12_")
     = Ret (1, adv (cursor_of "12_") 1).
Proof.
  split; [|split].
  - refine (proj1 (consume_count_with_underscores_forms (cursor_of "_12_x") "12" "_"
                     (String "x" (String NUL EmptyString)) _ _ _ _) _);
      [reflexivity | discriminate | reflexivity | vm_compute; discriminate
       | reflexivity].
  - refine (proj1 (consume_count_with_underscores_forms (cursor_of "_12x") "12" "x"
                     (String NUL EmptyString) _ _ _ _) _);
      [reflexivity | discriminate | reflexivity | vm_compute; discriminate
       | reflexivity].
  - refine (proj1 (proj2 (consume_count_with_underscores_forms (cursor_of "12_") "12" "_"
                     (String NUL EmptyString) _ _ _ _)) _);
      [reflexivity | discriminate | reflexivity | vm_compute; discriminate
       | reflexivity].
Defined.

(** The loop of [get_count] over the digits [ds]. *)
Lemma get_count_loop_digits (ds : string) :
  forall (c : ascii) (t : string) (n k : Z),
    all_digits ds = true ->
    isdigit c = false ->
    0 <= n ->
    decimal_value_from n ds <= INT_MAX ->
    get_count_loop (ds ++ String c t) n k
    = Ret (decimal_value_from n ds, k + len ds).
Proof.
  induction ds as [|d ds IH]; intros c t n k Hds Hc Hn Hle.
  - cbn [append get_count_loop decimal_value_from]. rewrite Hc.
    unfold len. cbn [String.length Z.of_nat]. now rewrite Z.add_0_r.
  - cbn in Hds. apply andb_true_iff in Hds as [Hd Hds].
    pose proof (isdigit_range _ Hd) as Hr.
    cbn [decimal_value_from] in Hle.
    pose proof (decimal_value_from_ge ds (n * 10 + (code d - 48)) ltac:(lia) Hds) as Hge.
    cbn [append get_count_loop decimal_value_from]. rewrite Hd.
    assert (H1 : int_chk (n * 10) = Ret (n * 10)).
    { unfold int_chk, INT_MIN, INT_MAX in *.
      destruct (Z.leb_spec (-2147483648) (n * 10)); [|lia].
      destruct (Z.leb_spec (n * 10) 2147483647); [reflexivity|lia]. }
    assert (H2 : int_chk (n * 10 + (code d - 48)) = Ret (n * 10 + (code d - 48))).
    { unfold int_chk, INT_MIN, INT_MAX in *.
      destruct (Z.leb_spec (-2147483648) (n * 10 + (code d - 48))); [|lia].
      destruct (Z.leb_spec (n * 10 + (code d - 48)) 2147483647); [reflexivity|lia]. }
    rewrite H1. cbn [rbind]. rewrite H2. cbn [rbind].
    rewrite (IH c t (n * 10 + (code d - 48)) (k + 1) Hds Hc ltac:(lia) Hle).
    unfold len. cbn [String.length]. rewrite Nat2Z.inj_succ.
    do 2 f_equal. lia.
Qed.

(** X4.  [get_count] reads one digit, unless more digits follow and are
    closed by an underscore: then it reads the whole number and the
    underscore.  Digits that are not closed by an underscore are left for
    the caller, all but the first. *)
Theorem get_count_forms
  (type : cursor) (d : ascii) (ds : string) (c : ascii) (t : string) (count : Z) :
  rest type = String d (ds ++ String c t) ->
  isdigit d = true ->
  all_digits ds = true ->
  isdigit c = false ->
  decimal_value (String d ds) <= INT_MAX ->
  get_count type count
  = if negb (ds =? "")%string && (c == "_"%char)
    then Ret (1, decimal_value (String d ds), adv type (len ds + 2))
    else Ret (1, code d - 48, adv type 1).
Proof.
  intros Hrest Hd Hds Hc Hle.
  assert (Hoff : 0 <= off type) by (eapply rest_nonneg; exact Hrest).
  assert (Hrest1 : rest (adv type 1) = ds ++ String c t).
  { change 1 with (Z.of_nat 1). rewrite (rest_adv _ _ Hoff), Hrest. reflexivity. }
  pose proof (isdigit_range _ Hd) as Hr.
  unfold get_count. rewrite (rest_peek _ _ _ Hrest). cbn [rbind]. rewrite Hd.
  cbn [negb]. unfold at_digit.
  destruct ds as [|e ds'].
  - cbn [append] in Hrest1. rewrite (rest_peek _ _ _ Hrest1). cbn [rbind].
    rewrite Hc. reflexivity.
  - cbn [append] in Hrest1. rewrite (rest_peek _ _ _ Hrest1). cbn [rbind].
    assert (He : isdigit e = true).
    { cbn in Hds. now apply andb_true_iff in Hds as [He _]. }
    rewrite He, Hrest1.
    change (String e (ds' ++ String c t)) with (String e ds' ++ String c t).
    rewrite (get_count_loop_digits (String e ds') c t (code d - 48) 0 Hds Hc
               ltac:(lia)).
    2:{ unfold decimal_value in Hle. cbn [decimal_value_from] in Hle.
        cbn [decimal_value_from]. rewrite Z.mul_0_l, Z.add_0_l in Hle. exact Hle. }
    cbn [rbind]. rewrite Z.add_0_l.
    assert (Hrest2 : rest (adv (adv type 1) (len (String e ds'))) = String c t).
    { apply rest_adv_app with (a := String e ds'); [discriminate | exact Hrest1]. }
    unfold at_is. rewrite (rest_peek _ _ _ Hrest2). cbn [rbind].
    cbn [String.eqb negb andb].
    destruct (c == "_"%char); [|reflexivity].
    unfold decimal_value. cbn [decimal_value_from]. rewrite Z.mul_0_l, Z.add_0_l.
    unfold adv. cbn [blk off]. do 3 f_equal. lia.
Qed.

Lemma get_count_forms_witness :
  get_count (cursor_of "12_x") 0 = Ret (1, 12, adv (cursor_of "12_x") 3)
  /\ get_count (cursor_of "12x") 0 = Ret (1, 1, adv (cursor_of "12x") 1).
Proof.
  split.
  - refine (get_count_forms (cursor_of "12_x") "1" "2" "_"
              (String "x" (String NUL EmptyString)) 0 _ _ _ _ _);
      [reflexivity | reflexivity | reflexivity | reflexivity | vm_compute; discriminate].
  - refine (get_count_forms (cursor_of "12x") "1" "2" "x" (String NUL EmptyString) 0
              _ _ _ _ _);
      [reflexivity | reflexivity | reflexivity | reflexivity | vm_compute; discriminate].
Defined.

Lemma append_empty_r (a : string) : a ++ "" = a.
Proof. induction a as [|x a IH]; cbn; [reflexivity | now rewrite IH]. Qed.

Lemma append_assoc_s (a b c : string) : (a ++ b) ++ c = a ++ b ++ c.
Proof. induction a as [|x a IH]; cbn; [reflexivity | now rewrite IH]. Qed.

(** The run of digits at the head of a string. *)
Lemma span_digits (ds : string) :
  forall (c : ascii) (t : string),
    all_digits ds = true ->
    isdigit c = false ->
    span isdigit (ds ++ String c t) = Ret (ds, len ds).
Proof.
  induction ds as [|d ds IH]; intros c t Hds Hc.
  - cbn [append span]. rewrite Hc. reflexivity.
  - cbn in Hds. apply andb_true_iff in Hds as [Hd Hds].
    cbn [append span]. rewrite Hd, (IH c t Hds Hc). cbn [rbind].
    unfold len. cbn [String.length]. rewrite Nat2Z.inj_succ.
    do 2 f_equal; lia.
Qed.

(** X5.  [snarf_numeric_literal] takes an optional sign and the digits
    behind it: the digits are appended to the text, with '-' before them
    for a minus sign and nothing for a plus sign, and the cursor is left
    behind the last digit.  Without a digit it returns 0; a sign is then
    consumed all the same, and a minus sign stays in the text. *)
Theorem snarf_numeric_literal_sign_and_digits
  (args : cursor) (sign : string) (ds : string) (c : ascii) (t : string)
  (arg : string) :
  rest args = sign ++ ds ++ String c t ->
  sign = "" \/ sign = "-" \/ sign = "+" ->
  all_digits ds = true ->
  isdigit c = false ->
  (sign = "" -> ds = "" -> c <> "-"%char /\ c <> "+"%char) ->
  snarf_numeric_literal args arg
  = Ret (if (ds =? "")%string then 0 else 1,
         adv args (len sign + len ds),
         arg ++ (if (sign =? "-")%string then "-" else "") ++ ds).
Proof.
  intros Hrest Hsign Hds Hc Hplain.
  assert (Hstep : forall (a : cursor) (arg0 : string),
             rest a = ds ++ String c t ->
             (d <~ at_digit a 0 ;;
              if negb d then Ret (0, a, arg0)
              else '(a', arg') <~ append_digits a arg0 ;; Ret (1, a', arg'))
             = Ret (if (ds =? "")%string then 0 else 1, adv a (len ds), arg0 ++ ds)).
  { intros a arg0 Ha. unfold at_digit.
    destruct ds as [|d ds'].
    - cbn [append] in Ha. rewrite (rest_peek _ _ _ Ha). cbn [rbind]. rewrite Hc.
      cbn [negb String.eqb]. unfold len. cbn [String.length Z.of_nat].
      unfold adv. rewrite Z.add_0_r.
      rewrite append_empty_r.
      now destruct a.
    - pose proof Ha as Ha'. cbn [append] in Ha'.
      rewrite (rest_peek _ _ _ Ha'). cbn [rbind].
      assert (Hd : isdigit d = true).
      { cbn in Hds. now apply andb_true_iff in Hds as [Hd _]. }
      rewrite Hd. cbn [negb]. unfold append_digits.
      rewrite Ha, (span_digits _ c t Hds Hc). reflexivity. }
  assert (Hoff : 0 <= off args).
  { destruct sign as [|x sign]; [destruct ds as [|x ds]|]; cbn in Hrest;
      eapply rest_nonneg; exact Hrest. }
  unfold snarf_numeric_literal.
  destruct Hsign as [-> | [-> | ->]].
  - cbn [append] in Hrest.
    assert (Hfirst : exists x, peek args 0 = Ret x /\ x <> "-"%char /\ x <> "+"%char).
    { destruct ds as [|d ds'].
      - cbn [append] in Hrest. exists c. split; [eapply rest_peek; exact Hrest|].
        now apply Hplain.
      - cbn [append] in Hrest. exists d. split; [eapply rest_peek; exact Hrest|].
        assert (Hd : isdigit d = true).
        { cbn in Hds. now apply andb_true_iff in Hds as [Hd _]. }
        split; intros ->; discriminate. }
    destruct Hfirst as (x & Hx & Hm & Hp).
    rewrite Hx. cbn [rbind].
    apply Ascii.eqb_neq in Hm, Hp. rewrite Hm, Hp.
    rewrite (Hstep args arg Hrest).
    cbn [String.eqb append len String.length Z.of_nat]. rewrite Z.add_0_l. reflexivity.
  - cbn [append] in Hrest. rewrite (rest_peek _ _ _ Hrest). cbn [rbind Ascii.eqb Bool.eqb].
    assert (Hrest1 : rest (adv args 1) = ds ++ String c t).
    { change 1 with (Z.of_nat 1). rewrite (rest_adv _ _ Hoff), Hrest. reflexivity. }
    rewrite (Hstep (adv args 1) (string_append arg "-") Hrest1).
    unfold string_append, adv. cbn [blk off String.eqb Ascii.eqb Bool.eqb].
    change (len "-") with 1.
    rewrite append_assoc_s.
    replace (off args + (1 + len ds)) with (off args + 1 + len ds) by lia.
    reflexivity.
  - cbn [append] in Hrest. rewrite (rest_peek _ _ _ Hrest). cbn [rbind Ascii.eqb Bool.eqb].
    assert (Hrest1 : rest (adv args 1) = ds ++ String c t).
    { change 1 with (Z.of_nat 1). rewrite (rest_adv _ _ Hoff), Hrest. reflexivity. }
    rewrite (Hstep (adv args 1) arg Hrest1).
    unfold adv. cbn [blk off String.eqb Ascii.eqb Bool.eqb append].
    change (len "+") with 1.
    replace (off args + (1 + len ds)) with (off args + 1 + len ds) by lia.
    reflexivity.
Qed.

Lemma snarf_numeric_literal_sign_and_digits_witness :
  snarf_numeric_literal (cursor_of "-42_") "x="
  = Ret (1, adv (cursor_of "-42_") 3, "x=-42")
  /\ snarf_numeric_literal (cursor_of "+_") "x="
     = Ret (0, adv (cursor_of "+_") 1, "x=").
Proof.
  split.
  - refine (snarf_numeric_literal_sign_and_digits (cursor_of "-42_") "-" "42" "_"
              (String NUL EmptyString) "x=" _ _ _ _ _);
      [reflexivity | right; left; reflexivity | reflexivity | reflexivity
       | discriminate].
  - refine (snarf_numeric_literal_sign_and_digits (cursor_of "+_") "+" "" "_"
              (String NUL EmptyString) "x=" _ _ _ _ _);
      [reflexivity | right; right; reflexivity | reflexivity | reflexivity
       | discriminate].
Defined.

(** ** Searching *)

(** A C string: no byte of it is the terminator. *)
Fixpoint nul_free (s : string) : bool :=
  match s with
  | EmptyString => true
  | String c s' => negb (c == NUL) && nul_free s'
  end.

Lemma has_prefix_aux_prefix (lit : string) :
  forall (x tail : string),
    nul_free lit = true ->
    has_prefix_aux (x ++ String NUL tail) lit = Ret (String.prefix lit x).
Proof.
  induction lit as [|l lit IH]; intros x tail Hlit.
  - now destruct x.
  - cbn in Hlit. apply andb_true_iff in Hlit as [Hl Hlit].
    apply negb_true_iff in Hl.
    destruct x as [|c x]; cbn [append has_prefix_aux String.prefix].
    + rewrite Ascii.eqb_sym, Hl. reflexivity.
    + destruct (Ascii.ascii_dec l c) as [->|Hne].
      * rewrite Ascii.eqb_refl. apply IH. exact Hlit.
      * assert (E : (c == l) = false) by (apply Ascii.eqb_neq; congruence).
        rewrite E. reflexivity.
Qed.

Lemma mystrstr_aux_index (x : string) :
  forall (tail s2 : string) (k : Z),
    nul_free x = true ->
    nul_free s2 = true ->
    s2 <> EmptyString ->
    mystrstr_aux (x ++ String NUL tail) s2 k
    = Ret (option_map (fun n => k + Z.of_nat n) (String.index 0 s2 x)).
Proof.
  induction x as [|c x IH]; intros tail s2 k Hx Hs2 Hne.
  - cbn [append mystrstr_aux]. rewrite Ascii.eqb_refl.
    destruct s2; [contradiction | reflexivity].
  - cbn in Hx. apply andb_true_iff in Hx as [Hc Hx]. apply negb_true_iff in Hc.
    cbn [append mystrstr_aux]. rewrite Hc.
    change (String c (x ++ String NUL tail)) with (String c x ++ String NUL tail).
    rewrite (has_prefix_aux_prefix s2 (String c x) tail Hs2). cbn [rbind].
    cbn [String.index].
    destruct (String.prefix s2 (String c x)).
    + cbn [option_map Z.of_nat]. now rewrite Z.add_0_r.
    + rewrite (IH tail s2 (k + 1) Hx Hs2 Hne).
      destruct (String.index 0 s2 x) as [n|]; cbn [option_map]; [|reflexivity].
      rewrite Nat2Z.inj_succ. do 2 f_equal; lia.
Qed.

(** X6.  [mystrstr] finds the first occurrence: on a C string [x] and a
    pattern that is not empty it returns the position that String.index
    gives, and NULL when that gives none. *)
Theorem mystrstr_first_occurrence
  (s1 : cursor) (x tail s2 : string) :
  rest s1 = x ++ String NUL tail ->
  nul_free x = true ->
  nul_free s2 = true ->
  s2 <> EmptyString ->
  mystrstr s1 s2
  = Ret (option_map (fun n => adv s1 (Z.of_nat n)) (String.index 0 s2 x)).
Proof.
  intros Hrest Hx Hs2 Hne.
  unfold mystrstr. rewrite Hrest, (mystrstr_aux_index x tail s2 0 Hx Hs2 Hne).
  cbn [rbind]. destruct (String.index 0 s2 x); reflexivity.
Qed.

Lemma mystrstr_first_occurrence_witness :
  mystrstr (cursor_of "a_b__c__d") "__" = Ret (Some (adv (cursor_of "a_b__c__d") 3)).
Proof.
  exact (mystrstr_first_occurrence (cursor_of "a_b__c__d") "a_b__c__d" EmptyString "__"
           eq_refl eq_refl eq_refl ltac:(discriminate)).
Defined.

(** ** The context around a parse *)

(** X7.  [internal_cplus_demangle] gives the caller back the constructor,
    destructor, static-member and qualifier flags it had, whatever the parse
    of the name did to them; and when the name is not empty it returns with
    the type table empty and without template arguments or a cached
    argument, whether the parse succeeded or not. *)
Theorem internal_cplus_demangle_restores_and_clears
  (self : Rec) (mangled : option cursor) (w w' : work_stuff) (r : option string) :
  Prod.internal_cplus_demangle self mangled w = Ret (r, w') ->
  (constructor w' = constructor w
   /\ destructor w' = destructor w
   /\ static_type w' = static_type w
   /\ type_quals w' = type_quals w)
  /\ (forall (m : cursor) (c : ascii),
         mangled = Some m -> peek m 0 = Ret c -> c <> NUL ->
         typevec w' = [] /\ tmpl_argvec w' = None /\ previous_argument w' = None).
Proof.
  unfold Prod.internal_cplus_demangle. mbind.
  destruct mangled as [m|].
  - destruct (peek m 0) as [c| |] eqn:Hpeek; try discriminate.
    destruct (c == NUL) eqn:Hc.
    + intros [= _ <-]. split; [repeat split|].
      intros m' c' [= <-] Hp' Hne. rewrite Hpeek in Hp'. injection Hp' as <-.
      apply Ascii.eqb_eq in Hc. contradiction.
    + destruct (Prod.demangle_body self m _) as [[[success decl] w1]| |];
        try discriminate.
      unfold mop_up, forget_types. mbind.
      destruct (negb (nz success)); intros [= _ <-];
        (split; [repeat split | intros; repeat split]).
  - intros [= _ <-]. split; [repeat split|]. intros m c [=].
Qed.

Lemma internal_cplus_demangle_restores_and_clears_witness :
  let w := set_typevec ["i"] (set_constructor 1 (work_init gnu_demangling)) in
  exists w' : work_stuff,
    Prod.internal_cplus_demangle (run 20) (Some (cursor_of "foo__1Ai")) w
    = Ret (Some "A::foo", w')
    /\ constructor w' = 1 /\ typevec w' = [].
Proof.
  cbv zeta. eexists. split; [vm_compute; reflexivity|].
  split.
  - refine (proj1 (proj1 (internal_cplus_demangle_restores_and_clears (run 20)
                     (Some (cursor_of "foo__1Ai"))
                     (set_typevec ["i"] (set_constructor 1 (work_init gnu_demangling)))
                     _ _ _))).
    vm_compute. reflexivity.
  - refine (proj1 (proj2 (internal_cplus_demangle_restores_and_clears (run 20)
                     (Some (cursor_of "foo__1Ai"))
                     (set_typevec ["i"] (set_constructor 1 (work_init gnu_demangling)))
                     _ _ _) (cursor_of "foo__1Ai") "f"%char eq_refl eq_refl _)).
    + vm_compute. reflexivity.
    + discriminate.
Defined.

(** ** Names that are not mangled *)

Lemma strlen_aux_nul_free (x : string) :
  forall tail, nul_free x = true -> strlen_aux (x ++ String NUL tail) = Ret (len x).
Proof.
  induction x as [|c x IH]; intros tail Hx.
  - cbn. reflexivity.
  - cbn in Hx. apply andb_true_iff in Hx as [Hc Hx]. apply negb_true_iff in Hc.
    cbn [append strlen_aux]. rewrite Hc, (IH tail Hx). cbn [rbind].
    unfold len. cbn [String.length]. rewrite Nat2Z.inj_succ. f_equal; lia.
Qed.

Lemma prefix_scan_none (x : string) :
  forall (tail : string) (k : Z),
    nul_free x = true ->
    String.index 0 "__" x = None ->
    Prod.prefix_scan (x ++ String NUL tail) k = Ret None.
Proof.
  induction x as [|c x IH]; intros tail k Hx Hidx.
  - reflexivity.
  - cbn in Hx. apply andb_true_iff in Hx as [Hc Hx]. apply negb_true_iff in Hc.
    cbn [String.index] in Hidx.
    destruct (String.prefix "__" (String c x)) eqn:Hpre; [discriminate|].
    assert (Hrec : String.index 0 "__" x = None)
      by (destruct (String.index 0 "__" x); [discriminate | reflexivity]).
    cbn [append Prod.prefix_scan].
    destruct (c == "_"%char) eqn:Hu.
    + apply Ascii.eqb_eq in Hu. subst c.
      destruct x as [|d x'].
      * reflexivity.
      * cbn [append].
        assert (Hd : (d == "_"%char) = false).
        { apply Ascii.eqb_neq. intros ->. cbn in Hpre. destruct x'; discriminate. }
        rewrite Hd. apply (IH tail (k + 1) Hx Hrec).
    + rewrite Hc. apply (IH tail (k + 1) Hx Hrec).
Qed.

Lemma has_prefix_aux_first (c l : ascii) (t lit : string) :
  (c == l) = false -> has_prefix_aux (String c t) (String l lit) = Ret false.
Proof. intros H. cbn. now rewrite H. Qed.

(** Without a leading underscore no special form of [gnu_special] applies. *)
Lemma gnu_special_no_underscore
  (self : Rec) (mangled : cursor) (declp : string) (w : work_stuff)
  (c : ascii) (t : string) :
  rest mangled = String c t ->
  c <> "_"%char ->
  Prod.gnu_special self mangled declp w = Ret ((0, mangled, declp), w).
Proof.
  intros Hrest Hc. apply Ascii.eqb_neq in Hc.
  assert (Hat : at_is mangled 0 "_" = Ret false).
  { unfold at_is. rewrite (rest_peek _ _ _ Hrest). cbn [rbind]. now rewrite Hc. }
  assert (Hthunk : has_prefix mangled "__thunk_" = Ret false).
  { unfold has_prefix. rewrite Hrest. now apply has_prefix_aux_first. }
  assert (Ht : has_prefix mangled "__t" = Ret false).
  { unfold has_prefix. rewrite Hrest. now apply has_prefix_aux_first. }
  unfold Prod.gnu_special. mbind. unfold andR, orR. rewrite Hat. cbn [rbind].
  rewrite Hthunk. cbn [rbind]. rewrite Ht. reflexivity.
Qed.

(** Without two consecutive underscores [demangle_prefix] finds no
    boundary between a name and a signature. *)
Lemma demangle_prefix_no_separator
  (self : Rec) (mangled : cursor) (declp : string) (w : work_stuff)
  (c : ascii) (x tail : string) :
  rest mangled = String c x ++ String NUL tail ->
  c <> "_"%char ->
  nul_free (String c x) = true ->
  String.index 0 "__" (String c x) = None ->
  constructor w = 0 ->
  destructor w = 0 ->
  Prod.demangle_prefix self mangled declp w = Ret ((0, mangled, declp), w).
Proof.
  intros Hrest Hc Hx Hidx Hctor Hdtor. apply Ascii.eqb_neq in Hc.
  assert (Hlen : strlen mangled = Ret (len (String c x))).
  { unfold strlen. rewrite Hrest. now apply strlen_aux_nul_free. }
  assert (Hp : forall lit, has_prefix mangled (String "_" lit) = Ret false).
  { intros lit. unfold has_prefix. rewrite Hrest. now apply has_prefix_aux_first. }
  assert (Hscan : Prod.prefix_scan (rest mangled) 0 = Ret None).
  { rewrite Hrest. now apply prefix_scan_none. }
  unfold Prod.demangle_prefix. mbind. rewrite Hlen. cbn [rbind].
  unfold andR, orR.
  rewrite !Hp.
  destruct (6 <? len (String c x)); cbn [rbind];
    destruct (11 <=? len (String c x)); cbn [rbind];
    destruct (ARM_DEMANGLING w || HP_DEMANGLING w || EDG_DEMANGLING w);
    cbn [rbind]; rewrite Hscan; cbn [rbind];
    unfold nz; rewrite Hctor, Hdtor; reflexivity.
Qed.

(** X8.  A name that does not begin with an underscore and has no two
    consecutive underscores in it is not demangled, under any option set:
    [gnu_special] knows no form for it and [demangle_prefix] finds no
    boundary, so the call returns NULL. *)
Theorem plain_names_are_not_demangled
  (fuel : nat) (o : flags) (c : ascii) (x : string) :
  c <> "_"%char ->
  nul_free (String c x) = true ->
  String.index 0 "__" (String c x) = None ->
  cplus_demangle_v2 (3 + fuel) (Some (String c x)) o = Ret None.
Proof.
  intros Hc Hx Hidx.
  assert (Hrest : rest (cursor_of (String c x)) = String c x ++ String NUL EmptyString).
  { reflexivity. }
  assert (Hbody : forall w, constructor w = 0 -> destructor w = 0 -> dllimported w = 0 ->
            Prod.demangle_body (run (1 + fuel)) (cursor_of (String c x)) w
            = Ret ((0, EmptyString), w)).
  { intros w Hctor Hdtor Himp.
    unfold Prod.demangle_body. mbind.
    change (r_gnu_special (run (1 + fuel))) with (Prod.gnu_special (run fuel)).
    change (r_demangle_prefix (run (1 + fuel))) with (Prod.demangle_prefix (run fuel)).
    destruct (AUTO_DEMANGLING w || GNU_DEMANGLING w); cbv beta iota;
      rewrite ?(gnu_special_no_underscore (run fuel) _ EmptyString w c
                  (x ++ String NUL EmptyString) Hrest Hc);
      cbv beta iota delta [ret]; change (nz 0) with false; cbn [negb];
      rewrite (demangle_prefix_no_separator (run fuel) _ EmptyString w c x
                 EmptyString Hrest Hc Hx Hidx Hctor Hdtor);
      cbv beta iota; change (nz 0) with false; cbv beta iota;
      rewrite Hctor, Hdtor, Himp; reflexivity. }
  change (3 + fuel)%nat with (S (S (1 + fuel))).
  rewrite cplus_demangle_v2_S. unfold Prod.cplus_demangle_v2.
  rewrite run_S. cbn [r_internal_cplus_demangle step option_map].
  destruct (internal_cplus_demangle_failure (run (1 + fuel)) (String c x)
              (initial_work o) (entry_state (initial_work o)) EmptyString)
    as [w2 H2].
  { apply Hbody; reflexivity. }
  unfold bind at 1. rewrite H2. reflexivity.
Qed.

Lemma plain_names_are_not_demangled_witness :
  cplus_demangle_v2 (3 + 0) (Some "not_mangled") (opts true true false arm_demangling)
  = Ret None.
Proof.
  apply (plain_names_are_not_demangled 0 (opts true true false arm_demangling)
           "n" "ot_mangled");
    [discriminate | reflexivity | reflexivity].
Defined.

(** ** Types *)

Lemma get_drop_inv (n : nat) :
  forall (s : string) (c : ascii),
    String.get n s = Some c -> exists t, drop n s = String c t.
Proof.
  induction n as [|n IH]; intros s c H; destruct s; cbn in *; try discriminate.
  - injection H as ->. eauto.
  - eauto.
Qed.

Lemma peek_rest_inv (p : cursor) (c : ascii) :
  peek p 0 = Ret c -> exists t, rest p = String c t.
Proof.
  unfold peek, rest. rewrite Z.add_0_r.
  destruct (off p <? 0); [discriminate|].
  destruct (String.get (Z.to_nat (off p)) (blk p)) eqn:H; [|discriminate].
  intros [= ->]. eapply get_drop_inv. exact H.
Qed.


(** The declarator loop of [do_type] stops at a byte that is none of its
    codes. *)
Lemma do_type_loop_stops
  (self : Rec) (mangled : cursor) (caller : option cursor) (decl : string)
  (tk : Z) (w : work_stuff) (c : ascii) :
  peek mangled 0 = Ret c ->
  one_of c "PpRATFOMGCVu" = false ->
  Prod.do_type_loop (step self) mangled caller decl tk 1 false w
  = Ret ((mangled, caller, decl, tk, 1), w).
Proof.
  intros Hpeek Hc. cbn [one_of] in Hc.
  repeat (apply orb_false_iff in Hc as [? Hc]).
  unfold Prod.do_type_loop at 1. change (nz 1) with true. cbn [negb orb].
  mbind. rewrite Hpeek. cbv beta iota.
  repeat match goal with H : (c == _) = false |- _ => rewrite H; clear H end.
  cbn [orb]. cbn [step r_do_type_loop]. unfold Prod.do_type_loop.
  change (nz 1) with true. cbn [negb orb]. reflexivity.
Qed.

(** X9.  [do_type] accepts an empty type: at an underscore or at the end
    of the input it succeeds, with the kind of an integral type, an empty
    text and the cursor where it was. *)
Theorem do_type_accepts_the_empty_type
  (fuel : nat) (mangled : cursor) (w : work_stuff) (c : ascii) :
  peek mangled 0 = Ret c ->
  c = "_"%char \/ c = NUL ->
  do_type (3 + fuel) mangled w = Ret ((tk_integral, mangled, EmptyString), w).
Proof.
  intros Hpeek Hc.
  assert (Hcode : one_of c "PpRATFOMGCVu" = false)
    by (destruct Hc as [-> | ->]; reflexivity).
  assert (Hqk : (c == "Q"%char) = false /\ (c == "K"%char) = false
                /\ (c == "B"%char) = false /\ (c == "X"%char) = false
                /\ (c == "Y"%char) = false /\ (c == "U"%char) = false
                /\ (c == "S"%char) = false /\ (c == "J"%char) = false)
    by (destruct Hc as [-> | ->]; repeat split; reflexivity).
  destruct Hqk as (HQ & HK & HB & HX & HY & HU & HS & HJ).
  assert (Hend : (c == NUL) || (c == "_"%char) = true)
    by (destruct Hc as [-> | ->]; reflexivity).
  destruct (peek_rest_inv mangled c Hpeek) as [t Hrest].
  unfold do_type. change (3 + fuel)%nat with (S (S (S fuel))).
  cbn [run step r_do_type]. unfold Prod.do_type. mbind.
  change (r_do_type_loop (step (step (run fuel))))
    with (Prod.do_type_loop (step (run fuel))).
  rewrite (do_type_loop_stops (run fuel) mangled None EmptyString tk_none w c Hpeek Hcode).
  cbv beta iota. change (nz 1) with true. cbv beta iota.
  rewrite Hpeek. cbv beta iota. rewrite HQ, HK, HB, HX, HY. cbn [orb].
  cbn [step r_demangle_fund_type]. unfold Prod.demangle_fund_type. mbind.
  rewrite Hrest. cbn [Prod.fund_type_qualifiers].
  cbn [one_of] in Hcode. repeat (apply orb_false_iff in Hcode as [? Hcode]).
  repeat match goal with H : (c == _) = false |- _ => rewrite H; clear H end.
  cbn [orb]. cbv beta iota.
  replace (adv mangled 0) with mangled
    by (unfold adv; rewrite Z.add_0_r; now destruct mangled).
  rewrite Hpeek. cbv beta iota. rewrite Hend. cbv beta iota.
  reflexivity.
Qed.

Lemma do_type_accepts_the_empty_type_witness :
  do_type (3 + 0) (cursor_of "_i") (work_init gnu_demangling)
  = Ret ((tk_integral, cursor_of "_i", EmptyString), work_init gnu_demangling).
Proof.
  apply (do_type_accepts_the_empty_type 0 (cursor_of "_i") (work_init gnu_demangling)
           "_"%char);
    [reflexivity | left; reflexivity].
Defined.

(** [k] pointer codes, and the [k] stars they stand for. *)
Fixpoint pointer_codes (k : nat) : string :=
  match k with
  | O => EmptyString
  | S k' => String "P" (pointer_codes k')
  end.

Fixpoint stars (k : nat) : string :=
  match k with
  | O => EmptyString
  | S k' => String "*" (stars k')
  end.

Lemma stars_snoc (k : nat) (s : string) : stars k ++ String "*" s = String "*" (stars k ++ s).
Proof. induction k as [|k IH]; cbn; [reflexivity | now rewrite IH]. Qed.

Lemma fundamental_codes (c : ascii) (name : string) (tk : Z) :
  Prod.fundamental c = Some (name, tk) ->
  List.In c ["v"; "x"; "l"; "i"; "s"; "b"; "c"; "w"; "r"; "d"; "f"]%char.
Proof.
  unfold Prod.fundamental. cbn [List.In].
  repeat match goal with
         | |- context [if ?c == ?x then _ else _] =>
             let E := fresh "E" in
             destruct (c == x) eqn:E; [apply Ascii.eqb_eq in E; intros _; subst; auto 20|]
         end.
  discriminate.
Qed.

(** The declarator loop over [k] pointer codes. *)
Lemma do_type_loop_pointers (k : nat) :
  forall (fuel : nat) (mangled : cursor) (caller : option cursor) (decl : string)
         (tk : Z) (w : work_stuff) (c : ascii) (t : string),
    rest mangled = pointer_codes k ++ String c t ->
    one_of c "PpRATFOMGCVu" = false ->
    Prod.do_type_loop (run (k + (1 + fuel))) mangled caller decl tk 1 false w
    = Ret ((adv mangled (Z.of_nat k), caller,
            (if DMGL_JAVA (options w) then EmptyString else stars k) ++ decl,
            match k with
            | O => tk
            | S _ => if tk =? tk_none then tk_pointer else tk
            end, 1), w).
Proof.
  induction k as [|k IH]; intros fuel mangled caller decl tk w c t Hrest Hc.
  - cbn [pointer_codes append] in Hrest.
    change (0 + (1 + fuel))%nat with (S fuel). cbn [run].
    rewrite (do_type_loop_stops (run fuel) mangled caller decl tk w c
               (rest_peek _ _ _ Hrest) Hc).
    replace (adv mangled (Z.of_nat 0)) with mangled
      by (unfold adv; cbn [Z.of_nat]; rewrite Z.add_0_r; now destruct mangled).
    now destruct (DMGL_JAVA (options w)).
  - cbn [pointer_codes append] in Hrest.
    assert (Hoff : 0 <= off mangled) by (eapply rest_nonneg; exact Hrest).
    assert (Hrest1 : rest (adv mangled 1) = pointer_codes k ++ String c t).
    { change 1 with (Z.of_nat 1). rewrite (rest_adv _ _ Hoff), Hrest. reflexivity. }
    rewrite (do_type_loop_pointer _ w mangled caller decl tk 1 "P"%char
               ltac:(discriminate) (rest_peek _ _ _ Hrest) ltac:(now left)).
    change (S k + (1 + fuel))%nat with (S (k + (1 + fuel))).
    cbn [run step r_do_type_loop].
    rewrite (IH fuel (adv mangled 1) caller _ _ w c t Hrest1 Hc).
    replace (adv (adv mangled 1) (Z.of_nat k)) with (adv mangled (Z.of_nat (S k)))
      by (unfold adv; cbn [blk off]; f_equal; lia).
    assert (Hdecl : (if DMGL_JAVA (options w) then EmptyString else stars k)
                    ++ (if DMGL_JAVA (options w) then decl else "*" ++ decl)
                    = (if DMGL_JAVA (options w) then EmptyString else stars (S k)) ++ decl).
    { destruct (DMGL_JAVA (options w)); [reflexivity|].
      cbn [append stars]. apply stars_snoc. }
    assert (Htk : match k with
                  | O => if tk =? tk_none then tk_pointer else tk
                  | S _ =>
                      if (if tk =? tk_none then tk_pointer else tk) =? tk_none
                      then tk_pointer
                      else if tk =? tk_none then tk_pointer else tk
                  end = if tk =? tk_none then tk_pointer else tk).
    { destruct k; [reflexivity|].
      destruct (tk =? tk_none) eqn:E; [reflexivity|]. now rewrite E. }
    rewrite Hdecl, Htk. reflexivity.
Qed.

(** [do_type] on [k] pointer codes and the code of a fundamental type. *)
Lemma do_type_pointers_fundamental
  (k fuel : nat) (mangled : cursor) (w : work_stuff) (c : ascii) (t : string)
  (name : string) (tk0 : Z) :
  rest mangled = pointer_codes k ++ String c t ->
  Prod.fundamental c = Some (name, tk0) ->
  do_type (k + (3 + fuel)) mangled w
  = Ret ((match k with O => tk0 | S _ => tk_pointer end,
          adv mangled (Z.of_nat k + 1),
          match k with
          | O => name
          | S _ => if DMGL_JAVA (options w) then name else name ++ " " ++ stars k
          end), w).
Proof.
  intros Hrest Hfund.
  assert (Hoff : 0 <= off mangled).
  { destruct k; cbn in Hrest; eapply rest_nonneg; exact Hrest. }
  assert (Hrestk : rest (adv mangled (Z.of_nat k)) = String c t).
  { rewrite (rest_adv _ _ Hoff), Hrest.
    clear. induction k; cbn; [reflexivity | assumption]. }
  pose proof (rest_peek _ _ _ Hrestk) as Hpeek.
  pose proof (fundamental_codes c name tk0 Hfund) as Hin.
  assert (Hcode : one_of c "PpRATFOMGCVu" = false).
  { cbn [List.In] in Hin.
    repeat (destruct Hin as [<- | Hin]; [reflexivity|]). contradiction. }
  unfold do_type. change (k + (3 + fuel))%nat with (k + (S (S (S fuel))))%nat.
  rewrite <- plus_n_Sm. cbn [run step r_do_type]. unfold Prod.do_type. mbind.
  rewrite <- plus_n_Sm. cbn [run step r_do_type_loop].
  change (S fuel) with (1 + fuel)%nat.
  rewrite (do_type_loop_pointers k fuel mangled None EmptyString tk_none w c t Hrest Hcode).
  cbv beta iota. change (nz 1) with true. cbv beta iota.
  rewrite Hpeek. cbv beta iota.
  cbn [step r_demangle_fund_type]. unfold Prod.demangle_fund_type. mbind.
  rewrite Hrestk.
  replace (adv (adv mangled (Z.of_nat k)) 0) with (adv mangled (Z.of_nat k))
    by (unfold adv; cbn [blk off]; rewrite Z.add_0_r; reflexivity).
  replace (adv (adv mangled (Z.of_nat k)) 1) with (adv mangled (Z.of_nat k + 1))
    by (unfold adv; cbn [blk off]; f_equal; lia).
  rewrite append_empty_r.
  cbn [List.In] in Hin.
  repeat (destruct Hin as [<- | Hin];
          [vm_compute in Hfund; injection Hfund as <- <-;
           cbn [Prod.fund_type_qualifiers Ascii.eqb Bool.eqb orb andb];
           cbv beta iota;
           replace (adv (adv mangled (Z.of_nat k)) 0) with (adv mangled (Z.of_nat k))
             by (unfold adv; cbn [blk off]; rewrite Z.add_0_r; reflexivity);
           rewrite Hpeek; cbv beta iota;
           cbn [Ascii.eqb Bool.eqb orb andb NUL zero Prod.fundamental];
           cbv beta iota;
           replace (adv (adv mangled (Z.of_nat k)) 1) with (adv mangled (Z.of_nat k + 1))
             by (unfold adv; cbn [blk off]; f_equal; lia);
           destruct k; destruct (DMGL_JAVA (options w)); reflexivity|]).
  contradiction.
Qed.

(** X10.  Pointer codes before a fundamental type: [do_type] prints the
    name of the type, and after it a blank and one star for each code; with
    the Java option it prints the name alone.  The kind it returns is that
    of a pointer as soon as there is one code. *)
Theorem do_type_pointer_chain
  (k fuel : nat) (mangled : cursor) (w : work_stuff) (c : ascii) (t : string)
  (name : string) (tk0 : Z) :
  rest mangled = pointer_codes k ++ String c t ->
  Prod.fundamental c = Some (name, tk0) ->
  do_type (k + (3 + fuel)) mangled w
  = Ret ((match k with O => tk0 | S _ => tk_pointer end,
          adv mangled (Z.of_nat k + 1),
          match k with
          | O => name
          | S _ => if DMGL_JAVA (options w) then name else name ++ " " ++ stars k
          end), w).
Proof. apply do_type_pointers_fundamental. Qed.

Lemma do_type_pointer_chain_witness :
  do_type (2 + (3 + 0)) (cursor_of "PPi") (work_init gnu_demangling)
  = Ret ((tk_pointer, adv (cursor_of "PPi") 3, "int **"), work_init gnu_demangling).
Proof.
  apply (do_type_pointer_chain 2 0 (cursor_of "PPi") (work_init gnu_demangling) "i"
           (String NUL EmptyString) "int" tk_integral);
    reflexivity.
Defined.

(** ** Class names *)

(** X11.  [demangle_class_name] refuses the count -1 only.  A count from
    2^31 to 2^32-2 comes back from [consume_count] as a negative int other
    than -1, passes the comparison with the length of the rest of the
    input, and is handed on as the length of the class name: in the GNU
    style [demangle_arm_hp_template] gives it to [string_appendn], whose
    memcpy is then called with a negative length. *)
Theorem class_count_above_int_max_reaches_memcpy
  (self : Rec) (type : cursor) (ds : string) (c : ascii) (t : string)
  (declp : string) (w : work_stuff) (l : Z) :
  rest type = ds ++ String c t ->
  all_digits ds = true ->
  isdigit c = false ->
  INT_MAX < decimal_value ds < UT32_MAX ->
  strlen (adv type (len ds)) = Ret l ->
  HP_DEMANGLING w = false ->
  ARM_DEMANGLING w = false ->
  AUTO_DEMANGLING w = false ->
  EDG_DEMANGLING w = false ->
  Prod.demangle_class_name (step self) type declp w = Fault BadLength.
Proof.
  intros Hrest Hds Hc [Hlo Hhi] Hlen Hhp Harm Hauto Hedg.
  assert (Hne : ds <> EmptyString).
  { intros ->. cbn in Hlo. unfold INT_MAX in Hlo. lia. }
  assert (Hl : 0 <= l).
  { unfold strlen in Hlen. revert Hlen. generalize (rest (adv type (len ds))).
    intros s. revert l. induction s as [|x s IH]; intros l H; cbn in H; [discriminate|].
    destruct (x == NUL); [injection H as <-; lia|].
    destruct (strlen_aux s) as [n| |]; try discriminate.
    cbn in H. injection H as <-. specialize (IH n eq_refl). lia. }
  set (n := decimal_value ds - 4294967296).
  assert (Hn : to_int (decimal_value ds) = n).
  { unfold to_int, INT_MAX in *. destruct (Z.leb_spec (decimal_value ds) 2147483647); [lia|].
    reflexivity. }
  assert (Hneg : n < -1) by (unfold n, UT32_MAX in *; lia).
  unfold Prod.demangle_class_name. mbind.
  rewrite (consume_count_digits type ds c t Hrest Hne Hds Hc ltac:(lia)), Hn.
  cbv beta iota.
  destruct (Z.eqb_spec n (-1)) as [E|_]; [lia|].
  rewrite Hlen. cbv beta iota.
  destruct (Z.leb_spec n l) as [_|E]; [|lia].
  cbn [step r_demangle_arm_hp_template]. unfold Prod.demangle_arm_hp_template. mbind.
  rewrite Hhp. cbv beta iota.
  unfold arm_pt. rewrite Harm, Hhp, Hauto, Hedg. cbn [orb rbind]. cbv beta iota.
  change (nz 0) with false. cbv beta iota.
  unfold andR.
  destruct (Z.ltb_spec 10 n) as [E|_]; [lia|]. cbn [rbind]. cbv beta iota.
  assert (Happ : string_appendn declp (adv type (len ds)) n = Fault BadLength).
  { unfold string_appendn, copy.
    destruct (Z.eqb_spec n 0) as [E|_]; [lia|].
    destruct (Z.ltb_spec n 0) as [_|E]; [reflexivity|lia]. }
  destruct (temp_start w =? -1); cbv beta iota; rewrite Happ; reflexivity.
Qed.

Lemma class_count_above_int_max_reaches_memcpy_witness :
  Prod.demangle_class_name (step no_fuel) (cursor_of "4294967294A") EmptyString
    (work_init gnu_demangling)
  = Fault BadLength.
Proof.
  apply (class_count_above_int_max_reaches_memcpy no_fuel (cursor_of "4294967294A")
           "4294967294" "A" (String NUL EmptyString) EmptyString
           (work_init gnu_demangling) 1);
    try reflexivity.
  vm_compute. split; reflexivity.
Defined.

(** ** Integral template values *)

(** X12.  A plain integral value is an optional 'm' and digits:
    [demangle_integral_value] appends the digits, with '-' before them for
    the 'm', and succeeds when there is at least one digit; an 'm' without
    a digit fails and leaves the '-' in the text. *)
Theorem demangle_integral_value_plain
  (self : Rec) (mangled : cursor) (sign ds : string) (c : ascii) (t : string)
  (s : string) (w : work_stuff) :
  rest mangled = sign ++ ds ++ String c t ->
  sign = "" \/ sign = "m" ->
  all_digits ds = true ->
  isdigit c = false ->
  (sign = "" -> ds = "" -> one_of c "EQKm" = false) ->
  Prod.demangle_integral_value self mangled s w
  = Ret ((if (ds =? "")%string then 0 else 1,
          adv mangled (len sign + len ds),
          s ++ (if (sign =? "m")%string then "-" else "") ++ ds), w).
Proof.
  intros Hrest Hsign Hds Hc Hplain.
  assert (Hdigit : forall d, isdigit d = true -> one_of d "EQKm" = false).
  { intros d Hd. cbn [one_of].
    repeat (apply orb_false_iff; split); try reflexivity;
      apply Ascii.eqb_neq; intros ->; discriminate Hd. }
  assert (Hspan : forall (a : cursor) (s0 : string),
             rest a = ds ++ String c t ->
             ('(u, n) <- lift (span isdigit (rest a)) ;;
              ret (if 0 <? n then 1 else 0, adv a n, s0 ++ u)) w
             = Ret ((if (ds =? "")%string then 0 else 1, adv a (len ds), s0 ++ ds), w)).
  { intros a s0 Ha. mbind. rewrite Ha, (span_digits ds c t Hds Hc). cbv beta iota.
    destruct ds as [|d ds']; [reflexivity|].
    cbn [String.eqb]. unfold len. cbn [String.length]. rewrite Nat2Z.inj_succ.
    destruct (Z.ltb_spec 0 (Z.succ (Z.of_nat (String.length ds')))); [reflexivity|lia]. }
  unfold Prod.demangle_integral_value.
  destruct Hsign as [-> | ->].
  - cbn [append] in Hrest.
    assert (Hfirst : exists x, peek mangled 0 = Ret x /\ one_of x "EQKm" = false).
    { destruct ds as [|d ds']; cbn [append] in Hrest.
      - exists c. split; [eapply rest_peek; exact Hrest | now apply Hplain].
      - exists d. split; [eapply rest_peek; exact Hrest|].
        apply Hdigit. cbn in Hds. now apply andb_true_iff in Hds as [Hd _]. }
    destruct Hfirst as (x & Hx & Hcodes).
    cbn [one_of] in Hcodes. repeat (apply orb_false_iff in Hcodes as [? Hcodes]).
    unfold bind at 1, lift at 1. rewrite Hx. cbv beta iota.
    repeat match goal with H : (x == _) = false |- _ => rewrite H; clear H end.
    cbn [orb]. cbv beta iota.
    rewrite (Hspan mangled s Hrest).
    cbn [String.eqb append len String.length Z.of_nat]. rewrite Z.add_0_l. reflexivity.
  - cbn [append] in Hrest.
    assert (Hoff : 0 <= off mangled) by (eapply rest_nonneg; exact Hrest).
    assert (Hrest1 : rest (adv mangled 1) = ds ++ String c t).
    { change 1 with (Z.of_nat 1). rewrite (rest_adv _ _ Hoff), Hrest. reflexivity. }
    unfold bind at 1, lift at 1. rewrite (rest_peek _ _ _ Hrest). cbv beta iota.
    cbn [Ascii.eqb Bool.eqb orb]. cbv beta iota.
    rewrite (Hspan (adv mangled 1) (string_append s "-") Hrest1).
    unfold string_append, adv. cbn [blk off String.eqb Ascii.eqb Bool.eqb].
    change (len "m") with 1. rewrite append_assoc_s.
    replace (off mangled + (1 + len ds)) with (off mangled + 1 + len ds) by lia.
    reflexivity.
Qed.

Lemma demangle_integral_value_plain_witness :
  Prod.demangle_integral_value no_fuel (cursor_of "m5_") "A<" (work_init gnu_demangling)
  = Ret ((1, adv (cursor_of "m5_") 2, "A<-5"), work_init gnu_demangling).
Proof.
  refine (demangle_integral_value_plain no_fuel (cursor_of "m5_") "m" "5" "_"
            (String NUL EmptyString) "A<" (work_init gnu_demangling) _ _ _ _ _);
    [reflexivity | right; reflexivity | reflexivity | reflexivity | discriminate].
Defined.

(** ** A slot of a table filled in *)

Lemma store_nat_app {A : Type} (v : list A) :
  forall (x y : A) (u : list A),
    store_nat (v ++ x :: u)%list (List.length v) y = Ret (v ++ y :: u)%list.
Proof.
  induction v as [|a v IH]; intros x y u; cbn.
  - reflexivity.
  - now rewrite IH.
Qed.

(** ** Operator names *)

(** X14.  Every entry of the operator table that is marked as an ANSI code
    is recognised in a member function name of the form "__" code "__":
    the name is printed as "operator" followed by the symbol of the entry,
    with and without the ANSI option. *)
Theorem ansi_operator_codes_are_recognised
  (fuel : nat) (ansi : bool) (code_in out : string) :
  List.In (code_in, out, true) optable ->
  cplus_demangle_v2 (12 + fuel) (Some ("__" ++ code_in ++ "__3fooi"))
    (opts true ansi false gnu_demangling)
  = Ret (Some ("foo::operator" ++ out ++ "(int)")).
Proof.
  intros Hin. unfold optable in Hin. cbn [List.In] in Hin.
  repeat (destruct Hin as [Hin | Hin];
          [first [discriminate Hin
                 | injection Hin as <- <-; destruct ansi; vm_compute; reflexivity]|]).
  contradiction.
Qed.

Lemma ansi_operator_codes_are_recognised_witness :
  cplus_demangle_v2 (12 + 0) (Some ("__" ++ "aad" ++ "__3fooi"))
    (opts true true false gnu_demangling)
  = Ret (Some ("foo::operator" ++ "&=" ++ "(int)")).
Proof.
  apply (ansi_operator_codes_are_recognised 0 true "aad" "&=").
  unfold optable. cbn [List.In]. do 49 right. left. reflexivity.
Defined.

(** ** Argument lists *)

(** The codes of [codes] are all codes of fundamental types. *)
Fixpoint fundamental_codes_only (codes : string) : bool :=
  match codes with
  | EmptyString => true
  | String c cs =>
      match Prod.fundamental c with
      | Some _ => fundamental_codes_only cs
      | None => false
      end
  end.

(** The names of the types of [codes]. *)
Fixpoint fundamental_names (codes : string) : list string :=
  match codes with
  | EmptyString => []
  | String c cs =>
      match Prod.fundamental c with
      | Some (name, _) => name :: fundamental_names cs
      | None => fundamental_names cs
      end
  end.

(** The arguments [names] appended to the list in [declp], with ", "
    between two of them. *)
Fixpoint args_text (need_comma : bool) (declp : string) (names : list string) : string :=
  match names with
  | [] => declp
  | n :: ns => args_text true ((if need_comma then declp ++ ", " else declp) ++ n) ns
  end.

(** The context after the arguments [codes]: each one is the cached
    argument in its turn and, unless types are being forgotten, one more
    entry of the type table. *)
Fixpoint args_state (codes : string) (w : work_stuff) : work_stuff :=
  match codes with
  | EmptyString => w
  | String c cs =>
      let name := match Prod.fundamental c with Some (n, _) => n | None => EmptyString end in
      let w1 := set_previous_argument (Some name) w in
      args_state cs
        (if nz (forgetting_types w1) then w1
         else set_typevec (typevec w1 ++ [String c EmptyString]) w1)
  end.

Lemma copy_one (p : cursor) (c : ascii) (t : string) :
  rest p = String c t -> copy p 1 = Ret (String c EmptyString).
Proof.
  intros Hrest. pose proof (rest_nonneg _ _ _ Hrest) as Hoff.
  unfold copy. unfold rest in Hrest.
  destruct (Z.ltb_spec (off p) 0); [lia|].
  change (1 <? 0) with false. cbv beta iota.
  assert (Hlen : off p + 1 <= len (blk p)).
  { unfold len. remember (Z.to_nat (off p)) as n.
    assert (n < String.length (blk p))%nat.
    { clear Heqn. revert Hrest. generalize (blk p). clear.
      induction n as [|n IH]; intros s H; destruct s; cbn in *; try discriminate.
      - lia.
      - specialize (IH _ H). lia. }
    lia. }
  destruct (Z.leb_spec (off p + 1) (len (blk p))); [|lia].
  rewrite Hrest. reflexivity.
Qed.

Lemma args_state_nrepeats (codes : string) :
  forall w, nrepeats (args_state codes w) = nrepeats w.
Proof.
  induction codes as [|c cs IH]; intros w; cbn [args_state]; [reflexivity|].
  rewrite IH. now destruct (nz _).
Qed.

Lemma args_state_options (codes : string) :
  forall w, options (args_state codes w) = options w.
Proof.
  induction codes as [|c cs IH]; intros w; cbn [args_state]; [reflexivity|].
  rewrite IH. now destruct (nz _).
Qed.

(** One plain argument of a fundamental type. *)
Lemma do_arg_fundamental
  (fuel : nat) (mangled : cursor) (w : work_stuff) (c : ascii) (t : string)
  (name : string) (tk0 : Z) :
  rest mangled = String c t ->
  Prod.fundamental c = Some (name, tk0) ->
  nrepeats w <= 0 ->
  Prod.do_arg (run (3 + fuel)) mangled w
  = Ret ((1, adv mangled 1, name), args_state (String c EmptyString) w).
Proof.
  intros Hrest Hfund Hn.
  assert (Hn' : (0 <? nrepeats w) = false) by (apply Z.ltb_ge; lia).
  assert (Hcn : (c == "n"%char) = false).
  { apply Ascii.eqb_neq. intros ->. discriminate Hfund. }
  assert (Htk : nz tk0 = true).
  { pose proof (fundamental_codes c name tk0 Hfund) as Hin. cbn [List.In] in Hin.
    repeat (destruct Hin as [<- | Hin];
            [vm_compute in Hfund; injection Hfund as <- <-; reflexivity|]).
    contradiction. }
  unfold Prod.do_arg. mbind. rewrite Hn'. cbv beta iota.
  rewrite (rest_peek _ _ _ Hrest). cbv beta iota. rewrite Hcn. cbv beta iota.
  change (r_do_type (run (3 + fuel))) with (do_type (0 + (3 + fuel))).
  rewrite (do_type_pointers_fundamental 0 fuel mangled _ c t name tk0 Hrest Hfund).
  cbv beta iota. rewrite Htk. cbn [negb]. cbv beta iota.
  unfold remember_type. mbind.
  replace (off (adv mangled (Z.of_nat 0 + 1)) - off mangled) with 1
    by (unfold adv; cbn [off Z.of_nat]; lia).
  cbn [args_state]. rewrite Hfund.
  cbn [forgetting_types set_previous_argument].
  destruct (nz (forgetting_types w)).
  - reflexivity.
  - rewrite (copy_one _ _ _ Hrest). reflexivity.
Qed.

(** The argument loop over the codes of fundamental types, up to a byte
    that ends the list. *)
Lemma demangle_args_loop_fundamental (codes : string) :
  forall (fuel : nat) (need_comma : bool) (mangled : cursor) (declp : string)
         (w : work_stuff) (e : ascii) (t : string),
    rest mangled = codes ++ String e t ->
    fundamental_codes_only codes = true ->
    one_of e "_e" || (e == NUL) = true ->
    nrepeats w <= 0 ->
    Prod.demangle_args_loop (run (String.length codes + (3 + fuel))) need_comma
      mangled declp w
    = Ret ((true,
            match codes with EmptyString => need_comma | String _ _ => true end,
            adv mangled (len codes),
            if PRINT_ARG_TYPES w
            then args_text need_comma declp (fundamental_names codes)
            else declp),
           args_state codes w).
Proof.
  induction codes as [|c cs IH];
    intros fuel need_comma mangled declp w e t Hrest Hcodes He Hn.
  - cbn [append] in Hrest.
    assert (Hn' : (0 <? nrepeats w) = false) by (apply Z.ltb_ge; lia).
    unfold Prod.demangle_args_loop. mbind.
    rewrite (rest_peek _ _ _ Hrest). cbv beta iota. rewrite Hn'.
    assert (Hexit : negb (negb (e == "_"%char) && negb (e == NUL) && negb (e == "e"%char)
                          || false) = true).
    { cbn [one_of] in He.
      destruct (e == "_"%char), (e == "e"%char), (e == NUL); try reflexivity.
      discriminate He. }
    rewrite Hexit. cbn [args_state fundamental_names args_text len String.length Z.of_nat].
    replace (adv mangled 0) with mangled
      by (unfold adv; rewrite Z.add_0_r; now destruct mangled).
    now destruct (PRINT_ARG_TYPES w).
  - cbn [append] in Hrest. cbn [fundamental_codes_only] in Hcodes.
    destruct (Prod.fundamental c) as [[name tk0]|] eqn:Hfund; [|discriminate].
    assert (Hoff : 0 <= off mangled) by (eapply rest_nonneg; exact Hrest).
    assert (Hrest1 : rest (adv mangled 1) = cs ++ String e t).
    { change 1 with (Z.of_nat 1). rewrite (rest_adv _ _ Hoff), Hrest. reflexivity. }
    assert (Hn' : (0 <? nrepeats w) = false) by (apply Z.ltb_ge; lia).
    assert (Hc : (c == "_"%char) = false /\ (c == NUL) = false /\ (c == "e"%char) = false
                 /\ (c == "N"%char) = false /\ (c == "T"%char) = false).
    { pose proof (fundamental_codes c name tk0 Hfund) as Hin. cbn [List.In] in Hin.
      repeat (destruct Hin as [<- | Hin]; [repeat split; reflexivity|]).
      contradiction. }
    destruct Hc as (H1 & H2 & H3 & H4 & H5).
    cbn [String.length]. change (S (String.length cs) + (3 + fuel))%nat
      with (S (String.length cs + (3 + fuel))).
    cbn [run]. unfold Prod.demangle_args_loop at 1. mbind.
    rewrite (rest_peek _ _ _ Hrest). cbv beta iota.
    rewrite Hn', H1, H2, H3, H4, H5. cbn [negb andb orb]. cbv beta iota.
    cbn [step r_do_arg r_demangle_args_loop].
    replace (String.length cs + (3 + fuel))%nat
      with (3 + (String.length cs + fuel))%nat by lia.
    rewrite (do_arg_fundamental _ mangled w c _ name tk0 Hrest Hfund Hn).
    cbv beta iota. change (nz 1) with true. cbn [negb]. cbv beta iota.
    replace (3 + (String.length cs + fuel))%nat
      with (String.length cs + (3 + fuel))%nat by lia.
    rewrite (IH fuel true (adv mangled 1) _ _ e t Hrest1 Hcodes He).
    2:{ rewrite args_state_nrepeats. exact Hn. }
    assert (Hprint : PRINT_ARG_TYPES (args_state (String c EmptyString) w)
                     = PRINT_ARG_TYPES w).
    { unfold PRINT_ARG_TYPES. now rewrite args_state_options. }
    rewrite Hprint.
    replace (adv (adv mangled 1) (len cs)) with (adv mangled (len (String c cs))).
    2:{ unfold adv, len. cbn [blk off String.length]. rewrite Nat2Z.inj_succ.
        f_equal. lia. }
    cbn [fundamental_names args_state]. rewrite Hfund.
    unfold string_append, string_appends.
    destruct cs; destruct (PRINT_ARG_TYPES w); destruct need_comma; reflexivity.
Qed.

(** X15.  An argument list made of codes of fundamental types:
    [demangle_args] prints the names of the types between parentheses,
    separated by ", "; "void" for no argument at the end of the input; and
    ",..." (or "..." alone) for the ellipsis code 'e', which it consumes.
    Each argument becomes the cached argument in its turn and, unless types
    are being forgotten, an entry of the type table.  Without the option to
    show parameter types the text is left as it was. *)
Theorem demangle_args_of_fundamental_types
  (fuel : nat) (mangled : cursor) (declp codes : string) (w : work_stuff)
  (e : ascii) (t : string) :
  rest mangled = codes ++ String e t ->
  fundamental_codes_only codes = true ->
  one_of e "_e" || (e == NUL) = true ->
  nrepeats w <= 0 ->
  demangle_args (String.length codes + (5 + fuel)) mangled declp w
  = Ret ((1,
          adv mangled (len codes + (if e == "e"%char then 1 else 0)),
          if PRINT_ARG_TYPES w then
            let d0 := declp ++ "(" in
            let d1 := match codes with
                      | EmptyString => if e == NUL then d0 ++ "void" else d0
                      | String _ _ => d0
                      end in
            let d2 := args_text false d1 (fundamental_names codes) in
            let d3 := if e == "e"%char
                      then (match codes with
                            | EmptyString => d2
                            | String _ _ => d2 ++ ","
                            end) ++ "..."
                      else d2 in
            d3 ++ ")"
          else declp),
         args_state codes w).
Proof.
  intros Hrest Hcodes He Hn.
  assert (Hoff : 0 <= off mangled).
  { destruct codes; cbn [append] in Hrest; eapply rest_nonneg; exact Hrest. }
  assert (Hreste : rest (adv mangled (len codes)) = String e t).
  { unfold len. rewrite (rest_adv _ _ Hoff), Hrest. apply drop_app. }
  assert (Hfirst : at_is mangled 0 NUL
                   = Ret (match codes with
                          | EmptyString => e == NUL
                          | String _ _ => false
                          end)).
  { unfold at_is. destruct codes as [|c cs]; cbn [append] in Hrest;
      rewrite (rest_peek _ _ _ Hrest); cbn [rbind]; [reflexivity|].
    cbn [fundamental_codes_only] in Hcodes.
    destruct (Prod.fundamental c) as [[name tk0]|] eqn:Hfund; [|discriminate].
    pose proof (fundamental_codes c name tk0 Hfund) as Hin. cbn [List.In] in Hin.
    repeat (destruct Hin as [<- | Hin]; [reflexivity|]). contradiction. }
  unfold demangle_args.
  replace (String.length codes + (5 + fuel))%nat
    with (S (S (String.length codes + (3 + fuel)))) by lia.
  cbn [run step r_demangle_args]. unfold Prod.demangle_args. mbind.
  cbn [step r_demangle_args_loop].
  assert (Hprint : PRINT_ARG_TYPES (args_state codes w) = PRINT_ARG_TYPES w).
  { unfold PRINT_ARG_TYPES. now rewrite args_state_options. }
  destruct (PRINT_ARG_TYPES w) eqn:Hp; cbv beta iota.
  - rewrite Hfirst. cbv beta iota.
    rewrite (demangle_args_loop_fundamental codes fuel false mangled _ w e t
               Hrest Hcodes He Hn).
    cbv beta iota. cbn [negb]. cbv beta iota.
    unfold at_is. rewrite (rest_peek _ _ _ Hreste). cbn [rbind]. cbv beta iota.
    rewrite Hp. unfold string_append.
    replace (adv (adv mangled (len codes)) 1) with (adv mangled (len codes + 1))
      by (unfold adv; cbn [blk off]; f_equal; lia).
    destruct (e == "e"%char); rewrite ?Z.add_0_r;
      destruct codes; destruct (e == NUL); reflexivity.
  - rewrite (demangle_args_loop_fundamental codes fuel false mangled _ w e t
               Hrest Hcodes He Hn).
    cbv beta iota. cbn [negb]. cbv beta iota.
    unfold at_is. rewrite (rest_peek _ _ _ Hreste). cbn [rbind]. cbv beta iota.
    rewrite Hp.
    replace (adv (adv mangled (len codes)) 1) with (adv mangled (len codes + 1))
      by (unfold adv; cbn [blk off]; f_equal; lia).
    destruct (e == "e"%char); rewrite ?Z.add_0_r; reflexivity.
Qed.

Lemma demangle_args_of_fundamental_types_witness :
  exists w' : work_stuff,
    demangle_args (String.length "ifc" + (5 + 0)) (cursor_of "ifce") "f"
      (work_init (opts true true false gnu_demangling))
    = Ret ((1, adv (cursor_of "ifce") 4, "f(int, float, char,...)"), w')
    /\ typevec w' = ["i"; "f"; "c"]
    /\ previous_argument w' = Some "char".
Proof.
  eexists. split; [|split].
  - refine (demangle_args_of_fundamental_types 0 (cursor_of "ifce") "f" "ifc"
              (work_init (opts true true false gnu_demangling)) "e"
              (String NUL EmptyString) _ _ _ _);
      [reflexivity | reflexivity | reflexivity | cbn; lia].
  - reflexivity.
  - reflexivity.
Defined.

(** ** Global functions with arguments of fundamental types *)

(** A function name that [demangle_prefix] and [demangle_function_name]
    take whole: no terminator and no marker byte in it, and no underscore
    followed by another underscore or by the end of the name. *)
Fixpoint function_name_chars (s : string) : bool :=
  match s with
  | EmptyString => true
  | String c s' =>
      negb (is_marker c)
      && (if c == "_"%char
          then match s' with
               | EmptyString => false
               | String d _ => negb (d == "_"%char)
               end
          else true)
      && function_name_chars s'
  end.

Lemma function_name_chars_nul_free (x : string) :
  function_name_chars x = true -> nul_free x = true.
Proof.
  induction x as [|c x IH]; intros H; [reflexivity|].
  cbn [function_name_chars] in H.
  apply andb_true_iff in H as [H Hx]. apply andb_true_iff in H as [Hm _].
  cbn [nul_free]. rewrite (IH Hx), andb_true_r.
  unfold is_marker in Hm. apply negb_true_iff, orb_false_iff in Hm as [_ Hm].
  now rewrite Hm.
Qed.

Lemma nul_free_app (a b : string) :
  nul_free a = true -> nul_free b = true -> nul_free (a ++ b) = true.
Proof.
  induction a as [|c a IH]; intros Ha Hb; [exact Hb|].
  cbn [nul_free append] in *. apply andb_true_iff in Ha as [Hc Ha].
  now rewrite Hc, (IH Ha Hb).
Qed.

Lemma c_str_nul_free (x : string) : nul_free x = true -> c_str x = x.
Proof.
  induction x as [|c x IH]; intros H; [reflexivity|].
  cbn [nul_free] in H. apply andb_true_iff in H as [Hc Hx].
  apply negb_true_iff in Hc. cbn [c_str]. now rewrite Hc, (IH Hx).
Qed.

(** The scan of [demangle_prefix] stops at the two underscores after such
    a name. *)
Lemma prefix_scan_found (x : string) :
  forall (t : string) (k : Z),
    function_name_chars x = true ->
    Prod.prefix_scan (x ++ String "_" (String "_" t)) k = Ret (Some (k + len x + 1)).
Proof.
  induction x as [|c x IH]; intros t k Hx.
  - cbn. f_equal. f_equal. lia.
  - cbn [function_name_chars] in Hx.
    apply andb_true_iff in Hx as [Hx Hrec]. apply andb_true_iff in Hx as [Hm Hu].
    unfold is_marker in Hm. apply negb_true_iff, orb_false_iff in Hm as [_ Hnul].
    assert (Hlen : k + 1 + len x + 1 = k + len (String c x) + 1).
    { unfold len. cbn [String.length]. rewrite Nat2Z.inj_succ. lia. }
    cbn [append Prod.prefix_scan].
    destruct (c == "_"%char) eqn:Hc.
    + destruct x as [|d x']; [discriminate|].
      apply negb_true_iff in Hu. cbn [append]. rewrite Hu.
      change (String d (x' ++ String "_" (String "_" t)))
        with (String d x' ++ String "_" (String "_" t)).
      rewrite (IH t (k + 1) Hrec). now rewrite Hlen.
    + rewrite Hnul. rewrite (IH t (k + 1) Hrec). now rewrite Hlen.
Qed.

Lemma drop_length (n : nat) :
  forall s : string, String.length (drop n s) = (String.length s - n)%nat.
Proof.
  induction n as [|n IH]; intros s; cbn [drop].
  - lia.
  - destruct s as [|c s]; cbn [String.length]; [reflexivity | apply IH].
Qed.

(** Reading the buffer of a declaration, before its terminator. *)
Lemma peek_block_of (s : string) (k : nat) (off0 : Z) :
  off0 = Z.of_nat k ->
  (k < String.length s)%nat ->
  exists ch, peek {| blk := block_of s; off := 0 |} off0 = Ret ch
             /\ String.get k s = Some ch.
Proof.
  intros -> Hk. unfold peek. cbn [off blk]. rewrite Z.add_0_l.
  destruct (Z.ltb_spec (Z.of_nat k) 0) as [Hlt|_]; [lia|]. rewrite Nat2Z.id.
  unfold block_of. revert k Hk.
  induction s as [|c s IH]; intros k Hk; cbn [String.length] in Hk; [lia|].
  destruct k as [|k]; cbn [append String.get].
  - eauto.
  - apply IH. lia.
Qed.

Lemma function_name_chars_get (s : string) :
  forall (k : nat) (ch : ascii),
    function_name_chars s = true -> String.get k s = Some ch -> is_marker ch = false.
Proof.
  induction s as [|c s IH]; intros k ch Hs Hget; [discriminate|].
  cbn [function_name_chars] in Hs.
  apply andb_true_iff in Hs as [Hs Hrec]. apply andb_true_iff in Hs as [Hm _].
  destruct k as [|k]; cbn [String.get] in Hget.
  - injection Hget as <-. now apply negb_true_iff.
  - exact (IH k ch Hrec Hget).
Qed.

Lemma append_nonempty (a : string) (c : ascii) (t : string) :
  a ++ String c t <> EmptyString.
Proof. destruct a; discriminate. Qed.

Lemma adv_adv (p : cursor) (a b : Z) : adv (adv p a) b = adv p (a + b).
Proof. unfold adv. cbn [blk off]. now rewrite Z.add_assoc. Qed.

Lemma copy_prefix (p : cursor) (a t : string) :
  rest p = a ++ t -> a <> EmptyString -> copy p (len a) = Ret a.
Proof.
  intros Hrest Ha.
  assert (Hpos : 0 < len a).
  { unfold len. destruct a; [contradiction|]. cbn [String.length]. lia. }
  assert (Hoff : 0 <= off p).
  { destruct a as [|c a]; [contradiction|]. eapply rest_nonneg. exact Hrest. }
  unfold copy. destruct (Z.ltb_spec (len a) 0); [lia|].
  destruct (Z.ltb_spec (off p) 0); [lia|].
  unfold rest in Hrest. destruct (Z.ltb_spec (off p) 0); [lia|].
  pose proof (drop_length (Z.to_nat (off p)) (blk p)) as Hd.
  rewrite Hrest in Hd.
  assert (Hd' : len (a ++ t) = len a + len t) by apply len_app.
  unfold len in Hd', Hpos |- *. pose proof (len_nonneg t) as Ht. unfold len in Ht.
  destruct (Z.leb_spec (off p + Z.of_nat (String.length a))
                       (Z.of_nat (String.length (blk p)))); [|lia].
  rewrite Nat2Z.id, Hrest. now rewrite take_app.
Qed.

(** The name of a function that is no operator: with no style of cfront
    selected, [demangle_function_name] copies the name and moves past the
    two underscores. *)
Lemma demangle_function_name_plain
  (self : Rec) (mangled : cursor) (w : work_stuff) (c : ascii) (x t : string) :
  rest mangled = String c x ++ t ->
  c <> "_"%char ->
  function_name_chars (String c x) = true ->
  LUCID_DEMANGLING w = false -> ARM_DEMANGLING w = false ->
  HP_DEMANGLING w = false -> EDG_DEMANGLING w = false ->
  Prod.demangle_function_name self mangled EmptyString
    (adv mangled (len (String c x))) w
  = Ret ((adv mangled (len (String c x) + 2), String c x), w).
Proof.
  intros Hrest Hc Hname Hl Ha Hh He. apply Ascii.eqb_neq in Hc.
  set (name := String c x) in *.
  assert (Hoff : 0 <= off mangled) by (eapply rest_nonneg; exact Hrest).
  assert (Hpos : 0 < len name).
  { unfold len, name. cbn [String.length]. lia. }
  assert (Hcopy : copy mangled (len name) = Ret name).
  { apply (copy_prefix _ _ t); [exact Hrest | discriminate]. }
  set (b := {| blk := block_of name; off := 0 |}).
  assert (Hb0 : peek b 0 = Ret c) by reflexivity.
  assert (Hmark : forall k : nat,
             (k < String.length name)%nat -> at_marker b (Z.of_nat k) = Ret false).
  { intros k Hk. destruct (peek_block_of name k _ eq_refl Hk) as (ch & Hp & Hg).
    unfold at_marker. fold b in Hp. rewrite Hp. cbn [rbind].
    now rewrite (function_name_chars_get name k ch Hname Hg). }
  assert (His : forall (k : nat) (l : ascii),
             (k < String.length name)%nat ->
             exists r, at_is b (Z.of_nat k) l = Ret r).
  { intros k l Hk. destruct (peek_block_of name k _ eq_refl Hk) as (ch & Hp & _).
    unfold at_is. fold b in Hp. rewrite Hp. cbn [rbind]. eauto. }
  assert (Hop : (if 3 <=? len name then Ret true else Ret false)
                &&& at_is b 0 "o" &&& at_is b 1 "p" &&& at_marker b 2 = Ret false).
  { destruct (Z.leb_spec 3 (len name)) as [H3|H3]; [|reflexivity].
    unfold len in H3.
    destruct (His 0%nat "o"%char ltac:(lia)) as [r0 Hr0].
    destruct (His 1%nat "p"%char ltac:(lia)) as [r1 Hr1].
    unfold andR. cbn [rbind]. change 0 with (Z.of_nat 0). rewrite Hr0. cbn [rbind].
    destruct r0; [|reflexivity].
    change 1 with (Z.of_nat 1). rewrite Hr1. cbn [rbind].
    destruct r1; [|reflexivity].
    change 2 with (Z.of_nat 2). rewrite Hmark by lia. reflexivity. }
  assert (Hty : (if (5 <=? len name) && String.eqb (take 4 name) "type"
                 then Ret true else Ret false)
                &&& at_marker b 4 = Ret false).
  { destruct (Z.leb_spec 5 (len name)) as [H5|H5]; [|reflexivity].
    unfold len in H5. cbn [andb].
    destruct (String.eqb (take 4 name) "type"); [|reflexivity].
    unfold andR. cbn [rbind].
    change 4 with (Z.of_nat 4). rewrite Hmark by lia. reflexivity. }
  assert (Hu : at_is b 0 "_" = Ret false).
  { unfold at_is. rewrite Hb0. cbn [rbind]. now rewrite Hc. }
  unfold Prod.demangle_function_name. mbind.
  unfold string_appendn.
  replace (off (adv mangled (len name)) - off mangled) with (len name)
    by (unfold adv; cbn [off]; lia).
  destruct (Z.eqb_spec (len name) 0); [lia|].
  rewrite Hcopy. cbn [rbind append].
  rewrite Hl, Ha, Hh, He. cbn [orb]. cbv beta iota.
  fold b. rewrite Hop. cbv beta iota. rewrite Hty. cbv beta iota.
  unfold andR at 1 2 3 4 5 6. rewrite Hu. cbn [rbind]. cbv beta iota.
  unfold adv. cbn [blk off]. now rewrite Z.add_assoc.
Qed.

Lemma rest_peek_at (p : cursor) (a : string) (c : ascii) (t : string) :
  rest p = a ++ String c t -> peek p (len a) = Ret c.
Proof.
  intros H.
  assert (Hr : rest (adv p (len a)) = String c t)
    by (apply rest_adv_app; [discriminate | exact H]).
  apply rest_peek in Hr. unfold peek, adv in Hr |- *. cbn [blk off] in Hr.
  now rewrite Z.add_0_r in Hr.
Qed.

(** The prefix of a function: with no style of cfront selected, a name
    followed by two underscores and a signature is handed to
    [demangle_function_name] whole. *)
Lemma demangle_prefix_function
  (fuel : nat) (mangled : cursor) (w : work_stuff) (c : ascii) (x : string)
  (d : ascii) (t : string) (l : Z) :
  rest mangled = String c x ++ String "_" (String "_" (String d t)) ->
  strlen mangled = Ret l ->
  (d == "_"%char) = false ->
  (d == NUL) = false ->
  c <> "_"%char ->
  function_name_chars (String c x) = true ->
  LUCID_DEMANGLING w = false -> ARM_DEMANGLING w = false ->
  HP_DEMANGLING w = false -> EDG_DEMANGLING w = false ->
  static_type w = 0 ->
  Prod.demangle_prefix (run (S fuel)) mangled EmptyString w
  = Ret ((1, adv mangled (len (String c x) + 2), String c x), w).
Proof.
  intros Hrest Hlen Hdu Hdn Hc Hname Hl Ha Hh He Hst.
  pose proof Hc as Hc'. apply Ascii.eqb_neq in Hc'.
  set (name := String c x) in *.
  assert (Hpos : 0 < len name).
  { unfold len, name. cbn [String.length]. lia. }
  assert (Hp : forall lit, has_prefix mangled (String "_" lit) = Ret false).
  { intros lit. unfold has_prefix. rewrite Hrest. now apply has_prefix_aux_first. }
  assert (Hscan : Prod.prefix_scan (rest mangled) 0 = Ret (Some (len name + 1))).
  { rewrite Hrest. now rewrite (prefix_scan_found name _ 0 Hname). }
  assert (Hrs : rest (adv mangled (len name)) = String "_" (String "_" (String d t))).
  { apply rest_adv_app; [discriminate | exact Hrest]. }
  assert (Hspn : strspn (adv mangled (len name)) "_" = Ret 2).
  { unfold strspn. rewrite Hrs. cbn [strspn_aux one_of]. rewrite Hdu, Hdn.
    reflexivity. }
  assert (Hs2 : peek (adv mangled (len name)) 2 = Ret d).
  { exact (rest_peek_at _ "__" d t Hrs). }
  assert (Hstart : (off (adv mangled (len name)) =? off mangled) = false).
  { apply Z.eqb_neq. unfold adv. cbn [off]. lia. }
  assert (Hfn := demangle_function_name_plain (run fuel) mangled w c x _
                   Hrest Hc Hname Hl Ha Hh He).
  fold name in Hfn.
  unfold Prod.demangle_prefix. mbind. rewrite Hlen. cbn [rbind].
  unfold andR, orR. rewrite !Hp.
  rewrite Ha, Hh, He. cbn [orb].
  destruct (6 <? l); cbn [rbind];
    destruct (11 <=? l); cbn [rbind];
    rewrite Hscan; cbn [rbind];
    replace (len name + 1 - 1) with (len name) by lia;
    rewrite Hspn; cbn [rbind];
    change (2 <? 2) with false; cbv beta iota;
    rewrite Hs2; cbv beta iota;
    rewrite Hst; change (nz 0) with false; cbv beta iota.
  all: rewrite Hstart, ?Hl, ?Ha, ?Hh, ?He; cbn [andb orb negb]; cbv beta iota;
    rewrite Hdn; cbn [negb]; cbv beta iota;
    cbn [run step r_demangle_function_name]; rewrite Hfn; reflexivity.
Qed.

Lemma args_state_fields (codes : string) :
  forall w,
    constructor (args_state codes w) = constructor w
    /\ destructor (args_state codes w) = destructor w
    /\ static_type (args_state codes w) = static_type w
    /\ type_quals (args_state codes w) = type_quals w
    /\ dllimported (args_state codes w) = dllimported w.
Proof.
  induction codes as [|c cs IH]; intros w; cbn [args_state]; [auto|].
  destruct (IH (if nz (forgetting_types
                         (set_previous_argument
                            (Some match Prod.fundamental c with
                                  | Some (n, _) => n
                                  | None => EmptyString
                                  end) w))
                then set_previous_argument
                       (Some match Prod.fundamental c with
                             | Some (n, _) => n
                             | None => EmptyString
                             end) w
                else set_typevec
                       (typevec (set_previous_argument
                                   (Some match Prod.fundamental c with
                                         | Some (n, _) => n
                                         | None => EmptyString
                                         end) w) ++ [String c EmptyString])
                       (set_previous_argument
                          (Some match Prod.fundamental c with
                                | Some (n, _) => n
                                | None => EmptyString
                                end) w)))
    as (H1 & H2 & H3 & H4 & H5).
  rewrite H1, H2, H3, H4, H5. now destruct (nz _).
Qed.

(** The text [demangle_args] leaves for the arguments [codes], with the
    ellipsis or without: "void" for no argument at all. *)
Definition arguments_text (declp codes : string) (ellipsis : bool) : string :=
  match codes with
  | EmptyString => declp ++ "(" ++ (if ellipsis then "..." else "void") ++ ")"
  | String _ _ =>
      args_text false (declp ++ "(") (fundamental_names codes)
      ++ (if ellipsis then ",..." else "") ++ ")"
  end.

(** The argument list of a function, up to the end of the input. *)
Lemma demangle_args_function
  (fuel : nat) (mangled : cursor) (declp codes : string) (w : work_stuff)
  (ellipsis : bool) (t : string) :
  rest mangled
  = codes ++ (if ellipsis then String "e" (String NUL t) else String NUL t) ->
  fundamental_codes_only codes = true ->
  nrepeats w <= 0 ->
  Prod.demangle_args (step (run (String.length codes + (3 + fuel)))) mangled declp w
  = Ret ((1,
          adv mangled (len codes + (if ellipsis then 1 else 0)),
          if PRINT_ARG_TYPES w then arguments_text declp codes ellipsis else declp),
         args_state codes w).
Proof.
  intros Hrest Hcodes Hn.
  set (e := if ellipsis then "e"%char else NUL).
  set (t' := if ellipsis then String NUL t else t).
  assert (Hrest' : rest mangled = codes ++ String e t').
  { rewrite Hrest. unfold e, t'. now destruct ellipsis. }
  assert (Hee : one_of e "_e" || (e == NUL) = true).
  { unfold e. now destruct ellipsis. }
  assert (Hreste : rest (adv mangled (len codes)) = String e t').
  { apply rest_adv_app; [discriminate | exact Hrest']. }
  assert (Hfirst : at_is mangled 0 NUL
                   = Ret (match codes with
                          | EmptyString => negb ellipsis
                          | String _ _ => false
                          end)).
  { unfold at_is. destruct codes as [|c cs]; cbn [append] in Hrest';
      rewrite (rest_peek _ _ _ Hrest'); cbn [rbind].
    - unfold e. now destruct ellipsis.
    - cbn [fundamental_codes_only] in Hcodes.
      destruct (Prod.fundamental c) as [[name tk0]|] eqn:Hfund; [|discriminate].
      pose proof (fundamental_codes c name tk0 Hfund) as Hin. cbn [List.In] in Hin.
      repeat (destruct Hin as [<- | Hin]; [reflexivity|]). contradiction. }
  assert (Hprint : PRINT_ARG_TYPES (args_state codes w) = PRINT_ARG_TYPES w).
  { unfold PRINT_ARG_TYPES. now rewrite args_state_options. }
  assert (Hate : at_is (adv mangled (len codes)) 0 "e" = Ret ellipsis).
  { unfold at_is. rewrite (rest_peek _ _ _ Hreste). cbn [rbind].
    unfold e. now destruct ellipsis. }
  unfold Prod.demangle_args. mbind. cbn [step r_demangle_args_loop].
  destruct (PRINT_ARG_TYPES w) eqn:Hp; cbv beta iota.
  - rewrite Hfirst. cbv beta iota.
    rewrite (demangle_args_loop_fundamental codes fuel false mangled _ w e t'
               Hrest' Hcodes Hee Hn).
    cbv beta iota. cbn [negb]. cbv beta iota. rewrite Hate. cbv beta iota.
    rewrite Hp. unfold string_append, arguments_text.
    replace (adv (adv mangled (len codes)) 1) with (adv mangled (len codes + 1))
      by (unfold adv; cbn [blk off]; f_equal; lia).
    destruct ellipsis; rewrite ?Z.add_0_r; destruct codes; cbn [negb];
      cbv beta iota; cbn [fundamental_names args_text];
      rewrite ?append_assoc_s, ?append_empty_r; reflexivity.
  - rewrite (demangle_args_loop_fundamental codes fuel false mangled _ w e t'
               Hrest' Hcodes Hee Hn).
    cbv beta iota. cbn [negb]. cbv beta iota. rewrite Hate. cbv beta iota.
    rewrite Hp.
    replace (adv (adv mangled (len codes)) 1) with (adv mangled (len codes + 1))
      by (unfold adv; cbn [blk off]; f_equal; lia).
    destruct ellipsis; rewrite ?Z.add_0_r; reflexivity.
Qed.

(** The signature of a function with arguments of fundamental types, up to
    the end of the input. *)
Lemma demangle_signature_function
  (fuel : nat) (mangled : cursor) (declp codes : string) (w : work_stuff)
  (ellipsis : bool) (t : string) :
  rest mangled
  = String "F" (codes ++ (if ellipsis then String "e" (String NUL t) else String NUL t)) ->
  fundamental_codes_only codes = true ->
  AUTO_DEMANGLING w = false -> GNU_DEMANGLING w = true ->
  LUCID_DEMANGLING w = false -> ARM_DEMANGLING w = false ->
  HP_DEMANGLING w = false -> EDG_DEMANGLING w = false ->
  static_type w = 0 -> type_quals w = 0 -> nrepeats w <= 0 ->
  Prod.demangle_signature (run (S (S (S (String.length codes + (3 + fuel))))))
    mangled declp w
  = Ret ((1,
          adv mangled (1 + len codes + (if ellipsis then 1 else 0)),
          if PRINT_ARG_TYPES w then arguments_text declp codes ellipsis else declp),
         args_state codes w).
Proof.
  intros Hrest Hcodes Hau Hg Hl Ha Hh He Hst Htq Hn.
  assert (Hoff : 0 <= off mangled) by (eapply rest_nonneg; exact Hrest).
  assert (Hrest1 : rest (adv mangled 1)
                   = codes ++ (if ellipsis then String "e" (String NUL t)
                               else String NUL t)).
  { change 1 with (Z.of_nat 1). rewrite (rest_adv _ _ Hoff), Hrest. reflexivity. }
  pose proof (demangle_args_function fuel (adv mangled 1) declp codes w ellipsis t
                Hrest1 Hcodes Hn) as Hargs.
  assert (Hend : peek (adv (adv mangled 1) (len codes + (if ellipsis then 1 else 0))) 0
                 = Ret NUL).
  { destruct ellipsis.
    - apply (rest_peek _ _ t).
      replace (len codes + 1) with (len (codes ++ "e"))
        by (rewrite len_app; reflexivity).
      apply rest_adv_app; [discriminate|].
      rewrite Hrest1, append_assoc_s. reflexivity.
    - apply (rest_peek _ _ t). rewrite Z.add_0_r.
      apply rest_adv_app; [discriminate | exact Hrest1]. }
  destruct (args_state_fields codes w) as (_ & _ & Hst' & Htq' & _).
  assert (Hprint : PRINT_ARG_TYPES (args_state codes w) = PRINT_ARG_TYPES w).
  { unfold PRINT_ARG_TYPES. now rewrite args_state_options. }
  unfold Prod.demangle_signature. mbind.
  cbn [run step r_demangle_signature_loop].
  unfold Prod.demangle_signature_loop at 1. mbind.
  change (nz 1) with true. cbn [negb]. cbv beta iota.
  rewrite (rest_peek _ _ _ Hrest). cbv beta iota.
  change (isdigit "F") with false.
  cbv beta iota delta [Ascii.eqb Bool.eqb orb andb negb NUL zero].
  rewrite Hl, Ha, Hh, He. cbv beta iota.
  cbn [step r_demangle_args].
  rewrite Hargs. cbv beta iota. change (nz 1) with true. cbv beta iota.
  rewrite Hau. cbv beta iota.
  cbn [step r_demangle_signature_loop].
  unfold Prod.demangle_signature_loop. mbind.
  change (nz 1) with true. cbn [negb]. cbv beta iota.
  rewrite Hend. cbv beta iota. change (NUL == NUL) with true. cbv beta iota.
  change (nz 1) with true. cbn [negb]. cbv beta iota.
  change (nz 1) with true. cbv beta iota.
  rewrite Hprint, Hst', Htq', Hst, Htq. change (nz 0) with false. cbv beta iota.
  replace (adv (adv mangled 1) (len codes + (if ellipsis then 1 else 0)))
    with (adv mangled (1 + len codes + (if ellipsis then 1 else 0)))
    by (unfold adv; cbn [blk off]; f_equal; lia).
  now destruct (PRINT_ARG_TYPES w).
Qed.

Lemma fundamental_name_nul_free (c : ascii) (name : string) (tk : Z) :
  Prod.fundamental c = Some (name, tk) -> nul_free name = true /\ (c == NUL) = false.
Proof.
  intros Hfund.
  pose proof (fundamental_codes c name tk Hfund) as Hin. cbn [List.In] in Hin.
  repeat (destruct Hin as [<- | Hin];
          [vm_compute in Hfund; injection Hfund as <- <-; split; reflexivity|]).
  contradiction.
Qed.

Lemma fundamental_codes_nul_free (codes : string) :
  fundamental_codes_only codes = true -> nul_free codes = true.
Proof.
  induction codes as [|c cs IH]; intros H; [reflexivity|].
  cbn [fundamental_codes_only] in H.
  destruct (Prod.fundamental c) as [[name tk]|] eqn:Hfund; [|discriminate].
  destruct (fundamental_name_nul_free c name tk Hfund) as [_ Hc].
  cbn [nul_free]. now rewrite Hc, (IH H).
Qed.

Lemma args_text_nul_free (codes : string) :
  forall (need_comma : bool) (declp : string),
    nul_free declp = true ->
    nul_free (args_text need_comma declp (fundamental_names codes)) = true.
Proof.
  induction codes as [|c cs IH]; intros need_comma declp Hd; [exact Hd|].
  cbn [fundamental_names].
  destruct (Prod.fundamental c) as [[name tk]|] eqn:Hfund.
  - destruct (fundamental_name_nul_free c name tk Hfund) as [Hname _].
    cbn [args_text]. apply IH. apply nul_free_app; [|exact Hname].
    destruct need_comma; [apply nul_free_app|]; auto.
  - now apply IH.
Qed.

Lemma arguments_text_nul_free (declp codes : string) (ellipsis : bool) :
  nul_free declp = true -> nul_free (arguments_text declp codes ellipsis) = true.
Proof.
  intros Hd. unfold arguments_text. destruct codes as [|c cs].
  - apply nul_free_app; [exact Hd | now destruct ellipsis].
  - apply nul_free_app; [|now destruct ellipsis].
    apply args_text_nul_free. now apply nul_free_app.
Qed.

(** A function name, two underscores and a signature: the parse proper
    succeeds with the text the signature leaves. *)
Lemma demangle_body_function
  (m : nat) (s : string) (w w' : work_stuff) (c : ascii) (x : string)
  (d : ascii) (t text : string) (mangled' : cursor) :
  rest (cursor_of s) = String c x ++ String "_" (String "_" (String d t)) ->
  nul_free s = true ->
  (d == "_"%char) = false ->
  (d == NUL) = false ->
  c <> "_"%char ->
  function_name_chars (String c x) = true ->
  LUCID_DEMANGLING w = false -> ARM_DEMANGLING w = false ->
  HP_DEMANGLING w = false -> EDG_DEMANGLING w = false ->
  static_type w = 0 ->
  Prod.demangle_signature (run (S m)) (adv (cursor_of s) (len (String c x) + 2))
    (String c x) w
  = Ret ((1, mangled', text), w') ->
  constructor w' = 0 -> destructor w' = 0 -> dllimported w' = 0 ->
  Prod.demangle_body (run (S (S m))) (cursor_of s) w = Ret ((1, text), w').
Proof.
  intros Hrest Hnf Hdu Hdn Hc Hname Hl Ha Hh He Hst Hsig Hct Hdt Himp.
  assert (Hlen : strlen (cursor_of s) = Ret (len s)).
  { unfold strlen, cursor_of, rest, block_of.
    cbn [off blk Z.ltb Z.compare Z.to_nat drop]. now apply strlen_aux_nul_free. }
  assert (Hpeek : peek (adv (cursor_of s) (len (String c x) + 2)) 0 = Ret d).
  { apply (rest_peek _ _ t).
    change (len (String c x) + 2) with (len (String c x) + len "__").
    rewrite <- len_app.
    apply rest_adv_app; [discriminate|]. rewrite Hrest, append_assoc_s.
    reflexivity. }
  unfold Prod.demangle_body. mbind.
  change (r_gnu_special (run (S (S m)))) with (Prod.gnu_special (run (S m))).
  change (r_demangle_prefix (run (S (S m)))) with (Prod.demangle_prefix (run (S m))).
  change (r_demangle_signature (run (S (S m))))
    with (Prod.demangle_signature (run (S m))).
  destruct (AUTO_DEMANGLING w || GNU_DEMANGLING w); cbv beta iota;
    rewrite ?(gnu_special_no_underscore _ _ EmptyString w c _ Hrest Hc);
    cbv beta iota; change (nz 0) with false; cbn [negb]; cbv beta iota;
    rewrite (demangle_prefix_function _ _ w c x d t (len s) Hrest Hlen
               Hdu Hdn Hc Hname Hl Ha Hh He Hst);
    cbv beta iota; change (nz 1) with true; cbv beta iota;
    rewrite Hpeek; cbv beta iota; rewrite Hdn; cbn [negb]; cbv beta iota;
    rewrite Hsig; cbv beta iota; rewrite Hct, Hdt, Himp; reflexivity.
Qed.

(** When the parse proper succeeds, the call returns the text it built. *)
Lemma cplus_demangle_v2_of_body
  (self : Rec) (s text : string) (o : flags) (w' : work_stuff) (c : ascii) :
  peek (cursor_of s) 0 = Ret c ->
  (c == NUL) = false ->
  Prod.demangle_body self (cursor_of s) (entry_state (initial_work o))
  = Ret ((1, text), w') ->
  nul_free text = true ->
  Prod.cplus_demangle_v2 (step self) (Some s) o = Ret (Some text).
Proof.
  intros Hpeek Hcn Hbody Htext.
  unfold Prod.cplus_demangle_v2.
  cbn [r_internal_cplus_demangle step option_map].
  unfold Prod.internal_cplus_demangle. mbind.
  fold (entry_state (initial_work o)).
  rewrite Hpeek. cbv beta iota. rewrite Hcn. cbv beta iota.
  rewrite Hbody. cbv beta iota.
  unfold mop_up, forget_types, squangle_mop_up, forget_B_and_K_types. mbind.
  change (nz 1) with true. cbn [negb]. cbv beta iota.
  now rewrite c_str_nul_free.
Qed.

Lemma function_name_first (c : ascii) (x : string) :
  function_name_chars (String c x) = true -> (c == NUL) = false.
Proof.
  intros H. apply function_name_chars_nul_free in H. cbn [nul_free] in H.
  apply andb_true_iff in H as [Hn _]. now apply negb_true_iff in Hn.
Qed.

(** X16.  A global function with arguments of fundamental types, in the
    style of GNU: for a name that does not begin with an underscore, has
    no marker byte in it and no underscore followed by another one or by
    the end of the name, and for any codes of fundamental types, with or
    without the code of the ellipsis at the end, the mangled name made of
    the name, two underscores, F and the codes is demangled to the name
    followed by the list of the types between parentheses: "void" for no
    code at all.  Without the option to show parameter types the result is
    the name alone. *)
Theorem global_function_with_fundamental_arguments
  (fuel : nat) (params ansi java : bool) (c : ascii) (x codes : string)
  (ellipsis : bool) :
  c <> "_"%char ->
  function_name_chars (String c x) = true ->
  fundamental_codes_only codes = true ->
  cplus_demangle_v2 (String.length codes + (9 + fuel))
    (Some (String c x ++ "__F" ++ codes ++ (if ellipsis then "e" else "")))
    (opts params ansi java gnu_demangling)
  = Ret (Some (if params then arguments_text (String c x) codes ellipsis
               else String c x)).
Proof.
  intros Hc Hname Hcodes.
  set (name := String c x) in *.
  set (o := opts params ansi java gnu_demangling).
  set (s := name ++ "__F" ++ codes ++ (if ellipsis then "e" else "")).
  set (t := codes ++ (if ellipsis then String "e" (String NUL EmptyString)
                      else String NUL EmptyString)).
  set (m := (String.length codes + (3 + fuel))%nat).
  set (w0 := entry_state (initial_work o)).
  assert (Hrest : rest (cursor_of s)
                  = name ++ String "_" (String "_" (String "F" t))).
  { unfold s, t, cursor_of, rest, block_of. cbn [off blk Z.ltb Z.compare Z.to_nat drop].
    rewrite !append_assoc_s. cbn [append]. destruct ellipsis; reflexivity. }
  assert (Hnf : nul_free s = true).
  { unfold s. apply nul_free_app; [now apply function_name_chars_nul_free|].
    apply (nul_free_app "__F"); [reflexivity|].
    apply nul_free_app; [now apply fundamental_codes_nul_free | now destruct ellipsis]. }
  assert (Hflags : AUTO_DEMANGLING w0 = false /\ GNU_DEMANGLING w0 = true
                   /\ LUCID_DEMANGLING w0 = false /\ ARM_DEMANGLING w0 = false
                   /\ HP_DEMANGLING w0 = false /\ EDG_DEMANGLING w0 = false
                   /\ PRINT_ARG_TYPES w0 = params).
  { unfold w0, o. now destruct params. }
  destruct Hflags as (Hau & Hg & Hl & Ha & Hh & He & Hp).
  destruct (args_state_fields codes w0) as (Hct & Hdt & _ & _ & Himp).
  assert (Hsig : rest (adv (cursor_of s) (len name + 2)) = String "F" t).
  { change (len name + 2) with (len name + len "__"). rewrite <- len_app.
    apply rest_adv_app; [discriminate|]. rewrite Hrest, append_assoc_s.
    reflexivity. }
  pose proof (demangle_signature_function fuel _ name codes w0 ellipsis EmptyString
                Hsig Hcodes Hau Hg Hl Ha Hh He eq_refl eq_refl ltac:(cbn; lia))
    as Hsignature.
  fold m in Hsignature. rewrite Hp in Hsignature.
  replace (String.length codes + (9 + fuel))%nat with (S (S (S (S (S (S m))))))
    by (unfold m; lia).
  rewrite cplus_demangle_v2_S, run_S.
  apply (cplus_demangle_v2_of_body _ s _ o (args_state codes w0) c).
  - reflexivity.
  - now apply function_name_first in Hname.
  - exact (demangle_body_function _ s w0 _ c x "F" t _ _ Hrest Hnf eq_refl eq_refl
             Hc Hname Hl Ha Hh He eq_refl Hsignature Hct Hdt Himp).
  - destruct params; [apply arguments_text_nul_free|];
      now apply function_name_chars_nul_free.
Qed.

Lemma global_function_with_fundamental_arguments_witness :
  cplus_demangle_v2 (String.length "icd" + (9 + 0)) (Some "my_func__Ficde")
    (opts true false false gnu_demangling)
  = Ret (Some "my_func(int, char, double,...)").
Proof.
  apply (global_function_with_fundamental_arguments 0 true false false
           "m" "y_func" "icd" true);
    [discriminate | reflexivity | reflexivity].
Defined.

(** ** Member functions with arguments of fundamental types *)

Lemma all_digits_nul_free (ds : string) : all_digits ds = true -> nul_free ds = true.
Proof.
  induction ds as [|c ds IH]; intros H; [reflexivity|].
  cbn [all_digits] in H. apply andb_true_iff in H as [Hc Hds].
  cbn [nul_free]. rewrite (IH Hds), andb_true_r.
  destruct (Ascii.eqb_spec c NUL) as [->|]; [discriminate Hc | reflexivity].
Qed.

(** A digit is none of the letters the loop of [demangle_signature] looks
    for before the digits. *)
Lemma digit_is_no_letter (c : ascii) :
  isdigit c = true ->
  (c == NUL) = false /\ (c == "_"%char) = false /\ (c == "Q"%char) = false
  /\ (c == "K"%char) = false /\ (c == "S"%char) = false /\ (c == "C"%char) = false
  /\ (c == "V"%char) = false /\ (c == "u"%char) = false /\ (c == "L"%char) = false
  /\ (c == "v"%char) = false /\ (c == "t"%char) = false /\ (c == "i"%char) = false.
Proof.
  intros H.
  repeat split; apply Ascii.eqb_neq; intros ->; vm_compute in H; discriminate.
Qed.

(** What a class in a signature is the class of. *)
Inductive member_kind : Type := Method | Constructor | Destructor.

Definition pending_constructor (kind : member_kind) : Z :=
  match kind with Constructor => 1 | _ => 0 end.

Definition pending_destructor (kind : member_kind) : Z :=
  match kind with Destructor => 1 | _ => 0 end.

(** The name of the function the class announces, before the text. *)
Definition member_name (kind : member_kind) (cls declp : string) : string :=
  match kind with
  | Method => declp
  | Constructor => cls ++ declp
  | Destructor => "~" ++ cls ++ declp
  end.

(** The context after the name of a class: the name is in the K and B
    tables, and the start of the template arguments, if it was open, is 0. *)
Definition class_state (cls : string) (w : work_stuff) : work_stuff :=
  set_btypevec (btypevec w ++ [Some cls])
    (set_ktypevec (ktypevec w ++ [cls])
       (if temp_start w =? -1 then set_temp_start 0 w else w)).

(** A class name that is no template and no anonymous namespace. *)
Lemma demangle_arm_hp_template_name
  (self : Rec) (mangled : cursor) (declp : string) (w : work_stuff)
  (k : ascii) (cls t : string) :
  rest mangled = String k cls ++ t ->
  (k == "_"%char) = false ->
  AUTO_DEMANGLING w = false -> ARM_DEMANGLING w = false ->
  HP_DEMANGLING w = false -> EDG_DEMANGLING w = false ->
  Prod.demangle_arm_hp_template self mangled (len (String k cls)) declp w
  = Ret ((adv mangled (len (String k cls)), declp ++ String k cls),
         if temp_start w =? -1 then set_temp_start 0 w else w).
Proof.
  intros Hrest Hk Hau Ha Hh He.
  assert (Hpos : 0 < len (String k cls)).
  { unfold len. cbn [String.length]. lia. }
  assert (Hcopy : copy mangled (len (String k cls)) = Ret (String k cls)).
  { apply (copy_prefix _ _ t); [exact Hrest | discriminate]. }
  assert (Hg : has_prefix mangled "_GLOBAL_" = Ret false).
  { unfold has_prefix. rewrite Hrest. now apply has_prefix_aux_first. }
  unfold Prod.demangle_arm_hp_template. mbind.
  rewrite Hh. cbv beta iota.
  unfold arm_pt. rewrite Ha, Hh, Hau, He. cbn [orb rbind]. cbv beta iota.
  change (nz 0) with false. cbv beta iota.
  unfold andR. rewrite Hg.
  destruct (10 <? len (String k cls)); cbn [rbind]; cbv beta iota;
    unfold string_appendn;
    (destruct (Z.eqb_spec (len (String k cls)) 0); [lia|]);
    rewrite Hcopy; cbn [rbind];
    destruct (temp_start w =? -1); reflexivity.
Qed.

(** The length and the name of a class. *)
Lemma demangle_class_name_plain
  (fuel : nat) (mangled : cursor) (w : work_stuff)
  (ds : string) (k : ascii) (cls t : string) (l : Z) :
  rest mangled = ds ++ String k cls ++ t ->
  all_digits ds = true ->
  decimal_value ds = len (String k cls) ->
  len (String k cls) <= INT_MAX ->
  isdigit k = false ->
  (k == "_"%char) = false ->
  strlen (adv mangled (len ds)) = Ret l ->
  len (String k cls) <= l ->
  AUTO_DEMANGLING w = false -> ARM_DEMANGLING w = false ->
  HP_DEMANGLING w = false -> EDG_DEMANGLING w = false ->
  Prod.demangle_class_name (run (S fuel)) mangled EmptyString w
  = Ret ((1, adv mangled (len ds + len (String k cls)), String k cls),
         if temp_start w =? -1 then set_temp_start 0 w else w).
Proof.
  intros Hrest Hds Hval Hmax Hk Hku Hlen Hl Hau Ha Hh He.
  assert (Hpos : 0 < len (String k cls)).
  { unfold len. cbn [String.length]. lia. }
  assert (Hne : ds <> EmptyString).
  { intros ->. cbn in Hval. lia. }
  assert (Hcount : consume_count mangled
                   = Ret (len (String k cls), adv mangled (len ds))).
  { rewrite (consume_count_digits mangled ds k (cls ++ t) Hrest Hne Hds Hk).
    - rewrite Hval. unfold to_int.
      destruct (Z.leb_spec (len (String k cls)) INT_MAX); [reflexivity | lia].
    - rewrite Hval. unfold UT32_MAX. unfold INT_MAX in Hmax. lia. }
  assert (Hcls : rest (adv mangled (len ds)) = String k cls ++ t).
  { apply rest_adv_app; [discriminate | exact Hrest]. }
  unfold Prod.demangle_class_name. mbind. rewrite Hcount. cbv beta iota.
  destruct (Z.eqb_spec (len (String k cls)) (-1)); [lia|].
  rewrite Hlen. cbv beta iota.
  destruct (Z.leb_spec (len (String k cls)) l); [|lia].
  cbn [run step r_demangle_arm_hp_template].
  rewrite (demangle_arm_hp_template_name _ _ EmptyString w k cls t
             Hcls Hku Hau Ha Hh He).
  cbv beta iota. unfold adv. cbn [blk off append]. now rewrite Z.add_assoc.
Qed.

(** The class of a member function: its name and the scope separator go
    before the text; for a constructor or a destructor, which the prefix
    announced, the name of the class is the name of the function. *)
Lemma demangle_class_plain
  (fuel : nat) (mangled : cursor) (declp : string) (w : work_stuff)
  (ds : string) (k : ascii) (cls t : string) (l : Z) (kind : member_kind) :
  rest mangled = ds ++ String k cls ++ t ->
  all_digits ds = true ->
  decimal_value ds = len (String k cls) ->
  len (String k cls) <= INT_MAX ->
  isdigit k = false ->
  (k == "_"%char) = false ->
  strlen (adv mangled (len ds)) = Ret l ->
  len (String k cls) <= l ->
  AUTO_DEMANGLING w = false -> ARM_DEMANGLING w = false ->
  HP_DEMANGLING w = false -> EDG_DEMANGLING w = false ->
  constructor w = pending_constructor kind ->
  destructor w = pending_destructor kind ->
  temp_start w = -1 ->
  Prod.demangle_class (run (S (S fuel))) mangled declp w
  = Ret ((1, adv mangled (len ds + len (String k cls)),
          String k cls ++ SCOPE_STRING w ++ member_name kind (String k cls) declp),
         match kind with
         | Method => class_state (String k cls) w
         | Constructor => set_constructor 0 (class_state (String k cls) w)
         | Destructor => set_destructor 0 (class_state (String k cls) w)
         end).
Proof.
  intros Hrest Hds Hval Hmax Hk Hku Hlen Hl Hau Ha Hh He Hct Hdt Hts.
  unfold Prod.demangle_class, register_Btype, remember_Ktype, remember_Btype.
  mbind.
  change (r_demangle_class_name (run (S (S fuel))))
    with (Prod.demangle_class_name (run (S fuel))).
  rewrite (demangle_class_name_plain fuel mangled
             (set_btypevec (btypevec w ++ [None]) w) ds k cls t l
             Hrest Hds Hval Hmax Hk Hku Hlen Hl Hau Ha Hh He).
  cbv beta iota. change (nz 1) with true. cbv beta iota.
  change (temp_start (set_btypevec (btypevec w ++ [None]) w)) with (temp_start w).
  unfold class_state, store, numb, string_prepends, string_prepend.
  destruct (Z.ltb_spec (Z.of_nat (List.length (btypevec w))) 0); [lia|].
  rewrite Nat2Z.id.
  rewrite Hts. change (-1 =? -1) with true. cbv beta iota.
  cbn [constructor destructor temp_start btypevec ktypevec set_temp_start
       set_btypevec set_ktypevec].
  rewrite Hct, Hdt.
  destruct kind; cbn [pending_constructor pending_destructor member_name];
    change (bit0 1) with true; change (bit0 0) with false;
    cbn [orb]; cbv beta iota.
  - change (btypevec (set_temp_start 0 (set_btypevec (btypevec w ++ [None]) w)))
      with (btypevec w ++ [None])%list.
    rewrite store_nat_app. reflexivity.
  - change (nz 0) with false. cbn [andb]. cbv beta iota.
    cbn [btypevec ktypevec set_temp_start set_btypevec set_ktypevec
         set_constructor].
    rewrite store_nat_app. reflexivity.
  - change (nz 0) with false. cbn [andb]. cbv beta iota.
    cbn [btypevec ktypevec set_temp_start set_btypevec set_ktypevec
         set_destructor].
    rewrite store_nat_app. reflexivity.
Qed.

(** The rounds of the loop of [demangle_signature] for the class of a
    member function, of a constructor or of a destructor, and for its
    arguments of fundamental types, up to the end of the input.  The bytes
    [pre] before the length of the class were read in earlier rounds, which
    left the start of the type in [old]. *)
Lemma signature_loop_member
  (fuel : nat) (mangled : cursor) (old : option cursor) (pre declp : string)
  (w : work_stuff)
  (ds : string) (k : ascii) (cls codes : string) (ellipsis : bool) (t : string)
  (kind : member_kind) :
  rest (match old with Some p => p | None => mangled end)
  = pre ++ ds ++ String k cls ++ codes
    ++ (if ellipsis then String "e" (String NUL t) else String NUL t) ->
  off mangled - off (match old with Some p => p | None => mangled end) = len pre ->
  rest mangled
  = ds ++ String k cls ++ codes
    ++ (if ellipsis then String "e" (String NUL t) else String NUL t) ->
  all_digits ds = true ->
  decimal_value ds = len (String k cls) ->
  len (String k cls) <= INT_MAX ->
  isdigit k = false ->
  (k == "_"%char) = false ->
  nul_free (String k cls) = true ->
  fundamental_codes_only codes = true ->
  AUTO_DEMANGLING w = false -> GNU_DEMANGLING w = true ->
  LUCID_DEMANGLING w = false -> ARM_DEMANGLING w = false ->
  HP_DEMANGLING w = false -> EDG_DEMANGLING w = false ->
  constructor w = pending_constructor kind ->
  destructor w = pending_destructor kind ->
  nrepeats w <= 0 ->
  exists w' : work_stuff,
    Prod.demangle_signature_loop (run (S (S (String.length codes + (3 + fuel)))))
      mangled declp 1 false false false old w
    = Ret ((adv mangled (len ds + len (String k cls) + len codes
                         + (if ellipsis then 1 else 0)),
            (let qualified :=
               String k cls ++ SCOPE_STRING w
               ++ member_name kind (String k cls) declp in
             if PRINT_ARG_TYPES w then arguments_text qualified codes ellipsis
             else qualified),
            1, true),
           w')
    /\ constructor w' = 0 /\ destructor w' = 0 /\ dllimported w' = dllimported w
    /\ static_type w' = static_type w /\ type_quals w' = type_quals w
    /\ options w' = options w.
Proof.
  intros Hstart Hoffs Hrest Hds Hval Hmax Hk Hku Hcls Hcodes Hau Hg Hl Ha Hh He
    Hct Hdt Hn.
  set (start := match old with Some p => p | None => mangled end) in *.
  set (name := String k cls) in *.
  set (ell := if ellipsis then "e" else "").
  set (tail := codes ++ (if ellipsis then String "e" (String NUL t) else String NUL t)).
  set (m := (String.length codes + (3 + fuel))%nat).
  set (w1 := set_temp_start (-1) w).
  set (qualified := name ++ SCOPE_STRING w ++ member_name kind name declp).
  set (wc := match kind with
             | Method => class_state name w1
             | Constructor => set_constructor 0 (class_state name w1)
             | Destructor => set_destructor 0 (class_state name w1)
             end).
  assert (Hpos : 0 < len name).
  { unfold len, name. cbn [String.length]. lia. }
  destruct ds as [|d ds']; [cbn in Hval; lia|].
  set (ds := String d ds') in *.
  assert (Hd : isdigit d = true).
  { cbn [all_digits] in Hds. now apply andb_true_iff in Hds as [Hd _]. }
  destruct (digit_is_no_letter d Hd)
    as (HdN & Hd_ & HdQ & HdK & HdS & HdC & HdV & Hdu & HdL & _).
  assert (Hrest' : rest mangled = String d (ds' ++ name ++ tail)) by exact Hrest.
  assert (Hrname : rest (adv mangled (len ds)) = name ++ tail).
  { apply rest_adv_app; [discriminate | exact Hrest]. }
  assert (Hlen : strlen (adv mangled (len ds)) = Ret (len (name ++ codes ++ ell))).
  { unfold strlen. rewrite Hrname.
    replace (name ++ tail) with ((name ++ codes ++ ell) ++ String NUL t).
    - apply strlen_aux_nul_free. apply nul_free_app; [exact Hcls|].
      apply nul_free_app; [now apply fundamental_codes_nul_free|].
      unfold ell. now destruct ellipsis.
    - unfold tail, ell. rewrite !append_assoc_s. now destruct ellipsis. }
  assert (Hle : len name <= len (name ++ codes ++ ell)).
  { rewrite len_app. pose proof (len_nonneg (codes ++ ell)). lia. }
  assert (Hclass : Prod.demangle_class (step (run m)) mangled declp w1
                   = Ret ((1, adv mangled (len ds + len name), qualified), wc)).
  { unfold m. replace (String.length codes + (3 + fuel))%nat
      with (S (String.length codes + (2 + fuel))) by lia.
    exact (demangle_class_plain _ mangled declp w1 ds k cls tail _ kind
             Hrest Hds Hval Hmax Hk Hku Hlen Hle Hau Ha Hh He Hct Hdt eq_refl). }
  assert (Hwc : forgetting_types wc = forgetting_types w /\ typevec wc = typevec w
                /\ options wc = options w /\ nrepeats wc = nrepeats w
                /\ constructor wc = 0 /\ destructor wc = 0
                /\ static_type wc = static_type w /\ type_quals wc = type_quals w
                /\ dllimported wc = dllimported w).
  { unfold wc. destruct kind; cbn in Hct, Hdt |- *; auto 10. }
  destruct Hwc as (Hft & Htv & Hoptc & Hnc & Hctc & Hdtc & Hstc & Htqc & Himpc).
  assert (Hcopy : copy start (len pre + (len ds + len name))
                  = Ret (pre ++ ds ++ name)).
  { rewrite <- !len_app. apply (copy_prefix _ _ tail).
    - rewrite Hstart. now rewrite !append_assoc_s.
    - unfold ds. apply append_nonempty. }
  assert (Hrtail : rest (adv mangled (len ds + len name)) = tail).
  { rewrite <- len_app. apply rest_adv_app.
    - unfold tail. destruct codes, ellipsis; discriminate.
    - rewrite Hrest. now rewrite append_assoc_s. }
  assert (HF : at_is (adv mangled (len ds + len name)) 0 "F" = Ret false).
  { unfold at_is. unfold tail in Hrtail.
    destruct codes as [|c0 cs]; cbn [append] in Hrtail.
    - destruct ellipsis; rewrite (rest_peek _ _ _ Hrtail); reflexivity.
    - rewrite (rest_peek _ _ _ Hrtail). cbn [rbind].
      cbn [fundamental_codes_only] in Hcodes.
      destruct (Prod.fundamental c0) as [[nm tk0]|] eqn:Hfund; [|discriminate].
      pose proof (fundamental_codes c0 nm tk0 Hfund) as Hin. cbn [List.In] in Hin.
      repeat (destruct Hin as [<- | Hin]; [reflexivity|]). contradiction. }
  cbn [run]. fold m.
  unfold Prod.demangle_signature_loop at 1. mbind.
  change (nz 1) with true. cbn [negb]. cbv beta iota.
  rewrite (rest_peek _ _ _ Hrest'). cbv beta iota.
  rewrite HdN, HdQ, HdK, HdS, HdC, HdV, Hdu, HdL, Hd. cbn [orb]. cbv beta iota.
  cbn [step r_demangle_class r_demangle_args]. fold w1.
  rewrite Hclass. cbv beta iota. change (nz 1) with true. cbv beta iota.
  set (w2 := if nz (forgetting_types w) then wc
             else set_typevec (typevec w ++ [pre ++ ds ++ name]) wc).
  assert (Hrem : remember_type start
                   (off (adv mangled (len ds + len name)) - off start) wc
                 = Ret (tt, w2)).
  { unfold remember_type. mbind.
    replace (off (adv mangled (len ds + len name)) - off start)
      with (len pre + (len ds + len name)) by (unfold adv; cbn [off]; lia).
    rewrite Hft, Htv.
    unfold w2. destruct (nz (forgetting_types w)); [reflexivity|].
    rewrite Hcopy. reflexivity. }
  assert (Hw2 : options w2 = options w /\ nrepeats w2 = nrepeats w
                /\ constructor w2 = 0 /\ destructor w2 = 0
                /\ static_type w2 = static_type w /\ type_quals w2 = type_quals w
                /\ dllimported w2 = dllimported w).
  { unfold w2. destruct (nz (forgetting_types w));
      cbn [options nrepeats constructor destructor static_type type_quals
           dllimported set_typevec]; auto 10. }
  destruct Hw2 as (Hopt & Hn2 & Hct2 & Hdt2 & Hst2 & Htq2 & Himp2).
  assert (Hp2 : PRINT_ARG_TYPES w2 = PRINT_ARG_TYPES w).
  { unfold PRINT_ARG_TYPES. now rewrite Hopt. }
  pose proof (demangle_args_function fuel (adv mangled (len ds + len name))
                qualified codes w2 ellipsis t
                Hrtail Hcodes ltac:(rewrite Hn2; exact Hn)) as Hargs.
  fold m in Hargs. rewrite Hp2 in Hargs.
  assert (Hend : peek (adv (adv mangled (len ds + len name))
                         (len codes + (if ellipsis then 1 else 0))) 0
                 = Ret NUL).
  { destruct ellipsis.
    - apply (rest_peek _ _ t).
      replace (len codes + 1) with (len (codes ++ "e"))
        by (rewrite len_app; reflexivity).
      apply rest_adv_app; [discriminate|].
      rewrite Hrtail. unfold tail. rewrite append_assoc_s. reflexivity.
    - apply (rest_peek _ _ t). rewrite Z.add_0_r.
      apply rest_adv_app; [discriminate | exact Hrtail]. }
  destruct (args_state_fields codes w2) as (Hct' & Hdt' & Hst' & Htq' & Himp').
  assert (Hprint : PRINT_ARG_TYPES (args_state codes w2) = PRINT_ARG_TYPES w).
  { unfold PRINT_ARG_TYPES. now rewrite args_state_options, Hopt. }
  exists (args_state codes w2). split.
  2:{ rewrite Hct', Hdt', Himp', Hst', Htq', Hct2, Hdt2, Himp2, Hst2, Htq2,
        args_state_options, Hopt. auto 10. }
  cbv zeta. fold name. fold qualified.
  replace (match match old with
                 | Some _ => old
                 | None => Some mangled
                 end with
           | Some p => p
           | None => mangled
           end) with start by (unfold start; now destruct old).
  rewrite Hrem. cbv beta iota. rewrite Hau, Hg, He. cbn [orb]. cbv beta iota.
  rewrite HF. cbv beta iota. cbn [negb]. cbv beta iota.
  change (nz 1) with true. cbn [andb]. cbv beta iota.
  rewrite Hl, Ha. cbn [orb]. cbv beta iota.
  rewrite Hargs. cbv beta iota.
  cbn [step r_demangle_signature_loop].
  unfold Prod.demangle_signature_loop. mbind.
  change (nz 1) with true. cbn [negb]. cbv beta iota.
  rewrite Hend. cbv beta iota. change (NUL == NUL) with true. cbv beta iota.
  replace (adv (adv mangled (len ds + len name))
             (len codes + (if ellipsis then 1 else 0)))
    with (adv mangled (len ds + len name + len codes + (if ellipsis then 1 else 0)))
    by (unfold adv; cbn [blk off]; f_equal; lia).
  reflexivity.
Qed.


(** The codes before the class of a member function: S for a static
    function, C, V and u for the qualifiers of a function. *)
Fixpoint modifier_codes_only (mods : string) : bool :=
  match mods with
  | EmptyString => true
  | String c ms => one_of c "SCVu" && modifier_codes_only ms
  end.

(** The context after the codes [mods]. *)
Fixpoint modifiers_state (mods : string) (w : work_stuff) : work_stuff :=
  match mods with
  | EmptyString => w
  | String c ms =>
      modifiers_state ms
        (if c == "S"%char then set_static_type 1 w
         else set_type_quals (Z.lor (type_quals w) (code_for_qualifier c)) w)
  end.

Fixpoint modifier_static (mods : string) (s : Z) : Z :=
  match mods with
  | EmptyString => s
  | String c ms => modifier_static ms (if c == "S"%char then 1 else s)
  end.

Fixpoint modifier_quals (mods : string) (q : Z) : Z :=
  match mods with
  | EmptyString => q
  | String c ms =>
      modifier_quals ms (if c == "S"%char then q else Z.lor q (code_for_qualifier c))
  end.

Lemma modifiers_state_fields (mods : string) :
  forall w,
    static_type (modifiers_state mods w) = modifier_static mods (static_type w)
    /\ type_quals (modifiers_state mods w) = modifier_quals mods (type_quals w)
    /\ options (modifiers_state mods w) = options w
    /\ constructor (modifiers_state mods w) = constructor w
    /\ destructor (modifiers_state mods w) = destructor w
    /\ dllimported (modifiers_state mods w) = dllimported w
    /\ nrepeats (modifiers_state mods w) = nrepeats w.
Proof.
  induction mods as [|c ms IH]; intros w; cbn [modifiers_state modifier_static
                                                modifier_quals]; [auto 10|].
  destruct (c == "S"%char).
  - destruct (IH (set_static_type 1 w)) as (H1 & H2 & H3 & H4 & H5 & H6 & H7).
    rewrite H1, H2, H3, H4, H5, H6, H7. auto 10.
  - destruct (IH (set_type_quals (Z.lor (type_quals w) (code_for_qualifier c)) w))
      as (H1 & H2 & H3 & H4 & H5 & H6 & H7).
    rewrite H1, H2, H3, H4, H5, H6, H7. auto 10.
Qed.

(** The rounds of the loop of [demangle_signature] over the codes [mods]. *)
Lemma signature_loop_modifiers (mods : string) :
  forall (n : nat) (mangled : cursor) (declp : string) (old : option cursor)
         (w : work_stuff) (c : ascii) (t : string),
    rest mangled = mods ++ String c t ->
    modifier_codes_only mods = true ->
    Prod.demangle_signature_loop (run (String.length mods + n)) mangled declp 1
      false false false old w
    = Prod.demangle_signature_loop (run n) (adv mangled (len mods)) declp 1
        false false false
        (match mods with
         | EmptyString => old
         | String _ _ => Some (match old with Some p => p | None => mangled end)
         end)
        (modifiers_state mods w).
Proof.
  induction mods as [|c0 ms IH]; intros n mangled declp old w c t Hrest Hmods.
  - cbn [String.length Nat.add len Z.of_nat modifiers_state].
    replace (adv mangled 0) with mangled
      by (unfold adv; rewrite Z.add_0_r; now destruct mangled).
    reflexivity.
  - cbn [modifier_codes_only] in Hmods. apply andb_true_iff in Hmods as [Hc0 Hms].
    cbn [append] in Hrest.
    assert (Hoff : 0 <= off mangled) by (eapply rest_nonneg; exact Hrest).
    assert (Hrest1 : rest (adv mangled 1) = ms ++ String c t).
    { change 1 with (Z.of_nat 1). rewrite (rest_adv _ _ Hoff), Hrest. reflexivity. }
    cbn [String.length Nat.add run].
    unfold Prod.demangle_signature_loop at 1. mbind.
    change (nz 1) with true. cbn [negb]. cbv beta iota.
    rewrite (rest_peek _ _ _ Hrest). cbv beta iota.
    cbn [step r_demangle_signature_loop].
    cbn [one_of] in Hc0.
    assert (Hcase : c0 = "S"%char \/ c0 = "C"%char \/ c0 = "V"%char \/ c0 = "u"%char).
    { repeat (apply orb_true_iff in Hc0 as [Hc0 | Hc0]);
        try discriminate; apply Ascii.eqb_eq in Hc0; auto. }
    assert (Hadv : adv (adv mangled 1) (len ms) = adv mangled (len (String c0 ms))).
    { rewrite adv_adv. unfold len. cbn [String.length]. rewrite Nat2Z.inj_succ.
      f_equal. lia. }
    destruct Hcase as [-> | [-> | [-> | ->]]];
      cbv beta iota delta [Ascii.eqb Bool.eqb orb andb negb NUL zero];
      change (nz 1) with true; cbv beta iota;
      rewrite (IH n (adv mangled 1) declp _ _ c t Hrest1 Hms);
      rewrite Hadv; cbn [modifiers_state];
      cbv beta iota delta [Ascii.eqb Bool.eqb orb andb negb NUL zero];
      destruct ms, old; reflexivity.
Qed.

(** What the end of [demangle_signature] appends for the codes [mods]. *)
Definition with_modifiers (mods declp : string) : string :=
  let declp :=
    if nz (modifier_static mods 0) then string_append declp " static" else declp in
  if nz (modifier_quals mods 0)
  then string_append (APPEND_BLANK declp) (qualifier_string (modifier_quals mods 0))
  else declp.

Lemma qualifier_string_nul_free (q : Z) : nul_free (qualifier_string q) = true.
Proof.
  unfold qualifier_string.
  repeat match goal with
         | |- context [if ?b then _ else _] => destruct b; [reflexivity|]
         end.
  reflexivity.
Qed.

Lemma with_modifiers_nul_free (mods declp : string) :
  nul_free declp = true -> nul_free (with_modifiers mods declp) = true.
Proof.
  intros Hd. unfold with_modifiers, APPEND_BLANK, string_append.
  assert (Hs : nul_free (if nz (modifier_static mods 0) then declp ++ " static"
                         else declp) = true).
  { destruct (nz _); [apply nul_free_app|]; auto. }
  destruct (nz (modifier_quals mods 0)); [|exact Hs].
  apply nul_free_app; [|apply qualifier_string_nul_free].
  destruct (STRING_EMPTY _); [exact Hs | now apply nul_free_app].
Qed.

(** The signature of a member function, of a constructor or of a
    destructor, with arguments of fundamental types, up to the end of the
    input. *)
Lemma demangle_signature_member
  (fuel : nat) (mangled : cursor) (declp : string) (w : work_stuff)
  (mods ds : string) (k : ascii) (cls codes : string) (ellipsis : bool)
  (t : string) (kind : member_kind) :
  rest mangled
  = mods ++ ds ++ String k cls ++ codes
    ++ (if ellipsis then String "e" (String NUL t) else String NUL t) ->
  modifier_codes_only mods = true ->
  all_digits ds = true ->
  decimal_value ds = len (String k cls) ->
  len (String k cls) <= INT_MAX ->
  isdigit k = false ->
  (k == "_"%char) = false ->
  nul_free (String k cls) = true ->
  fundamental_codes_only codes = true ->
  AUTO_DEMANGLING w = false -> GNU_DEMANGLING w = true ->
  LUCID_DEMANGLING w = false -> ARM_DEMANGLING w = false ->
  HP_DEMANGLING w = false -> EDG_DEMANGLING w = false ->
  constructor w = pending_constructor kind ->
  destructor w = pending_destructor kind ->
  static_type w = 0 -> type_quals w = 0 -> nrepeats w <= 0 ->
  exists w' : work_stuff,
    Prod.demangle_signature
      (run (S (String.length mods + S (S (String.length codes + (3 + fuel))))))
      mangled declp w
    = Ret ((1,
            adv mangled (len mods + (len ds + len (String k cls) + len codes
                                     + (if ellipsis then 1 else 0))),
            let qualified :=
              String k cls ++ SCOPE_STRING w
              ++ member_name kind (String k cls) declp in
            if PRINT_ARG_TYPES w
            then with_modifiers mods (arguments_text qualified codes ellipsis)
            else qualified),
           w')
    /\ constructor w' = 0 /\ destructor w' = 0 /\ dllimported w' = dllimported w.
Proof.
  intros Hrest Hmods Hds Hval Hmax Hk Hku Hcls Hcodes Hau Hg Hl Ha Hh He
    Hct Hdt Hst Htq Hn.
  set (tail := ds ++ String k cls ++ codes
               ++ (if ellipsis then String "e" (String NUL t) else String NUL t)) in *.
  destruct ds as [|d ds']; [cbn in Hval; pose proof (len_nonneg cls);
                            unfold len in *; cbn [String.length] in Hval; lia|].
  set (wm := modifiers_state mods w).
  destruct (modifiers_state_fields mods w)
    as (Hmst & Hmtq & Hmopt & Hmct & Hmdt & Hmimp & Hmn).
  fold wm in Hmst, Hmtq, Hmopt, Hmct, Hmdt, Hmimp, Hmn.
  assert (Hoff : 0 <= off mangled).
  { destruct mods; cbn [append] in Hrest; eapply rest_nonneg; exact Hrest. }
  assert (Hrest2 : rest (adv mangled (len mods)) = tail).
  { apply rest_adv_app; [discriminate | exact Hrest]. }
  set (old := match mods with
              | EmptyString => None
              | String _ _ => Some mangled
              end).
  assert (Hstart : rest (match old with
                         | Some p => p
                         | None => adv mangled (len mods)
                         end) = mods ++ tail).
  { unfold old. destruct mods; [exact Hrest2 | exact Hrest]. }
  assert (Hoffs : off (adv mangled (len mods))
                  - off (match old with
                         | Some p => p
                         | None => adv mangled (len mods)
                         end) = len mods).
  { unfold old. destruct mods; unfold adv; cbn [off].
    - cbn. lia.
    - lia. }
  assert (Hflag : forall f : flags -> bool, f (options wm) = f (options w)).
  { intros f. now rewrite Hmopt. }
  destruct (signature_loop_member fuel (adv mangled (len mods)) old mods declp wm
              (String d ds') k cls codes ellipsis t kind Hstart Hoffs Hrest2
              Hds Hval Hmax Hk Hku Hcls Hcodes
              ltac:(unfold AUTO_DEMANGLING; rewrite Hmopt; exact Hau)
              ltac:(unfold GNU_DEMANGLING; rewrite Hmopt; exact Hg)
              ltac:(unfold LUCID_DEMANGLING; rewrite Hmopt; exact Hl)
              ltac:(unfold ARM_DEMANGLING; rewrite Hmopt; exact Ha)
              ltac:(unfold HP_DEMANGLING; rewrite Hmopt; exact Hh)
              ltac:(unfold EDG_DEMANGLING; rewrite Hmopt; exact He)
              ltac:(rewrite Hmct; exact Hct) ltac:(rewrite Hmdt; exact Hdt)
              ltac:(rewrite Hmn; exact Hn))
    as (w' & Hloop & Hct' & Hdt' & Himp' & Hst' & Htq' & Hopt').
  exists w'. split; [|rewrite Himp', Hmimp; auto].
  assert (Hscope : SCOPE_STRING wm = SCOPE_STRING w).
  { unfold SCOPE_STRING. now rewrite Hmopt. }
  assert (Hprint : PRINT_ARG_TYPES wm = PRINT_ARG_TYPES w).
  { unfold PRINT_ARG_TYPES. now rewrite Hmopt. }
  assert (Hprint' : PRINT_ARG_TYPES w' = PRINT_ARG_TYPES w).
  { unfold PRINT_ARG_TYPES. now rewrite Hopt', Hmopt. }
  cbv zeta in Hloop. rewrite Hscope, Hprint in Hloop.
  unfold Prod.demangle_signature. mbind.
  change (r_demangle_signature_loop
            (run (S (String.length mods + S (S (String.length codes + (3 + fuel)))))))
    with (Prod.demangle_signature_loop
            (run (String.length mods + S (S (String.length codes + (3 + fuel)))))).
  rewrite (signature_loop_modifiers mods _ mangled declp None w d
             (ds' ++ String k cls ++ codes
              ++ (if ellipsis then String "e" (String NUL t) else String NUL t))
             Hrest Hmods).
  fold wm. fold old.
  replace (match mods with
           | EmptyString => None
           | String _ _ => Some mangled
           end) with old by reflexivity.
  rewrite Hloop. cbv beta iota. change (nz 1) with true. cbn [negb andb].
  cbv beta iota.
  rewrite Hprint', Hst', Htq', Hmst, Hmtq, Hst, Htq.
  unfold with_modifiers. rewrite adv_adv.
  change (nz 1) with true. cbn [andb].
  now destruct (PRINT_ARG_TYPES w).
Qed.

Lemma modifier_codes_nul_free (mods : string) :
  modifier_codes_only mods = true -> nul_free mods = true.
Proof.
  induction mods as [|c ms IH]; intros H; [reflexivity|].
  cbn [modifier_codes_only] in H. apply andb_true_iff in H as [Hc Hms].
  cbn [nul_free]. rewrite (IH Hms), andb_true_r.
  destruct (Ascii.eqb_spec c NUL) as [->|]; [discriminate Hc | reflexivity].
Qed.

(** The first byte of a signature that begins with codes of modifiers and
    digits. *)
Lemma signature_first_byte (mods : string) (d : ascii) (t : string) :
  modifier_codes_only mods = true ->
  isdigit d = true ->
  exists (d0 : ascii) (t0 : string),
    mods ++ String d t = String d0 t0
    /\ (d0 == "_"%char) = false /\ (d0 == NUL) = false.
Proof.
  intros Hmods Hd. destruct mods as [|c ms].
  - exists d, t. destruct (digit_is_no_letter d Hd) as (HdN & Hd_ & _). auto.
  - exists c, (ms ++ String d t).
    cbn [modifier_codes_only] in Hmods. apply andb_true_iff in Hmods as [Hc _].
    repeat split.
    + destruct (Ascii.eqb_spec c "_") as [->|]; [discriminate Hc | reflexivity].
    + destruct (Ascii.eqb_spec c NUL) as [->|]; [discriminate Hc | reflexivity].
Qed.

(** X17.  A member function with arguments of fundamental types, in the
    style of GNU: the mangled name is the name of the function, two
    underscores, the codes of its modifiers (S for static; C, V and u for
    const, volatile and __restrict), the length of the name of the class
    in decimal digits, the name of the class and the codes of the types,
    with or without the code of the ellipsis at the end.  For a function
    name that does not begin with an underscore, has no marker byte in it
    and no underscore followed by another one or by the end of the name,
    and a class name without terminator that begins with neither a digit
    nor an underscore, the result is the class, the scope separator ("::",
    or "." with the option for Java), the function, the list of the types
    between parentheses, then " static" for S and the qualifiers of the
    function; without the option to show parameter types, the qualified
    name alone. *)
Theorem member_function_with_fundamental_arguments
  (fuel : nat) (params ansi java : bool) (c : ascii) (x : string)
  (mods ds : string) (k : ascii) (cls codes : string) (ellipsis : bool) :
  c <> "_"%char ->
  function_name_chars (String c x) = true ->
  modifier_codes_only mods = true ->
  all_digits ds = true ->
  decimal_value ds = len (String k cls) ->
  len (String k cls) <= INT_MAX ->
  isdigit k = false ->
  k <> "_"%char ->
  nul_free (String k cls) = true ->
  fundamental_codes_only codes = true ->
  cplus_demangle_v2 (String.length mods + (String.length codes + (9 + fuel)))
    (Some (String c x ++ "__" ++ mods ++ ds ++ String k cls ++ codes
           ++ (if ellipsis then "e" else "")))
    (opts params ansi java gnu_demangling)
  = Ret (Some (let qualified :=
                 String k cls ++ (if java then "." else "::") ++ String c x in
               if params
               then with_modifiers mods (arguments_text qualified codes ellipsis)
               else qualified)).
Proof.
  intros Hc Hname Hmods Hds Hval Hmax Hk Hku Hcls Hcodes.
  apply Ascii.eqb_neq in Hku.
  set (name := String c x) in *.
  set (class := String k cls) in *.
  set (o := opts params ansi java gnu_demangling).
  set (ell := if ellipsis then "e" else "").
  set (s := name ++ "__" ++ mods ++ ds ++ class ++ codes ++ ell).
  set (m := (String.length mods + S (S (String.length codes + (3 + fuel))))%nat).
  set (w0 := entry_state (initial_work o)).
  assert (Hpos : 0 < len class).
  { unfold len, class. cbn [String.length]. lia. }
  destruct ds as [|d ds']; [cbn in Hval; lia|].
  set (dd := String d ds') in *.
  assert (Hd : isdigit d = true).
  { cbn [all_digits] in Hds. now apply andb_true_iff in Hds as [Hd _]. }
  set (tail := class ++ codes
               ++ (if ellipsis then String "e" (String NUL EmptyString)
                   else String NUL EmptyString)).
  destruct (signature_first_byte mods d (ds' ++ tail) Hmods Hd)
    as (d0 & t0 & Hfirst & Hd0_ & Hd0N).
  assert (Hrest : rest (cursor_of s)
                  = name ++ String "_" (String "_" (String d0 t0))).
  { rewrite <- Hfirst. unfold s, tail, ell, dd, cursor_of, rest, block_of.
    cbn [off blk Z.ltb Z.compare Z.to_nat drop].
    rewrite !append_assoc_s. cbn [append].
    rewrite ?append_assoc_s. destruct ellipsis; reflexivity. }
  assert (Hnf : nul_free s = true).
  { unfold s. apply nul_free_app; [now apply function_name_chars_nul_free|].
    apply (nul_free_app "__"); [reflexivity|].
    apply nul_free_app; [now apply modifier_codes_nul_free|].
    apply nul_free_app; [now apply all_digits_nul_free|].
    apply nul_free_app; [exact Hcls|].
    apply nul_free_app; [now apply fundamental_codes_nul_free|].
    unfold ell. now destruct ellipsis. }
  assert (Hflags : AUTO_DEMANGLING w0 = false /\ GNU_DEMANGLING w0 = true
                   /\ LUCID_DEMANGLING w0 = false /\ ARM_DEMANGLING w0 = false
                   /\ HP_DEMANGLING w0 = false /\ EDG_DEMANGLING w0 = false
                   /\ PRINT_ARG_TYPES w0 = params
                   /\ SCOPE_STRING w0 = if java then "." else "::").
  { unfold w0, o. destruct params, java; repeat split; reflexivity. }
  destruct Hflags as (Hau & Hg & Hl & Ha & Hh & He & Hp & Hscope).
  assert (Hsig : rest (adv (cursor_of s) (len name + 2))
                 = mods ++ dd ++ class ++ codes
                   ++ (if ellipsis then String "e" (String NUL EmptyString)
                       else String NUL EmptyString)).
  { change (len name + 2) with (len name + len "__"). rewrite <- len_app.
    apply rest_adv_app; [exact (append_nonempty mods d _)|].
    rewrite Hrest, append_assoc_s. rewrite <- Hfirst. reflexivity. }
  destruct (demangle_signature_member fuel _ name w0 mods dd k cls codes ellipsis
              EmptyString Method Hsig Hmods Hds Hval Hmax Hk Hku Hcls Hcodes
              Hau Hg Hl Ha Hh He eq_refl eq_refl eq_refl eq_refl ltac:(cbn; lia))
    as (w' & Hsignature & Hct & Hdt & Himp).
  cbv zeta in Hsignature. fold m in Hsignature. fold class in Hsignature.
  cbn [member_name] in Hsignature.
  rewrite Hp, Hscope in Hsignature.
  replace (String.length mods + (String.length codes + (9 + fuel)))%nat
    with (S (S (S (S m)))) by (unfold m; lia).
  rewrite cplus_demangle_v2_S, run_S. cbv zeta.
  apply (cplus_demangle_v2_of_body _ s _ o w' c).
  - reflexivity.
  - now apply function_name_first in Hname.
  - exact (demangle_body_function _ s w0 _ c x d0 t0 _ _ Hrest Hnf Hd0_ Hd0N
             Hc Hname Hl Ha Hh He eq_refl Hsignature Hct Hdt Himp).
  - assert (Hq : nul_free (class ++ (if java then "." else "::") ++ name) = true).
    { apply nul_free_app; [exact Hcls|].
      apply nul_free_app; [now destruct java|].
      now apply function_name_chars_nul_free. }
    destruct params; [|exact Hq].
    apply with_modifiers_nul_free. now apply arguments_text_nul_free.
Qed.

Lemma member_function_with_fundamental_arguments_witness :
  cplus_demangle_v2 (String.length "C" + (String.length "if" + (9 + 0)))
    (Some "set_size__C6Windowif") (opts true true false gnu_demangling)
  = Ret (Some "Window::set_size(int, float) const").
Proof.
  apply (member_function_with_fundamental_arguments 0 true true false
           "s" "et_size" "C" "6" "W" "indow" "if" false);
    [discriminate | reflexivity | reflexivity | reflexivity | reflexivity
    | vm_compute; discriminate
    | reflexivity | discriminate | reflexivity | reflexivity].
Defined.

(** ** Constructors with arguments of fundamental types *)

(** Two underscores and the length of a class at the start of the input:
    no special form of GNU, and the prefix announces a constructor. *)
Lemma demangle_body_constructor
  (m : nat) (s : string) (w w' : work_stuff) (d : ascii) (t text : string)
  (mangled' : cursor) :
  rest (cursor_of s) = String "_" (String "_" (String d t)) ->
  nul_free s = true ->
  isdigit d = true ->
  LUCID_DEMANGLING w = false -> ARM_DEMANGLING w = false ->
  HP_DEMANGLING w = false -> EDG_DEMANGLING w = false ->
  static_type w = 0 -> constructor w = 0 ->
  Prod.demangle_signature (run (S m)) (adv (cursor_of s) 2) EmptyString
    (set_constructor 1 w)
  = Ret ((1, mangled', text), w') ->
  constructor w' = 0 -> destructor w' = 0 -> dllimported w' = 0 ->
  Prod.demangle_body (run (S (S m))) (cursor_of s) w = Ret ((1, text), w').
Proof.
  intros Hrest Hnf Hd Hl Ha Hh He Hst Hct0 Hsig Hct Hdt Himp.
  destruct (digit_is_no_letter d Hd)
    as (HdN & Hd_ & _ & _ & _ & _ & _ & _ & _ & Hdv & Hdt' & Hdi).
  set (p := cursor_of s) in *.
  assert (Hlen : strlen p = Ret (len s)).
  { unfold strlen, p, cursor_of, rest, block_of.
    cbn [off blk Z.ltb Z.compare Z.to_nat drop]. now apply strlen_aux_nul_free. }
  assert (Hp0 : peek p 0 = Ret "_"%char) by exact (rest_peek _ _ _ Hrest).
  assert (Hp1 : peek p 1 = Ret "_"%char)
    by exact (rest_peek_at p "_" "_" (String d t) Hrest).
  assert (Hp2 : peek p 2 = Ret d) by exact (rest_peek_at p "__" d t Hrest).
  assert (Hspecial : forall declp,
             Prod.gnu_special (run (S m)) p declp w = Ret ((0, p, declp), w)).
  { intros declp. unfold Prod.gnu_special. mbind.
    unfold andR, orR, at_is, at_marker, has_prefix.
    rewrite Hp0, Hp1, Hp2, Hrest. cbn [rbind has_prefix_aux].
    change (is_marker "_") with false.
    change ("_" == "_")%char with true. change ("_" == "v")%char with false.
    change ("_" == "t")%char with false.
    cbv beta iota. cbn [rbind]. rewrite Hdv, Hdt'. cbn [rbind].
    reflexivity. }
  assert (Hprefix : Prod.demangle_prefix (run (S m)) p EmptyString w
                    = Ret ((1, adv p 2, EmptyString), set_constructor 1 w)).
  { assert (Hoff : off p = 0) by reflexivity.
    assert (Hscan : Prod.prefix_scan (rest p) 0 = Ret (Some 1)).
    { rewrite Hrest. reflexivity. }
    assert (Hspn : strspn (adv p 0) "_" = Ret 2).
    { unfold strspn. change (rest (adv p 0)) with (rest p). rewrite Hrest.
      cbn [strspn_aux one_of]. rewrite Hd_, HdN. reflexivity. }
    assert (Hs2 : peek (adv p 0) 2 = Ret d) by exact Hp2.
    unfold Prod.demangle_prefix. mbind. rewrite Hlen. cbn [rbind].
    unfold andR, orR, has_prefix. rewrite Hrest. cbn [has_prefix_aux].
    change ("_" == "_")%char with true. change ("_" == "i")%char with false.
    change ("_" == "G")%char with false. cbv beta iota. rewrite Hdi.
    rewrite Ha, Hh, He. cbn [orb].
    destruct (6 <? len s); cbn [rbind];
      destruct (11 <=? len s); cbn [rbind];
      rewrite Hscan; cbn [rbind];
      change (1 - 1) with 0;
      rewrite Hspn; cbn [rbind];
      change (2 <? 2) with false; cbv beta iota;
      rewrite Hs2; cbv beta iota;
      rewrite Hst; change (nz 0) with false; cbv beta iota;
      change (off (adv p 0) =? off p) with true;
      rewrite Hd, ?Hl, ?Ha, ?Hh, ?He; cbn [andb orb negb]; cbv beta iota;
      rewrite Hct0; reflexivity. }
  assert (Hpeek : peek (adv p 2) 0 = Ret d) by exact Hp2.
  unfold Prod.demangle_body. mbind.
  change (r_gnu_special (run (S (S m)))) with (Prod.gnu_special (run (S m))).
  change (r_demangle_prefix (run (S (S m)))) with (Prod.demangle_prefix (run (S m))).
  change (r_demangle_signature (run (S (S m))))
    with (Prod.demangle_signature (run (S m))).
  destruct (AUTO_DEMANGLING w || GNU_DEMANGLING w); cbv beta iota;
    rewrite ?Hspecial;
    cbv beta iota; change (nz 0) with false; cbn [negb]; cbv beta iota;
    rewrite Hprefix;
    cbv beta iota; change (nz 1) with true; cbv beta iota;
    rewrite Hpeek; cbv beta iota; rewrite HdN; cbn [negb]; cbv beta iota;
    rewrite Hsig; cbv beta iota; rewrite Hct, Hdt, Himp; reflexivity.
Qed.

(** X18.  A constructor with arguments of fundamental types, in the style
    of GNU: the mangled name is two underscores, the length of the name of
    the class in decimal digits, the name of the class and the codes of the
    types, with or without the code of the ellipsis at the end.  For a
    class name without terminator that begins with neither a digit nor an
    underscore, the result is the class, the scope separator ("::", or "."
    with the option for Java), the class again as the name of the function,
    and the list of the types between parentheses; without the option to
    show parameter types, the qualified name alone. *)
Theorem constructor_with_fundamental_arguments
  (fuel : nat) (params ansi java : bool)
  (ds : string) (k : ascii) (cls codes : string) (ellipsis : bool) :
  all_digits ds = true ->
  decimal_value ds = len (String k cls) ->
  len (String k cls) <= INT_MAX ->
  isdigit k = false ->
  k <> "_"%char ->
  nul_free (String k cls) = true ->
  fundamental_codes_only codes = true ->
  cplus_demangle_v2 (String.length codes + (9 + fuel))
    (Some ("__" ++ ds ++ String k cls ++ codes ++ (if ellipsis then "e" else "")))
    (opts params ansi java gnu_demangling)
  = Ret (Some (let qualified :=
                 String k cls ++ (if java then "." else "::") ++ String k cls in
               if params then arguments_text qualified codes ellipsis
               else qualified)).
Proof.
  intros Hds Hval Hmax Hk Hku Hcls Hcodes.
  apply Ascii.eqb_neq in Hku.
  set (class := String k cls) in *.
  set (o := opts params ansi java gnu_demangling).
  set (ell := if ellipsis then "e" else "").
  set (s := "__" ++ ds ++ class ++ codes ++ ell).
  set (m := (String.length codes + (3 + fuel))%nat).
  set (w0 := entry_state (initial_work o)).
  assert (Hpos : 0 < len class).
  { unfold len, class. cbn [String.length]. lia. }
  destruct ds as [|d ds']; [cbn in Hval; lia|].
  set (dd := String d ds') in *.
  assert (Hd : isdigit d = true).
  { cbn [all_digits] in Hds. now apply andb_true_iff in Hds as [Hd _]. }
  set (t := ds' ++ class ++ codes
            ++ (if ellipsis then String "e" (String NUL EmptyString)
                else String NUL EmptyString)).
  assert (Hrest : rest (cursor_of s) = String "_" (String "_" (String d t))).
  { unfold s, t, ell, dd, cursor_of, rest, block_of.
    cbn [off blk Z.ltb Z.compare Z.to_nat drop append].
    rewrite !append_assoc_s. destruct ellipsis; reflexivity. }
  assert (Hnf : nul_free s = true).
  { unfold s. apply (nul_free_app "__"); [reflexivity|].
    apply nul_free_app; [now apply all_digits_nul_free|].
    apply nul_free_app; [exact Hcls|].
    apply nul_free_app; [now apply fundamental_codes_nul_free|].
    unfold ell. now destruct ellipsis. }
  assert (Hflags : AUTO_DEMANGLING w0 = false /\ GNU_DEMANGLING w0 = true
                   /\ LUCID_DEMANGLING w0 = false /\ ARM_DEMANGLING w0 = false
                   /\ HP_DEMANGLING w0 = false /\ EDG_DEMANGLING w0 = false
                   /\ PRINT_ARG_TYPES w0 = params
                   /\ SCOPE_STRING w0 = if java then "." else "::").
  { unfold w0, o. destruct params, java; repeat split; reflexivity. }
  destruct Hflags as (Hau & Hg & Hl & Ha & Hh & He & Hp & Hscope).
  assert (Hsig : rest (adv (cursor_of s) 2)
                 = dd ++ class ++ codes
                   ++ (if ellipsis then String "e" (String NUL EmptyString)
                       else String NUL EmptyString)).
  { change 2 with (len "__"). apply rest_adv_app; [discriminate|].
    rewrite Hrest. reflexivity. }
  destruct (demangle_signature_member fuel _ EmptyString (set_constructor 1 w0)
              EmptyString dd k cls codes ellipsis EmptyString Constructor Hsig
              eq_refl Hds Hval Hmax Hk Hku
              Hcls Hcodes Hau Hg Hl Ha Hh He eq_refl eq_refl eq_refl eq_refl
              ltac:(cbn; lia))
    as (w' & Hsignature & Hct & Hdt & Himp).
  cbv zeta in Hsignature. cbn [String.length Nat.add] in Hsignature.
  fold m in Hsignature. fold class in Hsignature.
  unfold with_modifiers in Hsignature.
  cbn [modifier_static modifier_quals] in Hsignature.
  change (nz 0) with false in Hsignature. cbv beta iota zeta in Hsignature.
  change (PRINT_ARG_TYPES (set_constructor 1 w0)) with (PRINT_ARG_TYPES w0)
    in Hsignature.
  change (SCOPE_STRING (set_constructor 1 w0)) with (SCOPE_STRING w0) in Hsignature.
  cbn [member_name] in Hsignature.
  rewrite Hp, Hscope, append_empty_r in Hsignature.
  replace (String.length codes + (9 + fuel))%nat with (S (S (S (S (S (S m))))))
    by (unfold m; lia).
  rewrite cplus_demangle_v2_S, run_S. cbv zeta.
  apply (cplus_demangle_v2_of_body _ s _ o w' "_").
  - reflexivity.
  - reflexivity.
  - exact (demangle_body_constructor _ s w0 _ d t _ _ Hrest Hnf Hd
             Hl Ha Hh He eq_refl eq_refl Hsignature Hct Hdt Himp).
  - assert (Hq : nul_free (class ++ (if java then "." else "::") ++ class) = true).
    { apply nul_free_app; [exact Hcls|].
      apply nul_free_app; [now destruct java | exact Hcls]. }
    destruct params; [now apply arguments_text_nul_free | exact Hq].
Qed.

Lemma constructor_with_fundamental_arguments_witness :
  cplus_demangle_v2 (String.length "if" + (9 + 0)) (Some "__6Windowife")
    (opts true true false gnu_demangling)
  = Ret (Some "Window::Window(int, float,...)").
Proof.
  apply (constructor_with_fundamental_arguments 0 true true false
           "6" "W" "indow" "if" true);
    [reflexivity | reflexivity | vm_compute; discriminate
    | reflexivity | discriminate | reflexivity | reflexivity].
Defined.

(** ** Destructors *)

(** An underscore, a marker and an underscore at the start of the input:
    the special form of a destructor of GNU; the prefix is not looked at. *)
Lemma demangle_body_destructor
  (m : nat) (s : string) (w w' : work_stuff) (mk d : ascii) (t text : string)
  (mangled' : cursor) :
  rest (cursor_of s) = String "_" (String mk (String "_" (String d t))) ->
  is_marker mk = true ->
  (d == NUL) = false ->
  GNU_DEMANGLING w = true ->
  destructor w = 0 ->
  Prod.demangle_signature (run (S m)) (adv (cursor_of s) 3) EmptyString
    (set_destructor 1 w)
  = Ret ((1, mangled', text), w') ->
  constructor w' = 0 -> destructor w' = 0 -> dllimported w' = 0 ->
  Prod.demangle_body (run (S (S m))) (cursor_of s) w = Ret ((1, text), w').
Proof.
  intros Hrest Hmk HdN Hg Hdt0 Hsig Hct Hdt Himp.
  set (p := cursor_of s) in *.
  assert (Hp0 : peek p 0 = Ret "_"%char) by exact (rest_peek _ _ _ Hrest).
  assert (Hp1 : peek p 1 = Ret mk)
    by exact (rest_peek_at p "_" mk (String "_" (String d t)) Hrest).
  assert (Hp2 : peek p 2 = Ret "_"%char).
  { change 2 with (len (String "_" (String mk EmptyString))).
    exact (rest_peek_at p (String "_" (String mk EmptyString)) "_" (String d t) Hrest). }
  assert (Hp3 : peek (adv p 3) 0 = Ret d).
  { apply (rest_peek _ _ t).
    change 3 with (len (String "_" (String mk (String "_" EmptyString)))).
    apply rest_adv_app; [discriminate | exact Hrest]. }
  assert (Hspecial : Prod.gnu_special (run (S m)) p EmptyString w
                     = Ret ((1, adv p 3, EmptyString), set_destructor 1 w)).
  { unfold Prod.gnu_special. mbind.
    unfold andR, at_is, at_marker.
    rewrite Hp0, Hp1, Hp2. cbn [rbind]. rewrite Hmk.
    change ("_" == "_")%char with true. cbv beta iota. cbn [rbind].
    cbv beta iota. rewrite Hdt0. reflexivity. }
  unfold Prod.demangle_body. mbind.
  change (r_gnu_special (run (S (S m)))) with (Prod.gnu_special (run (S m))).
  change (r_demangle_signature (run (S (S m))))
    with (Prod.demangle_signature (run (S m))).
  rewrite Hg, orb_true_r. cbv beta iota.
  rewrite Hspecial. cbv beta iota. change (nz 1) with true. cbn [negb].
  cbv beta iota.
  rewrite Hp3. cbv beta iota. rewrite HdN. cbn [negb]. cbv beta iota.
  change (nz 1) with true. cbv beta iota.
  rewrite Hsig. cbv beta iota. rewrite Hct, Hdt, Himp. reflexivity.
Qed.

(** X19.  A destructor in the style of GNU: the mangled name is an
    underscore, a marker ('$' or '.'), an underscore, the length of the
    name of the class in decimal digits, the name of the class, and the
    codes of the types of the arguments, if any.  For a class name without
    terminator that begins with neither a digit nor an underscore, the
    result is the class, the scope separator ("::", or "." with the
    option for Java), a tilde and the class again, and the list of the
    types between parentheses, "(void)" when there is no code; without the
    option to show parameter types, the qualified name alone. *)
Theorem destructor_with_fundamental_arguments
  (fuel : nat) (params ansi java : bool) (mk : ascii)
  (ds : string) (k : ascii) (cls codes : string) (ellipsis : bool) :
  mk = "$"%char \/ mk = "."%char ->
  all_digits ds = true ->
  decimal_value ds = len (String k cls) ->
  len (String k cls) <= INT_MAX ->
  isdigit k = false ->
  k <> "_"%char ->
  nul_free (String k cls) = true ->
  fundamental_codes_only codes = true ->
  cplus_demangle_v2 (String.length codes + (9 + fuel))
    (Some (String "_" (String mk "_") ++ ds ++ String k cls ++ codes
           ++ (if ellipsis then "e" else "")))
    (opts params ansi java gnu_demangling)
  = Ret (Some (let qualified :=
                 String k cls ++ (if java then "." else "::") ++ "~"
                 ++ String k cls in
               if params then arguments_text qualified codes ellipsis
               else qualified)).
Proof.
  intros Hmk Hds Hval Hmax Hk Hku Hcls Hcodes.
  apply Ascii.eqb_neq in Hku.
  set (class := String k cls) in *.
  set (o := opts params ansi java gnu_demangling).
  set (ell := if ellipsis then "e" else "").
  set (s := String "_" (String mk "_") ++ ds ++ class ++ codes ++ ell).
  set (m := (String.length codes + (3 + fuel))%nat).
  set (w0 := entry_state (initial_work o)).
  assert (Hpos : 0 < len class).
  { unfold len, class. cbn [String.length]. lia. }
  destruct ds as [|d ds']; [cbn in Hval; lia|].
  set (dd := String d ds') in *.
  assert (Hd : isdigit d = true).
  { cbn [all_digits] in Hds. now apply andb_true_iff in Hds as [Hd _]. }
  destruct (digit_is_no_letter d Hd) as (HdN & _).
  assert (Hmarker : is_marker mk = true /\ (mk == NUL) = false).
  { destruct Hmk as [-> | ->]; split; reflexivity. }
  destruct Hmarker as [Hmarker HmkN].
  set (t := ds' ++ class ++ codes
            ++ (if ellipsis then String "e" (String NUL EmptyString)
                else String NUL EmptyString)).
  assert (Hrest : rest (cursor_of s)
                  = String "_" (String mk (String "_" (String d t)))).
  { unfold s, t, ell, dd, cursor_of, rest, block_of.
    cbn [off blk Z.ltb Z.compare Z.to_nat drop append].
    rewrite !append_assoc_s. destruct ellipsis; reflexivity. }
  assert (Hflags : AUTO_DEMANGLING w0 = false /\ GNU_DEMANGLING w0 = true
                   /\ LUCID_DEMANGLING w0 = false /\ ARM_DEMANGLING w0 = false
                   /\ HP_DEMANGLING w0 = false /\ EDG_DEMANGLING w0 = false
                   /\ PRINT_ARG_TYPES w0 = params
                   /\ SCOPE_STRING w0 = if java then "." else "::").
  { unfold w0, o. destruct params, java; repeat split; reflexivity. }
  destruct Hflags as (Hau & Hg & Hl & Ha & Hh & He & Hp & Hscope).
  assert (Hsig : rest (adv (cursor_of s) 3)
                 = dd ++ class ++ codes
                   ++ (if ellipsis then String "e" (String NUL EmptyString)
                       else String NUL EmptyString)).
  { change 3 with (len (String "_" (String mk (String "_" EmptyString)))).
    apply rest_adv_app; [discriminate|]. rewrite Hrest. reflexivity. }
  destruct (demangle_signature_member fuel _ EmptyString (set_destructor 1 w0)
              EmptyString dd k cls codes ellipsis EmptyString Destructor Hsig
              eq_refl Hds Hval Hmax
              Hk Hku Hcls Hcodes Hau Hg Hl Ha Hh He eq_refl eq_refl eq_refl eq_refl
              ltac:(cbn; lia))
    as (w' & Hsignature & Hct & Hdt & Himp).
  cbv zeta in Hsignature. cbn [String.length Nat.add] in Hsignature.
  fold m in Hsignature. fold class in Hsignature.
  unfold with_modifiers in Hsignature.
  cbn [modifier_static modifier_quals] in Hsignature.
  change (nz 0) with false in Hsignature. cbv beta iota zeta in Hsignature.
  change (PRINT_ARG_TYPES (set_destructor 1 w0)) with (PRINT_ARG_TYPES w0)
    in Hsignature.
  change (SCOPE_STRING (set_destructor 1 w0)) with (SCOPE_STRING w0) in Hsignature.
  cbn [member_name] in Hsignature.
  rewrite Hp, Hscope, append_empty_r in Hsignature.
  replace (String.length codes + (9 + fuel))%nat with (S (S (S (S (S (S m))))))
    by (unfold m; lia).
  rewrite cplus_demangle_v2_S, run_S. cbv zeta.
  apply (cplus_demangle_v2_of_body _ s _ o w' "_").
  - reflexivity.
  - reflexivity.
  - exact (demangle_body_destructor _ s w0 _ mk d t _ _ Hrest Hmarker HdN Hg
             eq_refl Hsignature Hct Hdt Himp).
  - assert (Hq : nul_free (class ++ (if java then "." else "::") ++ "~" ++ class)
                 = true).
    { apply nul_free_app; [exact Hcls|].
      apply nul_free_app; [now destruct java|].
      apply (nul_free_app "~"); [reflexivity | exact Hcls]. }
    destruct params; [now apply arguments_text_nul_free | exact Hq].
Qed.

Lemma destructor_with_fundamental_arguments_witness :
  cplus_demangle_v2 (String.length "" + (9 + 0)) (Some "_$_6Window")
    (opts true true false gnu_demangling)
  = Ret (Some "Window::~Window(void)").
Proof.
  apply (destructor_with_fundamental_arguments 0 true true false "$"
           "6" "W" "indow" "" false);
    [left; reflexivity | reflexivity | reflexivity | vm_compute; discriminate
    | reflexivity | discriminate | reflexivity | reflexivity].
Defined.

(** ** Virtual tables *)

(** A name with its length before it, as the mangled form has it. *)
Definition counted_name (n : string * string) : bool :=
  let '(ds, cls) := n in
  all_digits ds && (decimal_value ds =? len cls) && (len cls <=? INT_MAX)
  && nul_free cls
  && match cls with
     | EmptyString => false
     | String k _ => negb (isdigit k)
     end.

(** The counted names of [path] with the marker [mk] between two of them. *)
Fixpoint vtable_names (mk : ascii) (path : list (string * string)) : string :=
  match path with
  | [] => EmptyString
  | (ds, cls) :: rest =>
      ds ++ cls ++ match rest with
                   | [] => EmptyString
                   | _ :: _ => String mk (vtable_names mk rest)
                   end
  end.

(** The names of [path] with the scope separator between two of them. *)
Fixpoint qualified_names (sep : string) (path : list (string * string)) : string :=
  match path with
  | [] => EmptyString
  | (_, cls) :: rest =>
      cls ++ match rest with
             | [] => EmptyString
             | _ :: _ => sep ++ qualified_names sep rest
             end
  end.

Lemma vtable_names_nul_free (mk : ascii) (path : list (string * string)) :
  (mk == NUL) = false ->
  forallb counted_name path = true ->
  nul_free (vtable_names mk path) = true.
Proof.
  intros HmkN. induction path as [|[ds cls] path IH]; intros Hok; [reflexivity|].
  cbn [forallb] in Hok. apply andb_true_iff in Hok as [Hn Hpath].
  unfold counted_name in Hn.
  apply andb_true_iff in Hn as [Hn _]. apply andb_true_iff in Hn as [Hn Hcls].
  apply andb_true_iff in Hn as [Hn _]. apply andb_true_iff in Hn as [Hds _].
  cbn [vtable_names].
  apply nul_free_app; [now apply all_digits_nul_free|].
  apply nul_free_app; [exact Hcls|].
  destruct path; [reflexivity|].
  cbn [nul_free]. rewrite HmkN. cbn [negb andb]. now apply IH.
Qed.

(** The loop of [gnu_special] over the names of a virtual table. *)
Lemma gnu_vtable_loop_names (mk : ascii) (path : list (string * string)) :
  forall (fuel : nat) (mangled : cursor) (declp : string) (w : work_stuff)
         (t : string),
    is_marker mk = true ->
    (mk == NUL) = false ->
    forallb counted_name path = true ->
    rest mangled = vtable_names mk path ++ String NUL t ->
    Prod.gnu_vtable_loop (run (List.length path + fuel)) 1 mangled declp w
    = Ret ((1, adv mangled (len (vtable_names mk path)),
            declp ++ qualified_names (SCOPE_STRING w) path), w).
Proof.
  induction path as [|[ds cls] path IH]; intros fuel mangled declp w t Hmk HmkN Hok Hrest.
  - cbn [vtable_names append] in Hrest.
    unfold Prod.gnu_vtable_loop. mbind.
    rewrite (rest_peek _ _ _ Hrest). cbv beta iota.
    change (NUL == NUL) with true. cbv beta iota.
    cbn [vtable_names qualified_names len String.length Z.of_nat].
    rewrite append_empty_r.
    replace (adv mangled 0) with mangled
      by (unfold adv; rewrite Z.add_0_r; now destruct mangled).
    reflexivity.
  - cbn [forallb] in Hok. apply andb_true_iff in Hok as [Hn Hpath].
    unfold counted_name in Hn.
    apply andb_true_iff in Hn as [Hn Hk]. apply andb_true_iff in Hn as [Hn Hcls].
    apply andb_true_iff in Hn as [Hn Hmax]. apply andb_true_iff in Hn as [Hds Hval].
    apply Z.eqb_eq in Hval. apply Z.leb_le in Hmax.
    destruct cls as [|k cls]; [discriminate|]. apply negb_true_iff in Hk.
    set (name := String k cls) in *.
    assert (Hpos : 0 < len name).
    { unfold len, name. cbn [String.length]. lia. }
    destruct ds as [|d ds']; [cbn in Hval; lia|].
    set (dd := String d ds') in *.
    assert (Hd : isdigit d = true).
    { cbn [all_digits] in Hds. now apply andb_true_iff in Hds as [Hd _]. }
    destruct (digit_is_no_letter d Hd)
      as (HdN & _ & HdQ & HdK & _ & _ & _ & _ & _ & _ & Hdt & _).
    set (tail := match path with
                 | [] => EmptyString
                 | _ :: _ => String mk (vtable_names mk path)
                 end) in *.
    cbn [vtable_names] in Hrest |- *. fold tail in Hrest |- *.
    rewrite !append_assoc_s in Hrest.
    assert (Hrest' : rest mangled = String d (ds' ++ name ++ tail ++ String NUL t))
      by exact Hrest.
    assert (Hcount : consume_count mangled = Ret (len name, adv mangled (len dd))).
    { rewrite (consume_count_digits mangled dd k (cls ++ tail ++ String NUL t)
                 Hrest ltac:(discriminate) Hds Hk).
      - rewrite Hval. unfold to_int.
        destruct (Z.leb_spec (len name) INT_MAX); [reflexivity | lia].
      - rewrite Hval. unfold UT32_MAX. unfold INT_MAX in Hmax. lia. }
    assert (Hrn : rest (adv mangled (len dd)) = name ++ tail ++ String NUL t).
    { apply rest_adv_app; [discriminate | exact Hrest]. }
    assert (Hlen : strlen (adv mangled (len dd)) = Ret (len (name ++ tail))).
    { unfold strlen. rewrite Hrn, <- append_assoc_s.
      apply strlen_aux_nul_free. apply nul_free_app; [exact Hcls|].
      unfold tail. destruct path; [reflexivity|].
      cbn [nul_free]. rewrite HmkN. cbn [negb andb].
      now apply vtable_names_nul_free. }
    assert (Hle : (len (name ++ tail) <? len name) = false).
    { apply Z.ltb_ge. rewrite len_app. pose proof (len_nonneg tail). lia. }
    assert (Hcopy : copy (adv mangled (len dd)) (len name) = Ret name).
    { apply (copy_prefix _ _ (tail ++ String NUL t)); [exact Hrn | discriminate]. }
    assert (Hrt : rest (adv (adv mangled (len dd)) (len name)) = tail ++ String NUL t).
    { apply rest_adv_app; [|exact Hrn]. destruct tail; discriminate. }
    assert (Hmarker : one_of mk cplus_markers = true).
    { unfold is_marker in Hmk. rewrite HmkN, orb_false_r in Hmk. exact Hmk. }
    assert (Hpbrk : strpbrk (adv (adv mangled (len dd)) (len name)) cplus_markers
                    = Ret (match path with
                           | [] => None
                           | _ :: _ => Some (adv (adv (adv mangled (len dd)) (len name)) 0)
                           end)).
    { unfold strpbrk, strcspn. rewrite Hrt. unfold tail in Hrt |- *.
      destruct path; cbn [append strcspn_aux] in Hrt |- *.
      - change (NUL == NUL) with true. cbn [orb rbind].
        rewrite (rest_peek _ _ _ Hrt). reflexivity.
      - rewrite Hmarker, orb_true_r. cbn [rbind].
        rewrite (rest_peek _ _ _ Hrt). cbn [rbind]. now rewrite HmkN. }
    cbn [List.length Nat.add run].
    unfold Prod.gnu_vtable_loop at 1. mbind.
    rewrite (rest_peek _ _ _ Hrest'). cbv beta iota.
    rewrite HdN, HdQ, HdK, Hdt, Hd. cbn [orb]. cbv beta iota.
    rewrite Hcount. cbv beta iota. rewrite Hlen. cbv beta iota.
    rewrite Hle. cbv beta iota.
    unfold string_appendn. destruct (Z.eqb_spec (len name) 0); [lia|].
    rewrite Hcopy. cbn [rbind]. cbv beta iota.
    rewrite Hpbrk. cbv beta iota.
    cbn [step r_gnu_vtable_loop].
    change (nz 1) with true. cbn [andb]. cbv beta iota.
    cbn [qualified_names]. unfold tail in *.
    destruct path as [|n2 path'].
    + rewrite (IH fuel _ (declp ++ name) w t Hmk HmkN Hpath Hrt).
      cbn [vtable_names qualified_names len String.length Z.of_nat].
      rewrite !append_empty_r, !adv_adv.
      match goal with
      | |- Ret (_, adv _ ?a, _, _) = Ret (_, adv _ ?b, _, _) =>
          replace a with b by (rewrite len_app; lia)
      end.
      reflexivity.
    + assert (Hoff : (off (adv (adv (adv mangled (len dd)) (len name)) 0)
                      =? off (adv (adv mangled (len dd)) (len name))) = true).
      { apply Z.eqb_eq. unfold adv. cbn [off]. lia. }
      rewrite Hoff. cbv beta iota.
      assert (Hr1 : rest (adv (adv (adv mangled (len dd)) (len name)) 1)
                    = vtable_names mk (n2 :: path') ++ String NUL t).
      { change 1 with (len (String mk EmptyString)).
        apply rest_adv_app; [apply append_nonempty | exact Hrt]. }
      rewrite (IH fuel _ _ w t Hmk HmkN Hpath Hr1).
      unfold string_append. rewrite !append_assoc_s, !adv_adv.
      match goal with
      | |- Ret (_, adv _ ?a, _, _) = Ret (_, adv _ ?b, _, _) =>
          replace a with b
            by (rewrite !len_app;
                change (len (String mk (vtable_names mk (n2 :: path'))))
                  with (Z.of_nat (S (String.length (vtable_names mk (n2 :: path')))));
                unfold len; lia)
      end.
      reflexivity.
Qed.

Lemma qualified_names_nul_free (sep : string) (path : list (string * string)) :
  nul_free sep = true ->
  forallb counted_name path = true ->
  nul_free (qualified_names sep path) = true.
Proof.
  intros Hsep. induction path as [|[ds cls] path IH]; intros Hok; [reflexivity|].
  cbn [forallb] in Hok. apply andb_true_iff in Hok as [Hn Hpath].
  unfold counted_name in Hn.
  apply andb_true_iff in Hn as [Hn _]. apply andb_true_iff in Hn as [_ Hcls].
  cbn [qualified_names]. apply nul_free_app; [exact Hcls|].
  destruct path; [reflexivity|]. apply nul_free_app; [exact Hsep | now apply IH].
Qed.

(** The virtual table of a class and of the classes it is nested in. *)
Lemma virtual_table_demangled
  (fuel : nat) (params ansi java : bool) (mk : ascii)
  (path : list (string * string)) :
  mk = "$"%char \/ mk = "."%char ->
  forallb counted_name path = true ->
  cplus_demangle_v2 (List.length path + (4 + fuel))
    (Some ("_vt" ++ String mk (vtable_names mk path)))
    (opts params ansi java gnu_demangling)
  = Ret (Some (qualified_names (if java then "." else "::") path
               ++ " virtual table")).
Proof.
  intros Hmk Hok.
  set (o := opts params ansi java gnu_demangling).
  set (s := "_vt" ++ String mk (vtable_names mk path)).
  set (m := (List.length path + fuel)%nat).
  set (w0 := entry_state (initial_work o)).
  set (sep := if java then "." else "::").
  assert (Hmarker : is_marker mk = true /\ (mk == NUL) = false).
  { destruct Hmk as [-> | ->]; split; reflexivity. }
  destruct Hmarker as [Hmarker HmkN].
  assert (Hflags : GNU_DEMANGLING w0 = true /\ SCOPE_STRING w0 = sep).
  { unfold w0, o, sep. destruct params, java; split; reflexivity. }
  destruct Hflags as (Hg & Hscope).
  set (p := cursor_of s).
  assert (Hrest : rest p
                  = String "_" (String "v" (String "t" (String mk
                      (vtable_names mk path ++ String NUL EmptyString))))).
  { reflexivity. }
  assert (Hp0 : peek p 0 = Ret "_"%char) by reflexivity.
  assert (Hp1 : peek p 1 = Ret "v"%char) by reflexivity.
  assert (Hp2 : peek p 2 = Ret "t"%char) by reflexivity.
  assert (Hp3 : peek p 3 = Ret mk) by reflexivity.
  assert (Hr4 : rest (adv p 4) = vtable_names mk path ++ String NUL EmptyString).
  { reflexivity. }
  pose proof (gnu_vtable_loop_names mk path fuel (adv p 4) EmptyString w0
                EmptyString Hmarker HmkN Hok Hr4) as Hloop.
  fold m in Hloop. rewrite Hscope in Hloop. cbn [append] in Hloop.
  assert (Hend : peek (adv (adv p 4) (len (vtable_names mk path))) 0 = Ret NUL).
  { apply (rest_peek _ _ EmptyString).
    apply rest_adv_app; [discriminate | exact Hr4]. }
  assert (Hbody : Prod.demangle_body (run (S (S m))) p w0
                  = Ret ((1, qualified_names sep path ++ " virtual table"), w0)).
  { unfold Prod.demangle_body. mbind.
    change (r_gnu_special (run (S (S m)))) with (Prod.gnu_special (run (S m))).
    rewrite Hg, orb_true_r. cbv beta iota.
    unfold Prod.gnu_special. mbind.
    unfold andR, orR, at_is, at_marker.
    rewrite Hp0, Hp1, Hp2, Hp3. cbn [rbind]. rewrite Hmarker.
    change ("_" == "_")%char with true. change ("v" == "_")%char with false.
    change ("v" == "v")%char with true. change ("t" == "t")%char with true.
    change ("t" == "v")%char with false. change (is_marker "v") with false.
    cbv beta iota. cbn [rbind]. cbv beta iota.
    change (r_gnu_vtable_loop (run (S m))) with (Prod.gnu_vtable_loop (run m)).
    rewrite Hloop. cbv beta iota. change (nz 1) with true. cbn [negb].
    cbv beta iota. rewrite Hend. cbv beta iota.
    change (NUL == NUL) with true. cbn [negb]. cbv beta iota.
    reflexivity. }
  replace (List.length path + (4 + fuel))%nat with (S (S (S (S m))))
    by (unfold m; lia).
  rewrite cplus_demangle_v2_S, run_S.
  apply (cplus_demangle_v2_of_body _ s _ o w0 "_").
  - reflexivity.
  - reflexivity.
  - exact Hbody.
  - apply nul_free_app; [|reflexivity].
    apply qualified_names_nul_free; [unfold sep; now destruct java | exact Hok].
Qed.

(** X20.  The virtual table of a class, in the style of GNU: the mangled
    name is "_vt", a marker ('$' or '.') and the names of the class and of
    the classes it is nested in, each with its length in decimal digits
    before it and with the marker between two of them.  When no name is
    empty, begins with a digit or holds a terminator, the result is the
    names with the scope separator ("::", or "." with the option for Java)
    between two of them, followed by " virtual table", under any setting of
    the options for parameters and qualifiers. *)
Theorem virtual_table_of_nested_classes
  (fuel : nat) (params ansi java : bool) (mk : ascii)
  (path : list (string * string)) :
  mk = "$"%char \/ mk = "."%char ->
  forallb counted_name path = true ->
  cplus_demangle_v2 (List.length path + (4 + fuel))
    (Some ("_vt" ++ String mk (vtable_names mk path)))
    (opts params ansi java gnu_demangling)
  = Ret (Some (qualified_names (if java then "." else "::") path
               ++ " virtual table")).
Proof. exact (virtual_table_demangled fuel params ansi java mk path). Qed.

Lemma virtual_table_of_nested_classes_witness :
  cplus_demangle_v2 (List.length [("3", "Foo"); ("6", "Window")] + (4 + 0))
    (Some "_vt$3Foo$6Window") (opts true true false gnu_demangling)
  = Ret (Some "Foo::Window virtual table").
Proof.
  apply (virtual_table_of_nested_classes 0 true true false "$"
           [("3", "Foo"); ("6", "Window")]);
    [left; reflexivity | reflexivity].
Defined.

(** ** Static data members *)

(** No byte of [s] is a marker or the terminator. *)
Fixpoint marker_free (s : string) : bool :=
  match s with
  | EmptyString => true
  | String c s' => negb (is_marker c) && marker_free s'
  end.

Lemma marker_free_app (a b : string) :
  marker_free a = true -> marker_free b = true -> marker_free (a ++ b) = true.
Proof.
  induction a as [|c a IH]; intros Ha Hb; [exact Hb|].
  cbn [marker_free append] in *. apply andb_true_iff in Ha as [Hc Ha].
  now rewrite Hc, (IH Ha Hb).
Qed.

Lemma marker_free_nul_free (a : string) : marker_free a = true -> nul_free a = true.
Proof.
  induction a as [|c a IH]; intros Ha; [reflexivity|].
  cbn [marker_free nul_free] in *. apply andb_true_iff in Ha as [Hc Ha].
  rewrite (IH Ha), andb_true_r.
  unfold is_marker in Hc. apply negb_true_iff, orb_false_iff in Hc as [_ Hc].
  now rewrite Hc.
Qed.

Lemma all_digits_marker_free (ds : string) :
  all_digits ds = true -> marker_free ds = true.
Proof.
  induction ds as [|c ds IH]; intros H; [reflexivity|].
  cbn [all_digits] in H. apply andb_true_iff in H as [Hc Hds].
  cbn [marker_free]. rewrite (IH Hds), andb_true_r.
  apply negb_true_iff.
  destruct (is_marker c) eqn:Hm; [|reflexivity].
  unfold is_marker, cplus_markers in Hm. cbn [one_of] in Hm.
  repeat (apply orb_true_iff in Hm as [Hm | Hm]);
    try discriminate; apply Ascii.eqb_eq in Hm; subst c; discriminate Hc.
Qed.

(** [strcspn] over bytes that are no markers, up to a marker. *)
Lemma strcspn_aux_marker_free (a : string) :
  forall (mk : ascii) (t : string),
    marker_free a = true ->
    is_marker mk = true ->
    strcspn_aux (a ++ String mk t) cplus_markers = Ret (len a).
Proof.
  induction a as [|c a IH]; intros mk t Ha Hmk.
  - cbn [append strcspn_aux]. unfold is_marker in Hmk.
    rewrite orb_comm in Hmk. now rewrite Hmk.
  - cbn [marker_free] in Ha. apply andb_true_iff in Ha as [Hc Ha].
    apply negb_true_iff in Hc. unfold is_marker in Hc. rewrite orb_comm in Hc.
    cbn [append strcspn_aux]. rewrite Hc, (IH mk t Ha Hmk). cbn [rbind].
    unfold len. cbn [String.length]. rewrite Nat2Z.inj_succ. now rewrite Z.add_1_r.
Qed.

Lemma digit_is_counted (d : ascii) :
  isdigit d = true -> one_of d "0123456789Qt" = true.
Proof.
  intros H.
  destruct d as [[|] [|] [|] [|] [|] [|] [|] [|]];
    (vm_compute in H; discriminate H) || reflexivity.
Qed.

(** A static data member of a class. *)
Lemma static_data_member_demangled
  (fuel : nat) (params ansi java : bool) (mk : ascii)
  (ds : string) (k : ascii) (cls member : string) :
  mk = "$"%char \/ mk = "."%char ->
  all_digits ds = true ->
  decimal_value ds = len (String k cls) ->
  len (String k cls) <= INT_MAX ->
  isdigit k = false ->
  marker_free (String k cls) = true ->
  nul_free member = true ->
  cplus_demangle_v2 (3 + fuel)
    (Some ("_" ++ ds ++ String k cls ++ String mk member))
    (opts params ansi java gnu_demangling)
  = Ret (Some (String k cls ++ (if java then "." else "::") ++ member)).
Proof.
  intros Hmk Hds Hval Hmax Hk Hcls Hmem.
  set (class := String k cls) in *.
  set (o := opts params ansi java gnu_demangling).
  set (s := "_" ++ ds ++ class ++ String mk member).
  set (w0 := entry_state (initial_work o)).
  set (sep := if java then "." else "::").
  assert (Hpos : 0 < len class).
  { unfold len, class. cbn [String.length]. lia. }
  destruct ds as [|d ds']; [cbn in Hval; lia|].
  set (dd := String d ds') in *.
  assert (Hd : isdigit d = true).
  { cbn [all_digits] in Hds. now apply andb_true_iff in Hds as [Hd _]. }
  destruct (digit_is_no_letter d Hd)
    as (HdN & Hd_ & HdQ & HdK & _ & _ & _ & _ & _ & Hdv & Hdt & _).
  assert (HdM : is_marker d = false).
  { pose proof (all_digits_marker_free dd Hds) as H. cbn [marker_free] in H.
    apply andb_true_iff in H as [H _]. now apply negb_true_iff in H. }
  assert (Hmarker : is_marker mk = true /\ (mk == NUL) = false).
  { destruct Hmk as [-> | ->]; split; reflexivity. }
  destruct Hmarker as [Hmarker HmkN].
  assert (Hflags : GNU_DEMANGLING w0 = true /\ SCOPE_STRING w0 = sep).
  { unfold w0, o, sep. destruct params, java; split; reflexivity. }
  destruct Hflags as (Hg & Hscope).
  set (p := cursor_of s).
  set (tail := String mk (member ++ String NUL EmptyString)).
  assert (Hrest : rest p = String "_" (dd ++ class ++ tail)).
  { unfold p, s, tail, cursor_of, rest, block_of.
    cbn [off blk Z.ltb Z.compare Z.to_nat drop append].
    now rewrite !append_assoc_s. }
  assert (Hp0 : peek p 0 = Ret "_"%char) by exact (rest_peek _ _ _ Hrest).
  assert (Hp1 : peek p 1 = Ret d) by exact (rest_peek_at p "_" d _ Hrest).
  assert (Hr1 : rest (adv p 1) = dd ++ class ++ tail).
  { change 1 with (len "_"). apply rest_adv_app; [discriminate | exact Hrest]. }
  assert (Hr2 : rest (adv (adv p 1) (len dd)) = class ++ tail).
  { apply rest_adv_app; [discriminate | exact Hr1]. }
  assert (Hr3 : rest (adv (adv (adv p 1) (len dd)) (len class)) = tail).
  { apply rest_adv_app; [discriminate | exact Hr2]. }
  assert (Hr4 : rest (adv (adv (adv (adv p 1) (len dd)) (len class)) 1)
                = member ++ String NUL EmptyString).
  { change 1 with (len (String mk EmptyString)) at 2.
    apply rest_adv_app; [apply append_nonempty | exact Hr3]. }
  assert (Hpbrk : strpbrk p cplus_markers
                  = Ret (Some (adv p (len ("_" ++ dd ++ class))))).
  { unfold strpbrk, strcspn.
    assert (Hr : rest p = ("_" ++ dd ++ class) ++ tail).
    { rewrite Hrest. cbn [append]. now rewrite !append_assoc_s. }
    rewrite Hr. unfold tail.
    rewrite strcspn_aux_marker_free; [|
      apply (marker_free_app "_"); [reflexivity|];
      apply marker_free_app; [now apply all_digits_marker_free | exact Hcls]
      | exact Hmarker].
    cbn [rbind]. rewrite (rest_peek_at p _ mk _ Hr). cbn [rbind].
    now rewrite HmkN. }
  assert (Hcount : consume_count (adv p 1)
                   = Ret (len class, adv (adv p 1) (len dd))).
  { rewrite (consume_count_digits (adv p 1) dd k (cls ++ tail)
               Hr1 ltac:(discriminate) Hds Hk).
    - rewrite Hval. unfold to_int.
      destruct (Z.leb_spec (len class) INT_MAX); [reflexivity | lia].
    - rewrite Hval. unfold UT32_MAX. unfold INT_MAX in Hmax. lia. }
  assert (Hlen2 : strlen (adv (adv p 1) (len dd))
                  = Ret (len (class ++ String mk member))).
  { unfold strlen. rewrite Hr2. unfold tail.
    change (class ++ String mk (member ++ String NUL EmptyString))
      with (class ++ String mk EmptyString ++ member ++ String NUL EmptyString).
    rewrite <- !append_assoc_s. rewrite (append_assoc_s class).
    apply strlen_aux_nul_free. apply nul_free_app.
    - now apply marker_free_nul_free.
    - cbn [append nul_free]. now rewrite HmkN. }
  assert (Hlen4 : strlen (adv (adv (adv (adv p 1) (len dd)) (len class)) 1)
                  = Ret (len member)).
  { unfold strlen. rewrite Hr4. now apply strlen_aux_nul_free. }
  assert (Hcopy2 : copy (adv (adv p 1) (len dd)) (len class) = Ret class).
  { apply (copy_prefix _ _ tail); [exact Hr2 | discriminate]. }
  assert (Hend : peek (adv (adv (adv (adv (adv p 1) (len dd)) (len class)) 1)
                         (len member)) 0 = Ret NUL).
  { apply (rest_peek _ _ EmptyString).
    apply rest_adv_app; [discriminate | exact Hr4]. }
  assert (Hbody : Prod.demangle_body (run (S fuel)) p w0
                  = Ret ((1, class ++ sep ++ member), w0)).
  { unfold Prod.demangle_body. mbind.
    change (r_gnu_special (run (S fuel))) with (Prod.gnu_special (run fuel)).
    rewrite Hg, orb_true_r. cbv beta iota.
    unfold Prod.gnu_special. mbind.
    unfold andR, orR, at_is, at_marker.
    rewrite Hp0, Hp1. cbn [rbind].
    change ("_" == "_")%char with true. cbv beta iota.
    rewrite HdM, Hd_, Hdv. cbn [rbind]. cbv beta iota.
    rewrite (digit_is_counted d Hd). cbn [orb]. cbv beta iota.
    rewrite Hpbrk. cbv beta iota.
    rewrite (rest_peek (adv p 1) d _ Hr1). cbv beta iota.
    rewrite HdQ, HdK, Hdt. cbn [orb]. cbv beta iota.
    rewrite Hcount. cbv beta iota.
    destruct (Z.ltb_spec (len class) 0); [lia|].
    rewrite Hlen2. cbn [rbind].
    assert (Hle : (len (class ++ String mk member) <? len class) = false).
    { apply Z.ltb_ge. rewrite len_app. pose proof (len_nonneg (String mk member)). lia. }
    rewrite Hle. cbv beta iota.
    unfold string_appendn at 1. destruct (Z.eqb_spec (len class) 0); [lia|].
    rewrite Hcopy2. cbn [rbind append]. cbv beta iota.
    change (nz 1) with true.
    assert (Hoff : (off (adv p (len (String "_" (dd ++ class))))
                    =? off (adv (adv (adv p 1) (len dd)) (len class))) = true).
    { apply Z.eqb_eq. unfold adv. cbn [off].
      change (String "_" (dd ++ class)) with ("_" ++ dd ++ class).
      rewrite (len_app "_"), len_app. change (len "_") with 1. lia. }
    rewrite Hoff. cbn [andb]. cbv beta iota.
    rewrite Hlen4. cbv beta iota.
    assert (Happ : string_appendn (string_append class (SCOPE_STRING w0))
                     (adv (adv (adv (adv p 1) (len dd)) (len class)) 1) (len member)
                   = Ret (class ++ sep ++ member)).
    { unfold string_appendn, string_append. rewrite Hscope.
      destruct member as [|c0 member'].
      - cbn [len String.length Z.of_nat Z.eqb]. now rewrite !append_empty_r.
      - destruct (Z.eqb_spec (len (String c0 member')) 0) as [H0|_].
        { unfold len in H0. cbn [String.length] in H0. lia. }
        rewrite (copy_prefix _ _ (String NUL EmptyString) Hr4 ltac:(discriminate)).
        cbn [rbind]. now rewrite append_assoc_s. }
    rewrite Happ. cbv beta iota. change (nz 1) with true. cbn [negb].
    cbv beta iota. rewrite Hend. cbv beta iota.
    change (NUL == NUL) with true. cbn [negb]. cbv beta iota.
    reflexivity. }
  replace (3 + fuel)%nat with (S (S (S fuel))) by lia.
  rewrite cplus_demangle_v2_S, run_S.
  apply (cplus_demangle_v2_of_body _ s _ o w0 "_").
  - reflexivity.
  - reflexivity.
  - exact Hbody.
  - apply nul_free_app; [now apply marker_free_nul_free|].
    apply nul_free_app; [unfold sep; now destruct java | exact Hmem].
Qed.

(** X21.  A static data member in the style of GNU: the mangled name is an
    underscore, the length of the name of the class in decimal digits, the
    name of the class, a marker ('$' or '.') and the name of the member.
    For a class name without marker or terminator that does not begin with
    a digit, and a member name without terminator, the result is the
    class, the scope separator ("::", or "." with the option for Java) and
    the member, under any setting of the options for parameters and
    qualifiers. *)
Theorem static_data_member
  (fuel : nat) (params ansi java : bool) (mk : ascii)
  (ds : string) (k : ascii) (cls member : string) :
  mk = "$"%char \/ mk = "."%char ->
  all_digits ds = true ->
  decimal_value ds = len (String k cls) ->
  len (String k cls) <= INT_MAX ->
  isdigit k = false ->
  marker_free (String k cls) = true ->
  nul_free member = true ->
  cplus_demangle_v2 (3 + fuel)
    (Some ("_" ++ ds ++ String k cls ++ String mk member))
    (opts params ansi java gnu_demangling)
  = Ret (Some (String k cls ++ (if java then "." else "::") ++ member)).
Proof.
  exact (static_data_member_demangled fuel params ansi java mk ds k cls member).
Qed.

Lemma static_data_member_witness :
  cplus_demangle_v2 (3 + 0) (Some "_6Window$count")
    (opts true true false gnu_demangling)
  = Ret (Some "Window::count").
Proof.
  apply (static_data_member 0 true true false "$" "6" "W" "indow" "count");
    [left; reflexivity | reflexivity | reflexivity | vm_compute; discriminate
    | reflexivity | reflexivity | reflexivity].
Defined.

(** ** Functions that run the constructors and destructors of a file *)

Lemma copy_before (p : cursor) (a : string) (c : ascii) (t : string) :
  rest p = a ++ String c t -> copy p (len a) = Ret a.
Proof.
  intros Hrest. destruct a as [|x a].
  - assert (Hoff : 0 <= off p) by (eapply rest_nonneg; exact Hrest).
    unfold copy. cbn [len String.length Z.of_nat Z.ltb Z.compare].
    destruct (Z.ltb_spec (off p) 0); [lia|].
    unfold rest in Hrest. destruct (Z.ltb_spec (off p) 0); [lia|].
    pose proof (drop_length (Z.to_nat (off p)) (blk p)) as Hd.
    rewrite Hrest in Hd. cbn [append String.length] in Hd.
    destruct (Z.leb_spec (off p + 0) (len (blk p))); [|unfold len in *; lia].
    cbn [Z.to_nat]. now destruct (drop _ _).
  - apply (copy_prefix _ _ (String c t)); [exact Hrest | discriminate].
Qed.

(** X22.  The function that runs the constructors, or the destructors, of
    the objects of a file: the mangled name is "_GLOBAL_", a marker ('$' or
    '.'), I or D, the same marker, and a name.  In the style of GNU, for a
    name without terminator that does not begin with an underscore and has
    no two consecutive underscores, the result is "global constructors
    keyed to " or "global destructors keyed to " followed by the name. *)
Theorem global_constructors_keyed_to
  (fuel : nat) (params ansi java : bool) (mk : ascii) (dtor : bool)
  (name : string) :
  mk = "$"%char \/ mk = "."%char ->
  nul_free name = true ->
  String.get 0 name <> Some "_"%char ->
  String.index 0 "__" name = None ->
  cplus_demangle_v2 (4 + fuel)
    (Some ("_GLOBAL_" ++ String mk (String (if dtor then "D" else "I")
                                      (String mk name))))
    (opts params ansi java gnu_demangling)
  = Ret (Some ((if dtor then "global destructors keyed to "
                else "global constructors keyed to ") ++ name)).
Proof.
  intros Hmk Hnf Hfirst Hidx.
  set (o := opts params ansi java gnu_demangling).
  set (kind := if dtor then "D"%char else "I"%char).
  set (s := "_GLOBAL_" ++ String mk (String kind (String mk name))).
  set (w0 := entry_state (initial_work o)).
  set (p := cursor_of s).
  assert (Hmarker : is_marker mk = true /\ (mk == NUL) = false).
  { destruct Hmk as [-> | ->]; split; reflexivity. }
  destruct Hmarker as [Hmarker HmkN].
  assert (Hg : GNU_DEMANGLING w0 = true /\ ARM_DEMANGLING w0 = false
               /\ HP_DEMANGLING w0 = false /\ EDG_DEMANGLING w0 = false).
  { unfold w0, o. now destruct params. }
  destruct Hg as (Hg & Ha & Hh & He).
  assert (Hrest : rest p = "_GLOBAL_" ++ String mk (String kind (String mk
                             (name ++ String NUL EmptyString)))) by reflexivity.
  assert (Hr11 : rest (adv p 11) = name ++ String NUL EmptyString) by reflexivity.
  assert (Hnfs : nul_free s = true).
  { unfold s, kind. cbn [append nul_free]. rewrite HmkN.
    now destruct dtor. }
  assert (Hlen : strlen p = Ret (len s)).
  { unfold strlen, p, cursor_of, rest, block_of.
    cbn [off blk Z.ltb Z.compare Z.to_nat drop]. now apply strlen_aux_nul_free. }
  assert (Hl11 : (11 <=? len s) = true /\ (6 <? len s) = true).
  { unfold s, len. cbn [append String.length]. split; [apply Z.leb_le | apply Z.ltb_lt]; lia. }
  destruct Hl11 as [Hl11 Hl6].
  assert (Hspecial : forall self declp w,
             Prod.gnu_special self p declp w = Ret ((0, p, declp), w)).
  { intros self declp w. reflexivity. }
  assert (Hc0 : exists c0 t0, name ++ String NUL EmptyString = String c0 t0
                              /\ c0 <> "_"%char).
  { destruct name as [|c0 x]; cbn [append].
    - exists NUL, EmptyString. split; [reflexivity | discriminate].
    - exists c0, (x ++ String NUL EmptyString). split; [reflexivity|].
      intros ->. now apply Hfirst. }
  destruct Hc0 as (c0 & t0 & Hname0 & Hc0).
  assert (Hspecial11 : forall self declp w,
             Prod.gnu_special self (adv p 11) declp w = Ret ((0, adv p 11, declp), w)).
  { intros self declp w.
    apply (gnu_special_no_underscore self _ declp w c0 t0); [|exact Hc0].
    now rewrite Hr11. }
  assert (Hscan : Prod.prefix_scan (rest (adv p 11)) 0 = Ret None).
  { rewrite Hr11. now apply prefix_scan_none. }
  assert (Hcstr : Prod.cstr_at (adv p 11) = Ret name).
  { unfold Prod.cstr_at, strlen. rewrite Hr11.
    rewrite (strlen_aux_nul_free name _ Hnf). cbn [rbind].
    exact (copy_before _ name NUL EmptyString Hr11). }
  assert (Hend : peek (adv (adv p 11) (len name)) 0 = Ret NUL).
  { apply (rest_peek _ _ EmptyString).
    apply rest_adv_app; [discriminate | exact Hr11]. }
  assert (Hprefix : Prod.demangle_prefix (run (S fuel)) p EmptyString w0
                    = Ret ((1, adv (adv p 11) (len name), name),
                           if dtor then set_destructor 2 w0
                           else set_constructor 2 w0)).
  { assert (Hi1 : has_prefix p "_imp__" = Ret false) by reflexivity.
    assert (Hi2 : has_prefix p "__imp_" = Ret false) by reflexivity.
    assert (Hgl : has_prefix p "_GLOBAL_" = Ret true) by reflexivity.
    assert (Hp8 : peek p 8 = Ret mk) by reflexivity.
    assert (Hp10 : peek p 10 = Ret mk) by reflexivity.
    assert (Hp9 : peek p 9 = Ret kind) by reflexivity.
    unfold Prod.demangle_prefix. mbind. rewrite Hlen. cbn [rbind].
    rewrite Hl6, Hl11. unfold andR, orR, at_marker, at_is.
    rewrite Hi1, Hi2. cbn [rbind]. rewrite Hgl. cbn [rbind].
    rewrite Hp8, Hp10, Hp9. cbn [rbind]. rewrite Hmarker, Ascii.eqb_refl.
    cbv beta iota.
    change (r_gnu_special (run (S fuel))) with (Prod.gnu_special (run fuel)).
    unfold kind. destruct dtor;
      cbv beta iota delta [Ascii.eqb Bool.eqb orb andb negb];
      rewrite Hspecial11; cbv beta iota; change (nz 0) with false;
      cbv beta iota; rewrite Hscan; cbn [rbind]; cbv beta iota;
      change (nz 0) with false; cbn [negb andb]; cbv beta iota;
      cbn [constructor destructor set_constructor set_destructor];
      change (2 =? 2) with true; rewrite ?orb_true_r; cbn [orb]; cbv beta iota;
      rewrite Hcstr; reflexivity. }
  assert (Hbody : Prod.demangle_body (run (S (S fuel))) p w0
                  = Ret ((1, (if dtor then "global destructors keyed to "
                              else "global constructors keyed to ") ++ name),
                         if dtor then set_destructor 0 (set_destructor 2 w0)
                         else set_constructor 0 (set_constructor 2 w0))).
  { unfold Prod.demangle_body. mbind.
    change (r_gnu_special (run (S (S fuel)))) with (Prod.gnu_special (run (S fuel))).
    change (r_demangle_prefix (run (S (S fuel))))
      with (Prod.demangle_prefix (run (S fuel))).
    rewrite Hg, orb_true_r. cbv beta iota.
    rewrite Hspecial. cbv beta iota. change (nz 0) with false. cbn [negb].
    cbv beta iota. rewrite Hprefix. cbv beta iota.
    change (nz 1) with true. cbv beta iota.
    rewrite Hend. cbv beta iota. change (NUL == NUL) with true. cbn [negb].
    cbv beta iota.
    destruct dtor; reflexivity. }
  replace (4 + fuel)%nat with (S (S (S (S fuel)))) by lia.
  rewrite cplus_demangle_v2_S, run_S.
  apply (cplus_demangle_v2_of_body _ s _ o _ "_" eq_refl eq_refl Hbody).
  apply nul_free_app; [now destruct dtor | exact Hnf].
Qed.

Lemma global_constructors_keyed_to_witness :
  cplus_demangle_v2 (4 + 0) (Some "_GLOBAL_$I$init_tables")
    (opts true true false gnu_demangling)
  = Ret (Some "global constructors keyed to init_tables").
Proof.
  apply (global_constructors_keyed_to 0 true true false "$" false "init_tables");
    [left; reflexivity | reflexivity | discriminate | reflexivity].
Defined.

(** * Back-references and the Java option, over whole types and names *)

(** ** C1: back-reference indices, at any place of a type *)






















(** ** C8: the Java option, over whole names *)

(** *** Arguments that are pointers to fundamental types *)





















(** *** Whole names, with and without the option *)







(** *** Names qualified by nested classes *)














(** *** The two outputs *)
















(** The texts that the families of names below are demangled to, for two
    lists of argument names that are related one by one. *)
Section Related.

Variable R : string -> string -> bool.
Hypothesis R_refl : forall a, R a a = true.
Hypothesis R_app :
  forall a b a' b', R a b = true -> R a' b' = true -> R (a ++ a') (b ++ b') = true.
Hypothesis R_separator : R "::" "." = true.






End Related.






(** *** C8 *)



